(** * ZairyuMate project-file patchers: a shallow embedding

    The repository holds a family of Python scripts that register source
    files in an Xcode [project.pbxproj] manifest by line-oriented text
    rewriting.  This development embeds the scripts the specification
    refers to ([manual_fix.py], [ULTIMATE_FIX.py], [proper_fix.py],
    [add-files-to-xcode.py], [fix_xcode_project.py], [fix_project.py])
    and the other three ([complete_fix.py], [final_complete_fix.py],
    [fix-xcode-project.py]), and states the specification's properties,
    and further properties of the scripts, over the embedding.

    Conventions.  A Python [str] is a Rocq [string]; its characters are
    code points below 256.  A Python [list] of lines is a [list string].
    A [dict] whose iteration order matters is an association list.  The
    file system is a total map from the handful of paths a script touches
    to optional contents; a script reads a file in text mode, that is
    through [universal_newlines], and writes its text as it is.  Discovering files on disk ([rglob]) is outside
    the patcher: its result is an input of the model. *)

From Stdlib Require Import String Ascii List ZArith NArith Lia Bool Arith.
From Stdlib Require Import DecimalString Sorted OrderedTypeEx.
From Stdlib Require DecimalFacts DecimalPos DecimalN.
Import ListNotations.

Open Scope string_scope.
Open Scope list_scope.

(** ** Python string primitives *)

Module Py.

(** [needle in hay] on strings. *)
Fixpoint contains (needle hay : string) : bool :=
  if String.prefix needle hay then true
  else match hay with
       | EmptyString => false
       | String _ t => contains needle t
       end.

(** ['\n'.join(ls)] *)
Fixpoint join_nl (ls : list string) : string :=
  match ls with
  | [] => ""
  | [l] => l
  | l :: r => l ++ String "010" (join_nl r)
  end.

(** [sep.join(ls)] for an arbitrary separator. *)
Fixpoint join (sep : string) (ls : list string) : string :=
  match ls with
  | [] => ""
  | [l] => l
  | l :: r => l ++ sep ++ join sep r
  end.

(** [s.split(c)] for a one-character separator: never the empty list. *)
Fixpoint split (c : ascii) (s : string) : list string :=
  match s with
  | EmptyString => [""]
  | String a t =>
      if Ascii.eqb a c then "" :: split c t
      else match split c t with
           | [] => [String a ""]
           | l :: r => String a l :: r
           end
  end.

Definition split_nl : string -> list string := split "010".

(** The line boundaries of [str.splitlines] among code points below 256:
    LF, VT, FF, CR, FS, GS, RS and NEL. *)
Definition is_boundary (a : ascii) : bool :=
  match nat_of_ascii a with
  | 10 | 11 | 12 | 13 | 28 | 29 | 30 | 133 => true
  | _ => false
  end.

(** [s.splitlines()]: boundaries are dropped, CR LF counts once, and a
    final boundary opens no further line. *)
Fixpoint splitlines (s : string) : list string :=
  match s with
  | EmptyString => []
  | String a t =>
      if is_boundary a then
        match t with
        | String b t' =>
            if (Ascii.eqb a "013" && Ascii.eqb b "010")%bool
            then "" :: splitlines t'
            else "" :: splitlines t
        | EmptyString => [""]
        end
      else match splitlines t with
           | [] => [String a ""]
           | l :: r => String a l :: r
           end
  end.

(** [str(n)] for a non-negative integer. *)
Definition str_of_N (n : N) : string := NilZero.string_of_uint (N.to_uint n).

(** [s.upper()] restricted to what the scripts apply it to: ASCII text. *)
Definition upper_ascii (a : ascii) : ascii :=
  let n := nat_of_ascii a in
  if ((97 <=? n) && (n <=? 122))%nat%bool then ascii_of_nat (n - 32) else a.

Fixpoint upper (s : string) : string :=
  match s with
  | EmptyString => EmptyString
  | String a t => String (upper_ascii a) (upper t)
  end.

(** [s[:n]] *)
Fixpoint take (n : nat) (s : string) : string :=
  match n, s with
  | O, _ => EmptyString
  | _, EmptyString => EmptyString
  | S k, String a t => String a (take k t)
  end.

(** [s[n:]] *)
Fixpoint drop (n : nat) (s : string) : string :=
  match n, s with
  | O, _ => s
  | _, EmptyString => EmptyString
  | S k, String _ t => drop k t
  end.

(** [x in xs] for a list or set of strings. *)
Definition mem (x : string) (xs : list string) : bool :=
  existsb (String.eqb x) xs.

(** [sorted(set(xs))]: the distinct elements in increasing code-point
    order. *)
Fixpoint insert_sorted (x : string) (xs : list string) : list string :=
  match xs with
  | [] => [x]
  | y :: r =>
      match String.compare x y with
      | Lt => x :: y :: r
      | Eq => y :: r
      | Gt => y :: insert_sorted x r
      end
  end.

Definition sorted_set (xs : list string) : list string :=
  fold_right insert_sorted [] xs.

(** Every character of [s] satisfies [p]. *)
Fixpoint all_chars (p : ascii -> bool) (s : string) : bool :=
  match s with
  | EmptyString => true
  | String a t => p a && all_chars p t
  end.

(** No line boundary occurs in [s]. *)
Definition boundary_free (s : string) : bool :=
  all_chars (fun a => negb (is_boundary a)) s.

(** The character [c] does not occur in [s]. *)
Definition char_free (c : ascii) (s : string) : bool :=
  all_chars (fun a => negb (Ascii.eqb a c)) s.

(** [s.endswith('\n')] *)
Fixpoint ends_nl (s : string) : bool :=
  match s with
  | EmptyString => false
  | String a EmptyString => Ascii.eqb a "010"
  | String _ t => ends_nl t
  end.

(** A text all of whose lines end in LF and that uses no other line
    boundary: what [splitlines] followed by ['\n'.join(...) + '\n']
    reproduces. *)
Definition lf_terminated (s : string) : bool :=
  ends_nl s && all_chars (fun a => negb (is_boundary a) || Ascii.eqb a "010") s.

(** A character of the alphabet [0-9A-F]. *)
Definition is_upper_hex (a : ascii) : bool :=
  existsb (Ascii.eqb a) (list_ascii_of_string "0123456789ABCDEF").

(** The lists [s] has no repeated element. *)
Fixpoint nodupb (l : list string) : bool :=
  match l with
  | [] => true
  | x :: r => negb (mem x r) && nodupb r
  end.


(** [s.encode()]: UTF-8, for code points below 256. *)
Definition encode_char (a : ascii) : list Z :=
  let c := Z.of_nat (nat_of_ascii a) in
  if (c <? 128)%Z then [c]
  else [Z.lor 192 (Z.shiftr c 6); Z.lor 128 (Z.land c 63)].

Definition encode (s : string) : list Z :=
  flat_map encode_char (list_ascii_of_string s).

(** [sorted(xs)] on a list of strings (stable insertion sort). *)
Fixpoint insert_le (x : string) (xs : list string) : list string :=
  match xs with
  | [] => [x]
  | y :: r => if String.leb x y then x :: y :: r else y :: insert_le x r
  end.

Definition sorted (xs : list string) : list string :=
  fold_right insert_le [] xs.

(** [s.endswith(suffix)] *)
Definition endswith (s suffix : string) : bool :=
  let n := String.length s in
  let m := String.length suffix in
  (m <=? n)%nat && String.eqb (String.substring (n - m) m s) suffix.

(** What [read_text()] and [open(p).read()] return for a file that holds
    [s]: text mode reads with universal newlines, so every CR LF and
    every other CR comes out as LF. *)
Fixpoint universal_newlines (s : string) : string :=
  match s with
  | EmptyString => EmptyString
  | String a t =>
      if Ascii.eqb a "013" then
        match t with
        | String b t' =>
            if Ascii.eqb b "010" then String "010" (universal_newlines t')
            else String "010" (universal_newlines t)
        | EmptyString => String "010" EmptyString
        end
      else String a (universal_newlines t)
  end.

End Py.

(** ** MD5 (RFC 1321), as computed by [hashlib.md5] *)

Module MD5.

Open Scope Z_scope.

Definition mask32 : Z := 2 ^ 32 - 1.
Definition add32 (a b : Z) : Z := Z.land (a + b) mask32.
Definition not32 (a : Z) : Z := Z.lxor a mask32.
Definition rotl32 (x c : Z) : Z :=
  Z.land (Z.lor (Z.shiftl x c) (Z.shiftr x (32 - c))) mask32.

Definition K : list Z :=
  [ 3614090360; 3905402710; 606105819; 3250441966;
    4118548399; 1200080426; 2821735955; 4249261313;
    1770035416; 2336552879; 4294925233; 2304563134;
    1804603682; 4254626195; 2792965006; 1236535329;
    4129170786; 3225465664; 643717713; 3921069994;
    3593408605; 38016083; 3634488961; 3889429448;
    568446438; 3275163606; 4107603335; 1163531501;
    2850285829; 4243563512; 1735328473; 2368359562;
    4294588738; 2272392833; 1839030562; 4259657740;
    2763975236; 1272893353; 4139469664; 3200236656;
    681279174; 3936430074; 3572445317; 76029189;
    3654602809; 3873151461; 530742520; 3299628645;
    4096336452; 1126891415; 2878612391; 4237533241;
    1700485571; 2399980690; 4293915773; 2240044497;
    1873313359; 4264355552; 2734768916; 1309151649;
    4149444226; 3174756917; 718787259; 3951481745 ].

Definition shifts : list Z :=
  [ 7; 12; 17; 22; 7; 12; 17; 22; 7; 12; 17; 22; 7; 12; 17; 22;
    5; 9; 14; 20; 5; 9; 14; 20; 5; 9; 14; 20; 5; 9; 14; 20;
    4; 11; 16; 23; 4; 11; 16; 23; 4; 11; 16; 23; 4; 11; 16; 23;
    6; 10; 15; 21; 6; 10; 15; 21; 6; 10; 15; 21; 6; 10; 15; 21 ].

Definition state : Type := (Z * Z * Z * Z)%type.

Definition init : state := (1732584193, 4023233417, 2562383102, 271733878).

(** One of the 64 operations of a block. *)
Definition round (M : list Z) (i : nat) (st : state) : state :=
  let '(A, B, C, D) := st in
  let iz := Z.of_nat i in
  let '(F, g) :=
    if (i <? 16)%nat then
      (Z.lor (Z.land B C) (Z.land (not32 B) D), iz)
    else if (i <? 32)%nat then
      (Z.lor (Z.land D B) (Z.land (not32 D) C), (5 * iz + 1) mod 16)
    else if (i <? 48)%nat then
      (Z.lxor (Z.lxor B C) D, (3 * iz + 5) mod 16)
    else
      (Z.lxor C (Z.lor B (not32 D)), (7 * iz) mod 16) in
  let F' := add32 (add32 (add32 F A) (nth i K 0)) (nth (Z.to_nat g) M 0) in
  (D, add32 B (rotl32 F' (nth i shifts 0)), B, C).

Definition word_of_bytes (b0 b1 b2 b3 : Z) : Z :=
  b0 + 256 * b1 + 65536 * b2 + 16777216 * b3.

Fixpoint words_of_bytes (n : nat) (bs : list Z) : list Z :=
  match n, bs with
  | S k, b0 :: b1 :: b2 :: b3 :: r => word_of_bytes b0 b1 b2 b3 :: words_of_bytes k r
  | _, _ => []
  end.

Definition process_block (st : state) (block : list Z) : state :=
  let M := words_of_bytes 16 block in
  let '(A, B, C, D) := fold_left (fun s i => round M i s) (seq 0 64) st in
  let '(a0, b0, c0, d0) := st in
  (add32 a0 A, add32 b0 B, add32 c0 C, add32 d0 D).

Definition le_bytes (n : nat) (w : Z) : list Z :=
  map (fun k => (w / 2 ^ (8 * Z.of_nat k)) mod 256) (seq 0 n).

(** Padding: a 1 bit, zeros up to 56 mod 64, then the bit length on 64
    bits, little endian. *)
Definition pad (msg : list Z) : list Z :=
  let len := Z.of_nat (List.length msg) in
  let zeros := Z.to_nat ((55 - len) mod 64) in
  msg ++ [128] ++ repeat 0 zeros ++ le_bytes 8 ((8 * len) mod 2 ^ 64).

Fixpoint blocks (n : nat) (bs : list Z) : list (list Z) :=
  match n with
  | O => []
  | S k => match bs with
           | [] => []
           | _ => firstn 64 bs :: blocks k (skipn 64 bs)
           end
  end.

Definition digest_bytes (st : state) : list Z :=
  let '(A, B, C, D) := st in
  le_bytes 4 A ++ le_bytes 4 B ++ le_bytes 4 C ++ le_bytes 4 D.

Definition md5 (msg : list Z) : list Z :=
  let p := pad msg in
  digest_bytes (fold_left process_block (blocks (List.length p) p) init).

Definition hexdigit (n : Z) : ascii :=
  match String.get (Z.to_nat n) "0123456789abcdef" with
  | Some a => a
  | None => "0"%char
  end.

Fixpoint hex_of_bytes (bs : list Z) : string :=
  match bs with
  | [] => EmptyString
  | b :: r => String (hexdigit (b / 16)) (String (hexdigit (b mod 16)) (hex_of_bytes r))
  end.

(** [hashlib.md5(s.encode()).hexdigest()] *)
Definition hexdigest (s : string) : string := hex_of_bytes (md5 (Py.encode s)).

End MD5.

(** ** SHA-256 (FIPS 180-4), as computed by [hashlib.sha256] *)

Module SHA256.

Open Scope Z_scope.

Definition mask32 : Z := 2 ^ 32 - 1.
Definition add32 (a b : Z) : Z := Z.land (a + b) mask32.
Definition not32 (a : Z) : Z := Z.lxor a mask32.
Definition rotr32 (x c : Z) : Z :=
  Z.land (Z.lor (Z.shiftr x c) (Z.shiftl x (32 - c))) mask32.

Definition K : list Z :=
  [ 1116352408; 1899447441; 3049323471; 3921009573;
    961987163; 1508970993; 2453635748; 2870763221;
    3624381080; 310598401; 607225278; 1426881987;
    1925078388; 2162078206; 2614888103; 3248222580;
    3835390401; 4022224774; 264347078; 604807628;
    770255983; 1249150122; 1555081692; 1996064986;
    2554220882; 2821834349; 2952996808; 3210313671;
    3336571891; 3584528711; 113926993; 338241895;
    666307205; 773529912; 1294757372; 1396182291;
    1695183700; 1986661051; 2177026350; 2456956037;
    2730485921; 2820302411; 3259730800; 3345764771;
    3516065817; 3600352804; 4094571909; 275423344;
    430227734; 506948616; 659060556; 883997877;
    958139571; 1322822218; 1537002063; 1747873779;
    1955562222; 2024104815; 2227730452; 2361852424;
    2428436474; 2756734187; 3204031479; 3329325298 ].

Definition init : list Z :=
  [ 1779033703; 3144134277; 1013904242; 2773480762;
    1359893119; 2600822924; 528734635; 1541459225 ].

Fixpoint words_of_bytes (n : nat) (bs : list Z) : list Z :=
  match n, bs with
  | S k, b0 :: b1 :: b2 :: b3 :: r =>
      (16777216 * b0 + 65536 * b1 + 256 * b2 + b3) :: words_of_bytes k r
  | _, _ => []
  end.

(** The message schedule, one word at a time. *)
Definition extend (W : list Z) (t : nat) : list Z :=
  let w15 := nth (t - 15) W 0 in
  let w2 := nth (t - 2) W 0 in
  let s0 := Z.lxor (Z.lxor (rotr32 w15 7) (rotr32 w15 18)) (Z.shiftr w15 3) in
  let s1 := Z.lxor (Z.lxor (rotr32 w2 17) (rotr32 w2 19)) (Z.shiftr w2 10) in
  (W ++ [add32 (add32 (add32 (nth (t - 16) W 0) s0) (nth (t - 7) W 0)) s1])%list.

Definition schedule (block : list Z) : list Z :=
  fold_left extend (seq 16 48) (words_of_bytes 16 block).

Definition round (W : list Z) (st : list Z) (t : nat) : list Z :=
  match st with
  | [a; b; c; d; e; f; g; h] =>
      let S1 := Z.lxor (Z.lxor (rotr32 e 6) (rotr32 e 11)) (rotr32 e 25) in
      let ch := Z.lxor (Z.land e f) (Z.land (not32 e) g) in
      let t1 := add32 (add32 (add32 (add32 h S1) ch) (nth t K 0)) (nth t W 0) in
      let S0 := Z.lxor (Z.lxor (rotr32 a 2) (rotr32 a 13)) (rotr32 a 22) in
      let maj := Z.lxor (Z.lxor (Z.land a b) (Z.land a c)) (Z.land b c) in
      let t2 := add32 S0 maj in
      [add32 t1 t2; a; b; c; add32 d t1; e; f; g]
  | _ => st
  end.

Fixpoint add_words (xs ys : list Z) : list Z :=
  match xs, ys with
  | x :: xr, y :: yr => add32 x y :: add_words xr yr
  | _, _ => []
  end.

Definition process_block (st : list Z) (block : list Z) : list Z :=
  add_words st (fold_left (round (schedule block)) (seq 0 64) st).

Definition be_bytes (n : nat) (w : Z) : list Z :=
  map (fun k => (w / 2 ^ (8 * Z.of_nat (n - 1 - k))) mod 256) (seq 0 n).

Definition pad (msg : list Z) : list Z :=
  let len := Z.of_nat (List.length msg) in
  let zeros := Z.to_nat ((55 - len) mod 64) in
  (msg ++ [128] ++ repeat 0 zeros ++ be_bytes 8 ((8 * len) mod 2 ^ 64))%list.

Definition sha256 (msg : list Z) : list Z :=
  let p := pad msg in
  flat_map (be_bytes 4)
    (fold_left process_block (MD5.blocks (List.length p) p) init).

(** [hashlib.sha256(s.encode()).hexdigest()] *)
Definition hexdigest (s : string) : string :=
  MD5.hex_of_bytes (sha256 (Py.encode s)).

End SHA256.

(** [gen_id(seed)] of [manual_fix.py], [final_complete_fix.py] and
    [ULTIMATE_FIX.py] (and [generate_uuid(seed)] of [fix_project.py]):
    [hashlib.md5(str(seed).encode()).hexdigest().upper()[:24]]. *)
Definition gen_id (seed : N) : string :=
  Py.take 24 (Py.upper (MD5.hexdigest (Py.str_of_N seed))).

(** ** The files a run touches *)

Module Disk.

(** [project.pbxproj] and the backup copies the scripts write next to
    it. *)
Inductive path : Type :=
| Manifest          (* project.pbxproj *)
| ManualBackup      (* project.pbxproj.manual_backup *)
| UltimateBackup    (* project.pbxproj.ULTIMATE_BACKUP *)
| StampedBackup     (* project.pbxproj.bak<timestamp>, project.pbxproj.backup.<timestamp> *)
| PlainBackup.      (* project.pbxproj.backup *)

Definition path_eqb (p q : path) : bool :=
  match p, q with
  | Manifest, Manifest | ManualBackup, ManualBackup
  | UltimateBackup, UltimateBackup | StampedBackup, StampedBackup
  | PlainBackup, PlainBackup => true
  | _, _ => false
  end.

(** Contents of each path; [None] when the file does not exist. *)
Definition fs : Type := path -> option string.

(** [p.read_text()] and [open(p).read()]: the content as text mode hands
    it over, with universal newlines. *)
Definition read_text (p : path) (d : fs) : option string :=
  option_map Py.universal_newlines (d p).

(** [p.write_text(s)] and [open(p, 'w').write(s)].  The scripts run on
    macOS (their paths start with [/Users]), where text mode writes LF
    as LF: the file then holds [s]. *)
Definition write_text (p : path) (s : string) (d : fs) : fs :=
  fun q => if path_eqb q p then Some s else d q.

(** What a run says at its end. *)
Inductive report : Type :=
| ValidationPassed
| ValidationFailed
| NoValidation          (* the script has no validation and ran to its end *)
| AnchorsNotFound       (* "ERROR: Could not find insertion points", exit(1) *)
| Crashed.              (* an uncaught exception: IndexError, FileNotFoundError *)

(** Final disk, every [write_text] in program order, and the report. *)
Record run : Type := mkRun {
  disk : fs;
  writes : list (path * string);
  said : report
}.

Definition wrote_manifest (r : run) : list string :=
  map snd (filter (fun w => path_eqb (fst w) Manifest) (writes r)).

End Disk.

(** ** Rendering of the inserted records (shared by the scripts) *)

Module Render.

Definition tab : string := String "009" "".
Definition dq : string := String "034" "".

(** A line indented by two, three or four tabs. *)
Definition t2 (s : string) : string := tab ++ tab ++ s.
Definition t3 (s : string) : string := tab ++ tab ++ tab ++ s.
Definition t4 (s : string) : string := tab ++ tab ++ tab ++ tab ++ s.
Definition group_quoted : string := dq ++ "<group>" ++ dq.

(** [f'\t\t{fid} /* {fname} */ = {{isa = PBXFileReference; lastKnownFileType = {ftype}; path = {fname}; sourceTree = "<group>"; }};'] *)
Definition ref_line (fid fname ftype : string) : string :=
  tab ++ tab ++ fid ++ " /* " ++ fname
  ++ " */ = {isa = PBXFileReference; lastKnownFileType = " ++ ftype
  ++ "; path = " ++ fname ++ "; sourceTree = " ++ dq ++ "<group>" ++ dq ++ "; };".

(** [f'\t\t{bid} /* {fname} in Sources */ = {{isa = PBXBuildFile; fileRef = {fid} /* {fname} */; }};'] *)
Definition build_line (bid fid fname : string) : string :=
  tab ++ tab ++ bid ++ " /* " ++ fname
  ++ " in Sources */ = {isa = PBXBuildFile; fileRef = " ++ fid
  ++ " /* " ++ fname ++ " */; };".

(** [f'\t\t\t\t{bid} /* {fname} in Sources */,'] *)
Definition source_line (bid fname : string) : string :=
  tab ++ tab ++ tab ++ tab ++ bid ++ " /* " ++ fname ++ " in Sources */,".

(** [f'\t\t\t\t{fid} /* {fname} */,'] *)
Definition child_line (fid fname : string) : string :=
  tab ++ tab ++ tab ++ tab ++ fid ++ " /* " ++ fname ++ " */,".

Definition END_BUILDFILE : string := "/* End PBXBuildFile section */".
Definition END_FILEREF : string := "/* End PBXFileReference section */".
Definition END_GROUP : string := "/* End PBXGroup section */".
Definition SOURCES_HDR : string := "A10000042 /* Sources */".
Definition ISA_SOURCES : string := "isa = PBXSourcesBuildPhase".
Definition DATA_MODEL : string := "ZairyuMateDataModel.xcdatamodeld".

(** [curr_files] / [curr]: the names the scripts take as registered. *)
Definition curr : list string :=
  [ "ZairyuMateApp.swift"; "Constants.swift"; "Extensions.swift";
    "ColorTheme.swift"; "Typography.swift"; "Spacing.swift" ].

(** ['wrapper.xcdatamodeld' if '.xcdatamodeld' in fname else 'sourcecode.swift'] *)
Definition ftype_of (fname : string) : string :=
  if Py.contains ".xcdatamodeld" fname then "wrapper.xcdatamodeld"
  else "sourcecode.swift".

(** Does some line of [ls] contain [n]? *)
Definition renders (n : string) (ls : list string) : bool :=
  existsb (Py.contains n) ls.

(** The test of line 82 of proper_fix.py. *)
Definition SOURCES_OPEN : string := "A10000042 /* Sources */ = {".

(** The lines a [while i < len(lines) and pat not in lines[i]] loop
    copies: the longest run of lines without [pat]. *)
Fixpoint span_not (pat : string) (l : list string) : list string :=
  match l with
  | [] => []
  | x :: r => if Py.contains pat x then [] else x :: span_not pat r
  end.

End Render.

(** ** Insertion-only rewriting of a list of lines *)

Module Frame.

(** [framed P original output]: [output] is [original] with lines
    satisfying [P] inserted; every original line is kept, in order. *)
Inductive framed (P : string -> Prop) : list string -> list string -> Prop :=
| framed_nil : framed P [] []
| framed_keep (x : string) (o r : list string) :
    framed P o r -> framed P (x :: o) (x :: r)
| framed_ins (x : string) (o r : list string) :
    P x -> framed P o r -> framed P o (x :: r).

End Frame.

(** ** manual_fix.py *)

Module ManualFix.
Import Py Disk Render.

Record entries : Type := mkEntries {
  refs : list string;
  builds : list string;
  sources : list string
}.

(** Lines 29-34: the discovered Swift file names ([scan], in the order
    of [sorted(src_dir.rglob("*.swift"))]) minus [curr_files], then the
    data model. *)
Definition new_files (scan : list string) : list string :=
  filter (fun n => negb (mem n curr)) scan ++ [DATA_MODEL].

(** Lines 39-51: one reference, one build file and one phase line per
    file, identifiers from consecutive seeds. *)
Fixpoint gen_entries (seed : N) (files : list string) : entries :=
  match files with
  | [] => mkEntries [] [] []
  | fname :: r =>
      let fid := gen_id seed in
      let bid := gen_id (seed + 1) in
      let e := gen_entries (seed + 2) r in
      mkEntries (ref_line fid fname (ftype_of fname) :: refs e)
                (build_line bid fid fname :: builds e)
                (source_line bid fname :: sources e)
  end.

(** The lines the rewriting loop may add. *)
Definition inserted (e : entries) (x : string) : Prop :=
  In x (builds e ++ refs e ++ sources e).


Section Loop.
Variable lines : list string.
Variable e : entries.

(** One iteration of the [while i < len(lines)] loop of lines 59-113,
    entered with [i < len(lines)]; [None] is an [IndexError]. *)
Definition step (i : nat) (output : list string) : option (nat * list string) :=
  match nth_error lines i with
  | None => None
  | Some line =>
      if contains END_BUILDFILE line then
        Some (i + 1, output ++ builds e ++ [line])
      else if contains END_FILEREF line then
        Some (i + 1, output ++ refs e ++ [line])
      else if contains SOURCES_HDR line then
        match nth_error lines (i + 1) with
        | None => None
        | Some isa =>
            if contains ISA_SOURCES isa then
              match nth_error lines (i + 2), nth_error lines (i + 3) with
              | Some mask, Some files_open =>
                  let existing := span_not ");" (skipn (i + 4) lines) in
                  let j := i + 4 + List.length existing in
                  match nth_error lines j with
                  | None => None
                  | Some close =>
                      let rest := span_not "};" (skipn (j + 1) lines) in
                      let k := j + 1 + List.length rest in
                      match nth_error lines k with
                      | None => None
                      | Some brace =>
                          Some (k + 1,
                                output ++ [line; isa; mask; files_open]
                                ++ existing ++ sources e ++ [close]
                                ++ rest ++ [brace])
                      end
                  end
              | _, _ => None
              end
            else Some (i + 1, output ++ [line])
        end
      else Some (i + 1, output ++ [line])
  end.

(** The loop; [fuel] bounds the number of iterations and [None] is
    running out of it. *)
Fixpoint loop (fuel : nat) (i : nat) (output : list string)
  : option (option (list string)) :=
  if (List.length lines <=? i)%nat then Some (Some output)
  else match fuel with
       | O => None
       | S f => match step i output with
                | None => Some None
                | Some (i', output') => loop f i' output'
                end
       end.

End Loop.

(** Lines 56-113 on a document: [Some output], or [None] for an
    [IndexError]. Each iteration advances [i], so [len(lines)] iterations
    are enough (lemma [rewrite_total] below). *)
Definition rewrite (lines : list string) (e : entries) : option (list string) :=
  match loop lines e (List.length lines) 0 [] with
  | Some r => r
  | None => None
  end.

(** Lines 124-125. *)
Definition valid (result_text : string) : bool :=
  contains END_BUILDFILE result_text && contains END_FILEREF result_text.

(** The script from line 17 on, with the list of files to register as a
    parameter. *)
Definition main_with (files : list string) (d : fs) : run :=
  match read_text Manifest d with
  | None => mkRun d [] Crashed
  | Some original =>
      let lines := splitlines original in
      let d1 := write_text ManualBackup original d in
      let w1 := [(ManualBackup, original)] in
      let e := gen_entries 60000 files in
      match rewrite lines e with
      | None => mkRun d1 w1 Crashed
      | Some output =>
          let result_text := (join_nl output ++ String "010" "")%string in
          let d2 := write_text Manifest result_text d1 in
          let w2 := w1 ++ [(Manifest, result_text)] in
          if valid result_text then mkRun d2 w2 ValidationPassed
          else mkRun (write_text Manifest original d2)
                     (w2 ++ [(Manifest, original)]) ValidationFailed
      end
  end.

(** The whole script on a disk [d], given the discovered file names. *)
Definition main (scan : list string) (d : fs) : run :=
  main_with (new_files scan) d.

End ManualFix.

(** A small manifest used in examples. *)
Module Sample.
Import Render.

Definition lines : list string :=
  [ "/* Begin PBXBuildFile section */";
    t2 "A10000001 /* ZairyuMateApp.swift in Sources */ = {isa = PBXBuildFile; fileRef = A10000011 /* ZairyuMateApp.swift */; };";
    "/* End PBXBuildFile section */";
    "/* Begin PBXFileReference section */";
    ref_line "A10000011" "ZairyuMateApp.swift" "sourcecode.swift";
    "/* End PBXFileReference section */";
    "/* Begin PBXSourcesBuildPhase section */";
    t2 "A10000042 /* Sources */ = {";
    t3 "isa = PBXSourcesBuildPhase;";
    t3 "buildActionMask = 2147483647;";
    t3 "files = (";
    t4 "A10000001 /* ZairyuMateApp.swift in Sources */,";
    t3 ");";
    t3 "runOnlyForDeploymentPostprocessing = 0;";
    t2 "};";
    "/* End PBXSourcesBuildPhase section */" ].

Definition text : string := Py.join_nl lines ++ String "010" "".

Definition disk : Disk.fs :=
  fun p => match p with Disk.Manifest => Some text | _ => None end.

(** A disk holding [s] as the manifest and nothing else. *)
Definition only_manifest (s : string) : Disk.fs :=
  fun p => match p with Disk.Manifest => Some s | _ => None end.

(** Both validated sentinels, the last line without a final newline. *)
Definition unterminated : string :=
  Py.join_nl [ END_BUILDFILE; END_FILEREF ].

(** A manifest with one group record, closing the group section. *)
Definition group_lines : list string :=
  [ "/* Begin PBXBuildFile section */";
    "/* End PBXBuildFile section */";
    "/* Begin PBXGroup section */";
    t2 "A10000024 /* Core */ = {";
    t3 "isa = PBXGroup;";
    t3 "children = (";
    t4 "A10000033 /* Models */,";
    t3 ");";
    t3 "path = Core;";
    t2 "};";
    "/* End PBXGroup section */";
    "/* Begin PBXSourcesBuildPhase section */" ].

Definition group_text : string := Py.join_nl group_lines ++ String "010" "".

(** A manifest in which [Foo.swift] is registered already. *)
Definition foo_lines : list string :=
  [ "/* Begin PBXBuildFile section */";
    build_line "F00000000000000000000002" "F00000000000000000000001" "Foo.swift";
    "/* End PBXBuildFile section */";
    "/* Begin PBXFileReference section */";
    ref_line "F00000000000000000000001" "Foo.swift" "sourcecode.swift";
    "/* End PBXFileReference section */";
    "/* Begin PBXSourcesBuildPhase section */";
    t2 "A10000042 /* Sources */ = {";
    t3 "isa = PBXSourcesBuildPhase;";
    t3 "buildActionMask = 2147483647;";
    t3 "files = (";
    source_line "F00000000000000000000002" "Foo.swift";
    t3 ");";
    t3 "runOnlyForDeploymentPostprocessing = 0;";
    t2 "};";
    "/* End PBXSourcesBuildPhase section */" ].

Definition foo_text : string := Py.join_nl foo_lines.



(** Two sentinels of [ULTIMATE_FIX.py], no final newline. *)
Definition unterminated_groups : string :=
  Py.join_nl [ END_BUILDFILE; END_GROUP ].

(** Two lines ended by CR LF, as a Windows editor leaves them, and the
    text a script reads from them. *)
Definition crlf : string :=
  "// a" ++ String "013" (String "010" ("// b" ++ String "013" (String "010" ""))).

Definition crlf_read : string :=
  "// a" ++ String "010" ("// b" ++ String "010" "").


(** The clean copy [ULTIMATE_FIX.py] reads holds [clean]; the manifest
    holds [current]. *)
Definition with_clean_copy (clean current : string) : Disk.fs :=
  fun p => match p with
           | Disk.ManualBackup => Some clean
           | Disk.Manifest => Some current
           | _ => None
           end.

End Sample.

(** ** Insertion-ordered dictionaries *)

Module Dict.

Definition t (V : Type) : Type := list (string * V).

Fixpoint get {V : Type} (k : string) (d : t V) : option V :=
  match d with
  | [] => None
  | (k', v) :: r => if String.eqb k k' then Some v else get k r
  end.

Definition has {V : Type} (k : string) (d : t V) : bool :=
  match get k d with Some _ => true | None => false end.

(** [d[k] = v]: an existing key keeps its place, a new key goes last. *)
Fixpoint set {V : Type} (k : string) (v : V) (d : t V) : t V :=
  match d with
  | [] => [(k, v)]
  | (k', v') :: r =>
      if String.eqb k k' then (k, v) :: r else (k', v') :: set k v r
  end.

(** [d[k] = f(d[k])] for a key that is present; no effect otherwise. *)
Fixpoint update {V : Type} (k : string) (f : V -> V) (d : t V) : t V :=
  match d with
  | [] => []
  | (k', v') :: r =>
      if String.eqb k k' then (k', f v') :: r else (k', v') :: update k f r
  end.

(** [d[k].append(x)] on a [defaultdict(list)]. *)
Definition append {A : Type} (k : string) (x : A) (d : t (list A)) : t (list A) :=
  match get k d with
  | Some l => set k (l ++ [x]) d
  | None => set k [x] d
  end.

Definition keys {V : Type} (d : t V) : list string := map fst d.
Definition values {V : Type} (d : t V) : list V := map snd d.

End Dict.

(** ** ULTIMATE_FIX.py *)

Module UltimateFix.
Import Py Disk Render.

(** Lines 34-50. *)
Definition BASE_GROUPS : Dict.t string :=
  [ ("Core", "A10000024");
    ("Core/Models", "A10000033");
    ("Core/Services", "A10000034");
    ("Core/Storage", "A10000035");
    ("Core/Utilities", "A10000036");
    ("Features", "A10000023");
    ("Features/Home", "A10000028");
    ("Features/Profile", "A10000029");
    ("Features/Documents", "A10000030");
    ("Features/Timeline", "A10000031");
    ("Features/Settings", "A10000032");
    ("UI", "A10000025");
    ("UI/Components", "A10000037");
    ("UI/Styles", "A10000038");
    ("UI/Theme", "A10000039") ].

(** Lines 53-61.  [scan] lists [(f.name, str(rel.parent))] for the Swift
    files found, in sorted path order. *)
Definition file_map (scan : list (string * string)) : Dict.t string :=
  Dict.set DATA_MODEL "Core/Storage"
    (fold_left
       (fun m f => if mem (fst f) curr then m else Dict.set (fst f) (snd f) m)
       scan []).

(** Lines 66-67: [sorted(all_groups - set(BASE_GROUPS.keys()))]. *)
Definition new_groups_needed (base : Dict.t string) (fm : Dict.t string)
  : list string :=
  sorted_set (filter (fun g => negb (mem g (Dict.keys base))) (Dict.values fm)).

Record subgroup : Type := mkSubgroup {
  sg_id : string;
  sg_name : string;
  sg_path : string;
  sg_parent : string;
  sg_files : list (string * string)
}.

(** Lines 75-90: one record per needed path; the keys are pairwise
    distinct, so each assignment [subgroups[group_path] = ...] adds a
    key. *)
Fixpoint make_subgroups (seed : N) (needed : list string) : Dict.t subgroup :=
  match needed with
  | [] => []
  | group_path :: r =>
      let parts := split "/" group_path in
      let group_name := last parts "" in
      let parent_path := join "/" (removelast parts) in
      (group_path, mkSubgroup (gen_id seed) group_name group_name parent_path [])
        :: make_subgroups (seed + 1) r
  end.

(** Line 89 over the whole loop: [BASE_GROUPS[group_path] = id]. *)
Definition extend_base (base : Dict.t string) (sgs : Dict.t subgroup)
  : Dict.t string :=
  fold_left (fun b kv => Dict.set (fst kv) (sg_id (snd kv)) b) sgs base.

Record gen_state : Type := mkGen {
  g_seed : N;
  file_ids : Dict.t string;
  refs : list string;
  builds : list string;
  sources : list string;
  subgroups : Dict.t subgroup
}.

(** Lines 97-111: the body of the loop over [file_map.items()]. *)
Definition gen_file (st : gen_state) (item : string * string) : gen_state :=
  let '(fname, group_path) := item in
  let fid := gen_id (g_seed st) in
  let bid := gen_id (g_seed st + 1) in
  let ftype := ftype_of fname in
  mkGen (g_seed st + 2)
        (Dict.set fname fid (file_ids st))
        (refs st ++ [ref_line fid fname ftype])
        (builds st ++ [build_line bid fid fname])
        (sources st ++ [source_line bid fname])
        (if Dict.has group_path (subgroups st)
         then Dict.update group_path
                (fun sg => mkSubgroup (sg_id sg) (sg_name sg) (sg_path sg)
                             (sg_parent sg) (sg_files sg ++ [(fid, fname)]))
                (subgroups st)
         else subgroups st).

Definition gen_files (sgs : Dict.t subgroup) (fm : Dict.t string) : gen_state :=
  fold_left gen_file fm (mkGen 90000 [] [] [] [] sgs).

(** The names of the files that [file_map] puts at [group_path], in
    dictionary order. *)
Definition files_at (group_path : string) (fm : Dict.t string) : list string :=
  map fst (filter (fun kv => String.eqb group_path (snd kv)) fm).

(** Lines 114-118: files of pre-existing groups, keyed by group id. *)
Definition base_group_files (base : Dict.t string) (st : gen_state)
  (fm : Dict.t string) : Dict.t (list (string * string)) :=
  fold_left
    (fun acc item =>
       let '(fname, group_path) := item in
       match Dict.get group_path base with
       | Some gid =>
           if Dict.has group_path (subgroups st) then acc
           else match Dict.get fname (file_ids st) with
                | Some fid => Dict.append gid (fid, fname) acc
                | None => acc
                end
       | None => acc
       end)
    fm [].

(** Everything the rewriting loop reads. *)
Record plan : Type := mkPlan {
  p_groups : Dict.t string;                        (* BASE_GROUPS, extended *)
  p_gen : gen_state;
  p_base_files : Dict.t (list (string * string))
}.

Definition make_plan (base : Dict.t string) (fm : Dict.t string) : plan :=
  let sgs := make_subgroups 80000 (new_groups_needed base fm) in
  let groups := extend_base base sgs in
  let st := gen_files sgs fm in
  mkPlan groups st (base_group_files groups st fm).

(** Lines 216-226: the definition of a new group. *)
Definition subgroup_def (sg : subgroup) : list string :=
  [ t2 (sg_id sg ++ " /* " ++ sg_name sg ++ " */ = {");
    t3 "isa = PBXGroup;";
    t3 "children = (" ]
  ++ map (fun f => child_line (fst f) (snd f)) (sg_files sg)
  ++ [ t3 ");";
       t3 ("path = " ++ sg_path sg ++ ";");
       t3 ("sourceTree = " ++ group_quoted ++ ";");
       t2 "};" ].

Definition subgroup_defs (sgs : Dict.t subgroup) : list string :=
  flat_map
    (fun k => match Dict.get k sgs with
              | Some sg => subgroup_def sg
              | None => []
              end)
    (sorted_set (Dict.keys sgs)).

(** The lines the rewriting loop may add outside group records. *)
Definition inserted (p : plan) (x : string) : Prop :=
  In x (builds (p_gen p) ++ refs (p_gen p) ++ sources (p_gen p)
        ++ subgroup_defs (subgroups (p_gen p))).

Section Loop.
Variable lines : list string.
Variable p : plan.

(** Lines 148-168, entered when the phase header test holds. *)
Definition sources_block (i : nat) (output : list string)
  : option (nat * list string) :=
  match nth_error lines i, nth_error lines (i + 1),
        nth_error lines (i + 2), nth_error lines (i + 3) with
  | Some line, Some isa, Some mask, Some files_open =>
      let existing := span_not ");" (skipn (i + 4) lines) in
      let j := i + 4 + List.length existing in
      match nth_error lines j with
      | None => None
      | Some close =>
          let rest := span_not "};" (skipn (j + 1) lines) in
          let k := j + 1 + List.length rest in
          match nth_error lines k with
          | None => None
          | Some brace =>
              Some (k + 1,
                    output ++ [line; isa; mask; files_open]
                    ++ existing ++ sources (p_gen p) ++ [close]
                    ++ rest ++ [brace])
          end
      end
  | _, _, _, _ => None
  end.

(** Lines 194-201: the children added to the group [group_id] found at
    [group_path]. *)
Definition new_children (group_path group_id : string) : list string :=
  (match Dict.get group_id (p_base_files p) with
   | Some fs => map (fun f => child_line (fst f) (snd f)) fs
   | None => []
   end)
  ++ flat_map
       (fun kv =>
          if String.eqb (sg_parent (snd kv)) group_path
          then [child_line (sg_id (snd kv)) (sg_name (snd kv))]
          else [])
       (subgroups (p_gen p)).

(** Lines 172-212: the body of [for group_path, group_id in
    BASE_GROUPS.items()] for one group.  [line] is the line the [while]
    iteration started on; [i] and [output] are its current values.  The
    [continue] of line 212 resumes this [for]. *)
Definition group_body (line : string) (st : nat * list string)
  (g : string * string) : option (nat * list string) :=
  let '(i, output) := st in
  let '(group_path, group_id) := g in
  if contains (group_id ++ " /* ") line && contains "= {" line then
    match nth_error lines (i + 1) with
    | Some isa =>
        if contains "isa = PBXGroup" isa then
          let before := span_not "children = (" (skipn (i + 2) lines) in
          let c := i + 2 + List.length before in
          match nth_error lines c with
          | None => None
          | Some children_open =>
              let existing := span_not ");" (skipn (c + 1) lines) in
              let j := c + 1 + List.length existing in
              match nth_error lines j with
              | None => None
              | Some close =>
                  let rest := span_not "};" (skipn (j + 1) lines) in
                  let k := j + 1 + List.length rest in
                  match nth_error lines k with
                  | None => None
                  | Some brace =>
                      Some (k + 1,
                            output ++ [line; isa] ++ before ++ [children_open]
                            ++ existing ++ new_children group_path group_id
                            ++ [close] ++ rest ++ [brace])
                  end
              end
          end
        else Some st
    | None => Some st
    end
  else Some st.

(** The [for] loop of lines 171-212. *)
Fixpoint groups_pass (line : string) (gs : Dict.t string)
  (st : nat * list string) : option (nat * list string) :=
  match gs with
  | [] => Some st
  | g :: r =>
      match group_body line st g with
      | None => None
      | Some st' => groups_pass line r st'
      end
  end.

(** One iteration of the [while] loop of lines 130-229. *)
Definition step (i : nat) (output : list string) : option (nat * list string) :=
  match nth_error lines i with
  | None => None
  | Some line =>
      if contains END_BUILDFILE line then
        Some (i + 1, output ++ builds (p_gen p) ++ [line])
      else if contains END_FILEREF line then
        Some (i + 1, output ++ refs (p_gen p) ++ [line])
      else if contains SOURCES_HDR line
              && match nth_error lines (i + 1) with
                 | Some isa => contains ISA_SOURCES isa
                 | None => false
                 end
      then sources_block i output
      else
        match groups_pass line (p_groups p) (i, output) with
        | None => None
        | Some (i', output') =>
            let output'' :=
              if contains END_GROUP line
              then output' ++ subgroup_defs (subgroups (p_gen p))
              else output' in
            Some (i' + 1, output'' ++ [line])
        end
  end.

Fixpoint loop (fuel : nat) (i : nat) (output : list string)
  : option (option (list string)) :=
  if (List.length lines <=? i)%nat then Some (Some output)
  else match fuel with
       | O => None
       | S f => match step i output with
                | None => Some None
                | Some (i', output') => loop f i' output'
                end
       end.

End Loop.

(** Does the group test of lines 172-174 hold for some group on the pair
    of consecutive lines [line], [isa]? *)
Definition hits_group (p : plan) (line isa : string) : bool :=
  existsb (fun g => contains (snd g ++ " /* ") line && contains "= {" line)
          (p_groups p)
  && contains "isa = PBXGroup" isa.

(** No pair of consecutive lines passes the group test: the document has
    no group record that the loop would rewrite. *)
Fixpoint no_group_hit (p : plan) (lines : list string) : bool :=
  match lines with
  | [] => true
  | line :: r =>
      match r with
      | isa :: _ => negb (hits_group p line isa)
      | [] => true
      end && no_group_hit p r
  end.

Definition rewrite (lines : list string) (p : plan) : option (list string) :=
  match loop lines p (List.length lines) 0 [] with
  | Some r => r
  | None => None
  end.

(** Line 239. *)
Definition valid (result : string) : bool :=
  contains END_BUILDFILE result && contains END_GROUP result.

(** The script with the file table as a parameter. *)
Definition main_with (fm : Dict.t string) (d : fs) : run :=
  match read_text ManualBackup d with
  | None => mkRun d [] Crashed
  | Some text =>
      let lines := splitlines text in
      let d1 := write_text UltimateBackup text d in
      let w1 := [(UltimateBackup, text)] in
      match rewrite lines (make_plan BASE_GROUPS fm) with
      | None => mkRun d1 w1 Crashed
      | Some output =>
          let result := (join_nl output ++ String "010" "")%string in
          let d2 := write_text Manifest result d1 in
          let w2 := w1 ++ [(Manifest, result)] in
          if valid result then mkRun d2 w2 ValidationPassed
          else mkRun (write_text Manifest text d2)
                     (w2 ++ [(Manifest, text)]) ValidationFailed
      end
  end.

Definition main (scan : list (string * string)) (d : fs) : run :=
  main_with (file_map scan) d.

End UltimateFix.

(** ** proper_fix.py *)

Module ProperFix.
Import Py Disk Render.

(** Lines 10-14. *)
Definition gen_id (base : string) : string :=
  take 24 (upper (SHA256.hexdigest base)).

Record entries : Type := mkEntries {
  file_refs : list string;
  build_files : list string;
  source_entries : list string
}.

(** Line 33. *)
Definition to_add (scan : list string) : list string :=
  sorted (filter (fun n => negb (mem n curr)) scan).

(** Lines 50-57. *)
Fixpoint swift_entries (seed : N) (files : list string) : entries * N :=
  match files with
  | [] => (mkEntries [] [] [], seed)
  | fname :: r =>
      let fid := gen_id ("file_" ++ str_of_N seed ++ "_" ++ fname) in
      let bid := gen_id ("build_" ++ str_of_N seed ++ "_" ++ fname) in
      let '(e, seed') := swift_entries (seed + 1) r in
      (mkEntries (ref_line fid fname "sourcecode.swift" :: file_refs e)
                 (build_line bid fid fname :: build_files e)
                 (source_line bid fname :: source_entries e), seed')
  end.

(** Lines 44-67; [has_model] is [cdm_path.exists()]. *)
Definition gen_entries (files : list string) (has_model : bool) : entries :=
  let '(e, seed) := swift_entries 10000 files in
  if has_model then
    let fid := gen_id ("file_coredata_" ++ str_of_N seed) in
    let bid := gen_id ("build_coredata_" ++ str_of_N seed) in
    mkEntries (file_refs e ++ [ref_line fid DATA_MODEL "wrapper.xcdatamodeld"])
              (build_files e ++ [build_line bid fid DATA_MODEL])
              (source_entries e ++ [source_line bid DATA_MODEL])
  else e.

Record anchors : Type := mkAnchors {
  buildfile_end_idx : option nat;
  fileref_end_idx : option nat;
  sources_insert_idx : option nat
}.

(** The first index, counted from [i], of a line of [l] that contains
    [pat]. *)
Fixpoint find_idx (pat : string) (l : list string) (i : nat) : option nat :=
  match l with
  | [] => None
  | x :: r => if contains pat x then Some i else find_idx pat r (S i)
  end.

Section Locate.
Variable lines : list string.

(** The first index in [range(lo, hi)] whose line contains [pat]. *)
Definition find_first (pat : string) (lo hi : nat) : option nat :=
  find_idx pat (firstn (hi - lo) (skipn lo lines)) lo.

(** Lines 78-91: the body of the scan for one line. *)
Definition locate_step (a : anchors) (il : nat * string) : anchors :=
  let '(i, line) := il in
  let b := if contains END_BUILDFILE line then Some i else buildfile_end_idx a in
  let f := if contains END_FILEREF line then Some i else fileref_end_idx a in
  let s :=
    if contains SOURCES_OPEN line then
      match find_first "files = (" i (Nat.min (i + 20) (List.length lines)) with
      | Some j =>
          match find_first ");" (j + 1) (Nat.min (j + 50) (List.length lines)) with
          | Some k => Some k
          | None => sources_insert_idx a
          end
      | None => sources_insert_idx a
      end
    else sources_insert_idx a in
  mkAnchors b f s.

Definition locate : anchors :=
  fold_left locate_step (combine (seq 0 (List.length lines)) lines)
            (mkAnchors None None None).

End Locate.

(** Truth value of an index or [None]: index 0 is false. *)
Definition truthy (x : option nat) : bool :=
  match x with
  | Some (S _) => true
  | _ => false
  end.

(** Line 95. *)
Definition all_found (a : anchors) : bool :=
  truthy (buildfile_end_idx a) && truthy (fileref_end_idx a)
  && truthy (sources_insert_idx a).

Definition at_idx (x : option nat) (i : nat) : bool :=
  match x with
  | Some n => Nat.eqb i n
  | None => false
  end.

(** Lines 100-115. *)
Definition build (a : anchors) (e : entries) (lines : list string) : list string :=
  flat_map
    (fun il =>
       (if at_idx (buildfile_end_idx a) (fst il) then build_files e else [])
       ++ (if at_idx (fileref_end_idx a) (fst il) then file_refs e else [])
       ++ (if at_idx (sources_insert_idx a) (fst il) then source_entries e else [])
       ++ [snd il])
    (combine (seq 0 (List.length lines)) lines).

(** Lines 124. *)
Definition valid (new_text : string) : bool :=
  contains END_BUILDFILE new_text && contains END_FILEREF new_text.

(** The script; line 123 reads the manifest it has just written. *)
Definition main (scan : list string) (has_model : bool) (d : fs) : run :=
  match read_text Manifest d with
  | None => mkRun d [] Crashed
  | Some text =>
      let d1 := write_text StampedBackup text d in
      let w1 := [(StampedBackup, text)] in
      let e := gen_entries (to_add scan) has_model in
      let lines := split_nl text in
      let a := locate lines in
      if negb (all_found a) then mkRun d1 w1 AnchorsNotFound
      else
        let written := join_nl (build a e lines) in
        let d2 := write_text Manifest written d1 in
        let w2 := w1 ++ [(Manifest, written)] in
        match read_text Manifest d2 with
        | None => mkRun d2 w2 Crashed
        | Some new_text =>
            if valid new_text then mkRun d2 w2 ValidationPassed
            else mkRun (write_text Manifest text d2)
                       (w2 ++ [(Manifest, text)]) ValidationFailed
        end
  end.

End ProperFix.

(** ** add-files-to-xcode.py *)

Module AddFiles.
Import Py Disk Render.

(** Lines 27-35. *)
Definition existing_files : list string :=
  [ "ZairyuMateApp.swift"; "Constants.swift"; "Extensions.swift";
    "ColorTheme.swift"; "Typography.swift"; "Spacing.swift";
    "Assets.xcassets" ].

Record file_info : Type := mkInfo {
  name : string;
  path : string;
  parent : string;
  type : string
}.

(** Lines 42-71.  [scan] lists [(swift_file.name, parent_path)] in sorted
    path order; [has_model] is [coredata_path.exists()]. *)
Definition files_to_add (scan : list (string * string)) (has_model : bool)
  : list file_info :=
  map (fun f => mkInfo (fst f) (fst f) (snd f) "sourcecode.swift")
      (filter (fun f => negb (mem (fst f) existing_files)) scan)
  ++ (if has_model
      then [mkInfo DATA_MODEL DATA_MODEL "Core/Storage" "wrapper.xcdatamodeld"]
      else []).

(** Line 92: [file_type == 'sourcecode.swift']. *)
Definition is_source (f : file_info) : bool :=
  String.eqb (type f) "sourcecode.swift".

(** [string.hexdigits.upper()[:16]] *)
Definition alphabet : string := take 16 (upper "0123456789abcdefABCDEF").

Section Random.
(** The generator: [draws n] is the index the [n]-th draw of
    [random.choices] selects. *)
Variable draws : nat -> nat.

(** Lines 11-15: the [n]-th call of [generate_uuid()]. *)
Definition generate_uuid (n : nat) : string :=
  string_of_list_ascii
    (map (fun k => match String.get (draws (24 * n + k) mod 16) alphabet with
                   | Some a => a
                   | None => "0"%char
                   end)
         (seq 0 24)).

Record gen_state : Type := mkGen {
  calls : nat;
  file_refs : list string;
  build_files : list string;
  group_children : Dict.t (list (string * string))
}.

(** Lines 78-103: the loop body for one file. *)
Definition gen_file (st : gen_state) (f : file_info) : gen_state :=
  let file_uuid := generate_uuid (calls st) in
  let build_uuid := generate_uuid (calls st + 1) in
  let refs' := file_refs st ++ [ref_line file_uuid (name f) (type f)] in
  let builds' :=
    if is_source f
    then build_files st ++ [build_line build_uuid file_uuid (name f)]
    else build_files st in
  let gc1 :=
    if is_source f
    then Dict.append "SOURCES" (build_uuid, name f) (group_children st)
    else group_children st in
  let gc2 :=
    if String.eqb (parent f) "" then gc1
    else Dict.append (parent f) (file_uuid, name f) gc1 in
  mkGen (calls st + 2) refs' builds' gc2.

Definition gen (files : list file_info) : gen_state :=
  fold_left gen_file files (mkGen 0 [] [] []).

Definition children_of (key : string) (st : gen_state) : list (string * string) :=
  match Dict.get key (group_children st) with
  | Some l => l
  | None => []
  end.

(** Lines 158-194: the four group tests, in order. *)
Definition GROUP_TESTS : list (string * string) :=
  [ ("A10000033 /* Models */", "Core/Models");
    ("A10000034 /* Services */", "Core/Services");
    ("A10000035 /* Storage */", "Core/Storage");
    ("A10000036 /* Utilities */", "Core/Utilities") ].

Section Loop.
Variable lines : list string.
Variable st : gen_state.

Fixpoint group_chain (gs : list (string * string)) (i : nat) (line : string)
  (new_lines : list string) : list string :=
  match gs with
  | [] => new_lines ++ [line]
  | (marker, key) :: r =>
      if contains marker line && contains "isa = PBXGroup" line then
        match nth_error lines (i + 1) with
        | Some next =>
            if contains "children = (" next then
              (new_lines ++ [line]) ++ [next]
              ++ map (fun c => child_line (fst c) (snd c)) (children_of key st)
            else group_chain r i line (new_lines ++ [line])
        | None => group_chain r i line (new_lines ++ [line])
        end
      else group_chain r i line new_lines
  end.

(** Lines 119-197: one iteration of [for i, line in enumerate(lines)];
    the state is [in_sources_phase] and [new_lines]. *)
Definition step (s : bool * list string) (il : nat * string)
  : bool * list string :=
  let '(in_sources_phase, new_lines) := s in
  let '(i, line) := il in
  if contains "/* Begin PBXBuildFile section */" line then
    (in_sources_phase, new_lines ++ [line] ++ build_files st)
  else if contains "/* Begin PBXFileReference section */" line then
    (in_sources_phase, new_lines ++ [line] ++ file_refs st)
  else
    let in1 :=
      if contains "/* Begin PBXSourcesBuildPhase section */" line
      then true else in_sources_phase in
    let in2 :=
      if contains "/* End PBXSourcesBuildPhase section */" line
      then false else in1 in
    if in2 && contains "files = (" line then
      (in2, new_lines ++ [line]
            ++ map (fun c => source_line (fst c) (snd c)) (children_of "SOURCES" st))
    else (in2, group_chain GROUP_TESTS i line new_lines).

Definition rebuild : list string :=
  snd (fold_left step (combine (seq 0 (List.length lines)) lines) (false, [])).

End Loop.

(** The script. *)
Definition main (scan : list (string * string)) (has_model : bool) (d : fs) : run :=
  match read_text Manifest d with
  | None => mkRun d [] Crashed
  | Some original_content =>
      let st := gen (files_to_add scan has_model) in
      let new_lines := rebuild (split_nl original_content) st in
      let output := join_nl new_lines in
      mkRun (write_text Manifest output (write_text PlainBackup original_content d))
            [(PlainBackup, original_content); (Manifest, output)]
            NoValidation
  end.

End Random.

End AddFiles.

(** ** fix_xcode_project.py, lines 38-57 *)

Module FixXcodeProject.
Import Py Render.

(** What follows the lazy [.+?] in
    [r'/\* (.+?\.swift) \*/ = \{isa = PBXFileReference']. *)
Definition TAIL : string := ".swift */ = {isa = PBXFileReference".

(** The shortest non-empty run of characters other than the newline after
    which [TAIL] follows, as the lazy quantifier finds it. *)
Fixpoint lazy_dot (r : string) : option string :=
  match r with
  | EmptyString => None
  | String c t =>
      if Ascii.eqb c "010" then None
      else if String.prefix TAIL t then Some (String c "")
      else match lazy_dot t with
           | Some g => Some (String c g)
           | None => None
           end
  end.

(** A match of the whole pattern at the start of [s]: group 1 and the
    length of the match. *)
Definition match_here (s : string) : option (string * nat) :=
  if String.prefix "/* " s then
    match lazy_dot (drop 3 s) with
    | Some g => Some ((g ++ ".swift")%string,
                      3 + String.length g + String.length TAIL)
    | None => None
    end
  else None.

(** [re.finditer]: leftmost matches, the search resuming where a match
    ends; [skip] counts the characters of the current match still to be
    passed. *)
Fixpoint finditer (s : string) (skip : nat) : list string :=
  match s with
  | EmptyString => []
  | String _ t =>
      match skip with
      | S k => finditer t k
      | O => match match_here s with
             | Some (g, len) => g :: finditer t (len - 1)
             | None => finditer t 0
             end
      end
  end.

(** Lines 38-40. *)
Definition existing_refs (content : string) : list string :=
  finditer content 0.

Record swift_file : Type := mkSwift {
  sf_path : string;
  sf_parent : string;
  sf_filename : string
}.

(** Lines 47-57.  [scan] lists [(filename, str(rel_path), parent_dir)]
    in sorted path order. *)
Definition all_swift_files (scan : list (string * string * string))
  (content : string) : Dict.t swift_file :=
  fold_left
    (fun m f =>
       let '(filename, rel_path, parent_dir) := f in
       if mem filename (existing_refs content) then m
       else Dict.set filename (mkSwift rel_path parent_dir filename) m)
    scan [].

End FixXcodeProject.

(** ** fix_project.py *)

Module FixProject.
Import Py Disk Render.

(** Line 29. *)
Definition current_files : list string := curr.

(** Lines 32-35, 45. *)
Definition files (scan : list string) : list string :=
  sorted (filter (fun n => negb (mem n current_files)) scan).

Record entries : Type := mkEntries {
  refs : list string;
  builds : list string;
  sources : list string
}.

(** Lines 40-52. *)
Fixpoint gen_entries (uuid_seed : N) (fs : list string) : entries :=
  match fs with
  | [] => mkEntries [] [] []
  | fname :: r =>
      let fid := gen_id uuid_seed in
      let bid := gen_id (uuid_seed + 1) in
      let e := gen_entries (uuid_seed + 2) r in
      mkEntries (ref_line fid fname "sourcecode.swift" :: refs e)
                (build_line bid fid fname :: builds e)
                (source_line bid fname :: sources e)
  end.

(** The lines the assembly may add. *)
Definition inserted (e : entries) (x : string) : Prop :=
  In x (builds e ++ refs e ++ sources e).

(** Lines 58-71: the lines added after line [i]. *)
Definition after (e : entries) (i : nat) : list string :=
  (if Nat.eqb i 16 then builds e else [])
  ++ (if Nat.eqb i 29 then refs e else [])
  ++ (if Nat.eqb i 293 then sources e else []).

Definition assemble (e : entries) (lines : list string) : list string :=
  flat_map (fun il => snd il :: after e (fst il))
           (combine (seq 0 (List.length lines)) lines).

Definition main (scan : list string) (d : fs) : run :=
  match read_text Manifest d with
  | None => mkRun d [] Crashed
  | Some original =>
      let d1 := write_text StampedBackup original d in
      let e := gen_entries 50000 (files scan) in
      let out := join_nl (assemble e (split_nl original)) in
      mkRun (write_text Manifest out d1)
            [(StampedBackup, original); (Manifest, out)]
            NoValidation
  end.

End FixProject.

(** ** proper_fix.py: what the scan records *)

Module ProperFixAux.
Import Py Render ProperFix.

(** An index the scan records points at a line with the sentinel. *)
Definition points_at (lines : list string) (pat : string) (x : option nat) : Prop :=
  forall i, x = Some i ->
    exists l, nth_error lines i = Some l /\ contains pat l = true.

End ProperFixAux.

(** ** manual_fix.py: lines outside the Sources phase *)

Module ManualFixPlain.
Import Py Render ManualFix.

(** What lines 63-74 and 112 append for a line outside the Sources
    phase. *)
Definition plain_line (e : entries) (line : string) : list string :=
  if contains END_BUILDFILE line then builds e ++ [line]
  else if contains END_FILEREF line then refs e ++ [line]
  else [line].

Definition plain_pass (e : entries) (ls : list string) : list string :=
  flat_map (plain_line e) ls.

End ManualFixPlain.

(** ** add-files-to-xcode.py: the lines the loop may add *)

Module AddFilesAux.
Import Py Render AddFiles.

(** The test of lines 158, 169, 178 and 187 holds for [line]. *)
Definition group_hit (line : string) : bool :=
  existsb (fun g => contains (fst g) line) GROUP_TESTS
  && contains "isa = PBXGroup" line.

(** The lines the loop adds outside the group tests. *)
Definition inserted (st : gen_state) (x : string) : Prop :=
  In x (build_files st ++ file_refs st
        ++ map (fun c => source_line (fst c) (snd c)) (children_of "SOURCES" st)).
End AddFilesAux.

(** ** Number formatting *)

Module Fmt.
Import Py.

(** ["0" * n] *)
Definition zeros (n : nat) : string := string_of_list_ascii (repeat "0"%char n).

(** [f"{n:0{w}d}"] on the decimal text [s] of a non-negative [n]: zeros
    in front, up to the width [w]. *)
Definition zfill (w : nat) (s : string) : string :=
  (zeros (w - String.length s) ++ s)%string.

(** [sorted(d.items())] for a dictionary: the items by increasing key. *)
Definition sorted_items {V : Type} (d : Dict.t V) : list (string * V) :=
  flat_map (fun k => match Dict.get k d with
                     | Some v => [(k, v)]
                     | None => []
                     end)
           (sorted (Dict.keys d)).

(** [int(s)] for a string of digits. *)
Definition decode (s : string) : option N :=
  option_map N.of_uint (NilEmpty.uint_of_string s).

(** A decimal digit. *)
Definition is_digit (a : ascii) : bool :=
  existsb (Ascii.eqb a) (list_ascii_of_string "0123456789").

End Fmt.

(** ** fix_xcode_project.py, the whole script *)

Module FixXcodeProjectRun.
Import Py Disk Render Fmt FixXcodeProject.

(** Lines 11-16. *)
Definition generate_xcode_id (counter : N) : string :=
  upper (take 24 (("FILE" ++ zfill 8 (str_of_N counter)) ++ zeros 24)).

(** Lines 67-84. *)
Definition GROUP_IDS : Dict.t string :=
  [ ("App", "A10000022");
    ("Core", "A10000024");
    ("Core/Models", "A10000033");
    ("Core/Services", "A10000034");
    ("Core/Storage", "A10000035");
    ("Core/Utilities", "A10000036");
    ("Features", "A10000023");
    ("Features/Home", "A10000028");
    ("Features/Profile", "A10000029");
    ("Features/Documents", "A10000030");
    ("Features/Timeline", "A10000031");
    ("Features/Settings", "A10000032");
    ("UI", "A10000025");
    ("UI/Components", "A10000037");
    ("UI/Styles", "A10000038");
    ("UI/Theme", "A10000039") ].

(** Lines 87-102. *)
Definition SUBGROUPS_NEEDED : Dict.t (option string) :=
  map (fun p => (p, None))
    [ "Features/Home/ViewModels"; "Features/Home/Views";
      "Features/Profile/ViewModels"; "Features/Profile/Views";
      "Features/Documents/ViewModels"; "Features/Documents/Views";
      "Features/Settings/Views"; "Features/Auth/Views";
      "UI/Components/Buttons"; "UI/Components/Cards";
      "UI/Components/Inputs"; "UI/Components/Navigation";
      "UI/Components/Overlays"; "UI/Components/Rings" ].

(** Lines 105-109: the loop over [sorted(SUBGROUPS_NEEDED.keys())]. *)
Fixpoint assign_subgroups (subgroup_counter : N) (paths : list string)
  (tables : Dict.t (option string) * Dict.t string)
  : Dict.t (option string) * Dict.t string :=
  match paths with
  | [] => tables
  | subgroup_path :: r =>
      let id := generate_xcode_id subgroup_counter in
      assign_subgroups (subgroup_counter + 1) r
        (Dict.set subgroup_path (Some id) (fst tables),
         Dict.set subgroup_path id (snd tables))
  end.

Definition tables : Dict.t (option string) * Dict.t string :=
  assign_subgroups 200 (sorted (Dict.keys SUBGROUPS_NEEDED))
                   (SUBGROUPS_NEEDED, GROUP_IDS).

Record gen_state : Type := mkGen {
  file_counter : N;
  file_refs_section : list string;
  build_files_section : list string;
  sources_list : list string;
  group_files : Dict.t (list (string * string))
}.

(** Lines 118-141: the body of the loop over
    [sorted(all_swift_files.items())]. *)
Definition gen_file (st : gen_state) (item : string * swift_file) : gen_state :=
  let '(filename, info) := item in
  let file_id := generate_xcode_id (file_counter st) in
  let build_id := generate_xcode_id (file_counter st + 1) in
  mkGen (file_counter st + 2)
        (file_refs_section st ++ [ref_line file_id filename "sourcecode.swift"])
        (build_files_section st ++ [build_line build_id file_id filename])
        (sources_list st ++ [source_line build_id filename])
        (Dict.append (sf_parent info) (file_id, filename) (group_files st)).

(** Lines 144-159; [has_model] is [coredata_model.exists()]. *)
Definition gen_model (st : gen_state) : gen_state :=
  let file_id := generate_xcode_id (file_counter st) in
  let build_id := generate_xcode_id (file_counter st + 1) in
  mkGen (file_counter st + 2)
        (file_refs_section st ++ [ref_line file_id DATA_MODEL "wrapper.xcdatamodeld"])
        (build_files_section st ++ [build_line build_id file_id DATA_MODEL])
        (sources_list st ++ [source_line build_id DATA_MODEL])
        (Dict.append "Core/Storage" (file_id, DATA_MODEL) (group_files st)).

Definition gen (files : Dict.t swift_file) (has_model : bool) : gen_state :=
  let st := fold_left gen_file (sorted_items files) (mkGen 1000 [] [] [] []) in
  if has_model then gen_model st else st.

(** [subgroup_id and group_files.get(subgroup_path)] as a condition. *)
Definition has_files (st : gen_state) (subgroup_path : string)
  (subgroup_id : option string) : bool :=
  match subgroup_id, Dict.get subgroup_path (group_files st) with
  | Some id, Some (_ :: _) => negb (String.eqb id "")
  | _, _ => false
  end.

(** [group_path.split('/')[-1]] *)
Definition last_segment (group_path : string) : string :=
  last (split "/" group_path) "".

Section Loop.
Variable lines : list string.
Variable st : gen_state.

(** Lines 232-247: the reference to a subgroup of [group_path]; the flag
    [subgroups_added] lets the first subgroup with files through and no
    other. *)
Fixpoint subgroup_refs (group_path : string)
  (items : list (string * option string)) : list string :=
  match items with
  | [] => []
  | (subgroup_path, subgroup_id) :: r =>
      if String.prefix (group_path ++ "/") subgroup_path
         && has_files st subgroup_path subgroup_id
      then match subgroup_id with
           | Some id => [child_line id (last_segment subgroup_path)]
           | None => []
           end
      else subgroup_refs group_path r
  end.

(** Lines 222-260: the body of [for group_path, group_id in
    GROUP_IDS.items()] for one group; [line] is the line the [while]
    iteration started on.  The [continue] of line 260 resumes this
    [for]. *)
Definition group_body (line : string) (s : nat * list string)
  (g : string * string) : nat * list string :=
  let '(i, out) := s in
  let '(group_path, group_id) := g in
  if contains (group_id ++ " /* " ++ last_segment group_path ++ " */") line
     && contains "isa = PBXGroup" line
  then
    let before := span_not "children = (" (skipn (i + 1) lines) in
    let c := i + 1 + List.length before in
    match nth_error lines c with
    | None => (c, out ++ [line] ++ before)
    | Some children_open =>
        let existing := span_not ");" (skipn (c + 1) lines) in
        (c + 1 + List.length existing,
         out ++ [line] ++ before ++ [children_open]
         ++ subgroup_refs group_path (sorted_items (fst tables))
         ++ existing
         ++ match Dict.get group_path (group_files st) with
            | Some fs => map (fun f => child_line (fst f) (snd f)) fs
            | None => []
            end)
    end
  else s.

(** One iteration of the [while] loop of lines 170-263. *)
Definition step (i : nat) (out : list string) : option (nat * list string) :=
  match nth_error lines i with
  | None => None
  | Some line =>
      if contains "/* Begin PBXBuildFile section */" line then
        let existing := span_not END_BUILDFILE (skipn (i + 1) lines) in
        Some (i + 1 + List.length existing,
              out ++ [line] ++ existing ++ build_files_section st)
      else if contains "/* Begin PBXFileReference section */" line then
        let existing := span_not END_FILEREF (skipn (i + 1) lines) in
        Some (i + 1 + List.length existing,
              out ++ [line] ++ existing ++ file_refs_section st)
      else if contains SOURCES_OPEN line then
        let before := span_not "files = (" (skipn (i + 1) lines) in
        let j := i + 1 + List.length before in
        match nth_error lines j with
        | None => Some (j, out ++ [line] ++ before)
        | Some files_open =>
            let existing := span_not ");" (skipn (j + 1) lines) in
            Some (j + 1 + List.length existing,
                  out ++ [line] ++ before ++ [files_open] ++ existing
                  ++ sources_list st)
        end
      else
        let '(i', out') := fold_left (group_body line) (snd tables) (i, out) in
        Some (i' + 1, out' ++ [line])
  end.

(** The loop; [None] is running out of [fuel]. *)
Fixpoint loop (fuel : nat) (i : nat) (out : list string) : option (list string) :=
  if (List.length lines <=? i)%nat then Some out
  else match fuel with
       | O => None
       | S f => match step i out with
                | None => None
                | Some (i', out') => loop f i' out'
                end
       end.

(** Lines 267-282: the definition of one subgroup, a text of several
    lines. *)
Definition subgroup_def (subgroup_path subgroup_id : string) : string :=
  let subgroup_name := last_segment subgroup_path in
  let children_entries :=
    match Dict.get subgroup_path (group_files st) with
    | Some fs => map (fun f => child_line (fst f) (snd f)) fs
    | None => []
    end in
  join_nl
    [ t2 (subgroup_id ++ " /* " ++ subgroup_name ++ " */ = {");
      t3 "isa = PBXGroup;";
      t3 "children = (";
      join_nl children_entries;
      t3 ");";
      t3 ("path = " ++ subgroup_name ++ ";");
      t3 ("sourceTree = " ++ group_quoted ++ ";");
      t2 "};" ].

Definition subgroup_definitions : list string :=
  flat_map (fun item =>
              if has_files st (fst item) (snd item)
              then match snd item with
                   | Some id => [subgroup_def (fst item) id]
                   | None => []
                   end
              else [])
           (sorted_items (fst tables)).

(** Lines 285-291. *)
Definition final_lines (new_content_lines : list string) : list string :=
  flat_map (fun line => if contains END_GROUP line
                        then subgroup_definitions ++ [line]
                        else [line])
           new_content_lines.

End Loop.

(** Lines 166-263; every iteration advances [i], so [len(lines)]
    iterations are enough. *)
Definition rewrite (lines : list string) (st : gen_state) : option (list string) :=
  loop lines st (List.length lines) 0 [].

(** The script; [scan] lists [(filename, str(rel_path), parent_dir)] in
    sorted path order. *)
Definition main (scan : list (string * string * string)) (has_model : bool)
  (d : fs) : run :=
  match read_text Manifest d with
  | None => mkRun d [] Crashed
  | Some content =>
      let d1 := write_text StampedBackup content d in
      let w1 := [(StampedBackup, content)] in
      let st := gen (all_swift_files scan content) has_model in
      match rewrite (split_nl content) st with
      | None => mkRun d1 w1 Crashed
      | Some new_content_lines =>
          let new_content := join_nl (final_lines st new_content_lines) in
          mkRun (write_text Manifest new_content d1)
                (w1 ++ [(Manifest, new_content)]) NoValidation
      end
  end.

End FixXcodeProjectRun.

(** ** fix_xcode_project.py: the lines the loop may add *)

Module FixXcodeProjectAux.
Import Py Render Fmt FixXcodeProject FixXcodeProjectRun.

(** The group test of line 223 holds for [line] and some group. *)
Definition group_hit (line : string) : bool :=
  existsb (fun g => contains (snd g ++ " /* " ++ last_segment (fst g) ++ " */") line)
          (snd tables)
  && contains "isa = PBXGroup" line.

(** The lines the script adds outside group records. *)
Definition inserted (st : gen_state) (x : string) : Prop :=
  In x (build_files_section st ++ file_refs_section st ++ sources_list st
        ++ subgroup_definitions st).
End FixXcodeProjectAux.

(** ** complete_fix.py *)

Module CompleteFix.
Import Py Render.

(** The files the script touches. *)
Inductive path : Type :=
| Manifest          (* project.pbxproj *)
| OrigBackup        (* project.pbxproj.backup.20260128_110306 *)
| CompleteBackup.   (* project.pbxproj.complete_backup *)

Definition path_eqb (p q : path) : bool :=
  match p, q with
  | Manifest, Manifest | OrigBackup, OrigBackup
  | CompleteBackup, CompleteBackup => true
  | _, _ => false
  end.

Definition fs : Type := path -> option string.

(** [p.read_text()]: the content in text mode, with universal
    newlines. *)
Definition read_text (p : path) (d : fs) : option string :=
  option_map universal_newlines (d p).

Definition write_text (p : path) (s : string) (d : fs) : fs :=
  fun q => if path_eqb q p then Some s else d q.

Record run : Type := mkRun {
  disk : fs;
  writes : list (path * string);
  said : Disk.report
}.

(** Lines 15-18. *)
Definition gen_id (base : string) : string :=
  take 24 (upper (SHA256.hexdigest base)).

(** Lines 48-62.  [scan] lists [(swift_file.name, parent)] in sorted path
    order. *)
Definition file_groups (scan : list (string * string)) : Dict.t (list string) :=
  Dict.append "Core/Storage" DATA_MODEL
    (fold_left
       (fun m f => if mem (fst f) curr then m else Dict.append (snd f) (fst f) m)
       scan []).

(** Lines 69-82. *)
Definition GROUP_IDS : Dict.t string :=
  [ ("Core/Models", "A10000033");
    ("Core/Services", "A10000034");
    ("Core/Storage", "A10000035");
    ("Core/Utilities", "A10000036");
    ("Features/Home", "A10000028");
    ("Features/Profile", "A10000029");
    ("Features/Documents", "A10000030");
    ("Features/Timeline", "A10000031");
    ("Features/Settings", "A10000032");
    ("UI/Components", "A10000037");
    ("UI/Styles", "A10000038");
    ("UI/Theme", "A10000039") ].

Record subgroup : Type := mkSubgroup {
  sg_id : string;
  sg_name : string;
  sg_parent : string;
  sg_path : string
}.

Record subgroup_def : Type := mkDef {
  d_id : string;
  d_name : string;
  d_path : string;
  children_placeholders : list string
}.

Record groups_state : Type := mkGroups {
  group_ids : Dict.t string;                (* GROUP_IDS, as extended *)
  subgroups_needed : Dict.t subgroup;
  subgroup_defs : list subgroup_def;
  subgroup_id_counter : N
}.

(** Lines 89-117: the body of the loop over [sorted(file_groups.keys())]. *)
Definition add_group (fg : Dict.t (list string)) (gs : groups_state)
  (group_path : string) : groups_state :=
  if negb (String.eqb group_path "") && negb (Dict.has group_path (group_ids gs))
  then
    let parts := split "/" group_path in
    let parent_path := join "/" (removelast parts) in
    let group_name := last parts "" in
    let subgroup_id :=
      gen_id ("group_" ++ str_of_N (subgroup_id_counter gs) ++ "_" ++ group_path) in
    mkGroups
      (Dict.set group_path subgroup_id (group_ids gs))
      (Dict.set group_path (mkSubgroup subgroup_id group_name parent_path group_name)
                (subgroups_needed gs))
      (subgroup_defs gs
       ++ [mkDef subgroup_id group_name group_name
                 (match Dict.get group_path fg with Some l => l | None => [] end)])
      (subgroup_id_counter gs + 1)
  else gs.

Definition make_groups (fg : Dict.t (list string)) : groups_state :=
  fold_left (add_group fg) (sorted (Dict.keys fg)) (mkGroups GROUP_IDS [] [] 1000).

(** Lines 137-142. *)
Definition ftype_of (fname : string) : string :=
  if endswith fname ".swift" then "sourcecode.swift"
  else if endswith fname ".xcdatamodeld" then "wrapper.xcdatamodeld"
  else "text".

Record gen_state : Type := mkGen {
  seed : N;
  file_refs : list string;
  build_files : list string;
  source_entries : list string;
  file_id_map : Dict.t string
}.

(** Lines 129-146: the body of the inner loop. *)
Definition gen_file (st : gen_state) (fname : string) : gen_state :=
  let fid := gen_id ("file_" ++ str_of_N (seed st) ++ "_" ++ fname) in
  let bid := gen_id ("build_" ++ str_of_N (seed st) ++ "_" ++ fname) in
  mkGen (seed st + 1)
        (file_refs st ++ [ref_line fid fname (ftype_of fname)])
        (build_files st ++ [build_line bid fid fname])
        (source_entries st ++ [source_line bid fname])
        (Dict.set fname fid (file_id_map st)).

(** Lines 122-146. *)
Definition gen (fg : Dict.t (list string)) : gen_state :=
  fold_left
    (fun st group_path =>
       fold_left gen_file
         (sorted (match Dict.get group_path fg with Some l => l | None => [] end))
         st)
    (sorted (Dict.keys fg))
    (mkGen 50000 [] [] [] []).

(** Lines 157-161: the files of the groups that have an identifier. *)
Definition children_files (fg : Dict.t (list string)) (gs : groups_state)
  (st : gen_state) : Dict.t (list (string * string)) :=
  fold_left
    (fun acc item =>
       match Dict.get (fst item) (group_ids gs) with
       | Some gid =>
           fold_left
             (fun acc fname =>
                match Dict.get fname (file_id_map st) with
                | Some fid => Dict.append gid (fid, fname) acc
                | None => acc
                end)
             (snd item) acc
       | None => acc
       end)
    fg [].

(** Lines 164-168: the new groups, linked to their parents. *)
Definition link_subgroups (gs : groups_state)
  (acc : Dict.t (list (string * string))) : Dict.t (list (string * string)) :=
  fold_left
    (fun acc item =>
       let info := snd item in
       if negb (String.eqb (sg_parent info) "") then
         match Dict.get (sg_parent info) (group_ids gs) with
         | Some parent_id => Dict.append parent_id (sg_id info, sg_name info) acc
         | None => acc
         end
       else acc)
    (subgroups_needed gs) acc.

(** Everything the rewriting loop reads. *)
Record plan : Type := mkPlan {
  p_groups : groups_state;
  p_gen : gen_state;
  group_children_to_add : Dict.t (list (string * string))
}.

Definition make_plan (fg : Dict.t (list string)) : plan :=
  let gs := make_groups fg in
  let st := gen fg in
  mkPlan gs st (link_subgroups gs (children_files fg gs st)).

(** Lines 233-244: the definition of one new group. *)
Definition render_def (st : gen_state) (sg : subgroup_def) : list string :=
  [ t2 (d_id sg ++ " /* " ++ d_name sg ++ " */ = {");
    t3 "isa = PBXGroup;";
    t3 "children = (" ]
  ++ flat_map (fun fname => match Dict.get fname (file_id_map st) with
                            | Some fid => [child_line fid fname]
                            | None => []
                            end)
              (children_placeholders sg)
  ++ [ t3 ");";
       t3 ("path = " ++ d_path sg ++ ";");
       t3 ("sourceTree = " ++ group_quoted ++ ";");
       t2 "};" ].

Section Loop.
Variable lines : list string.
Variable p : plan.

(** Lines 175-182: there is no [continue] after these two tests. *)
Definition before_line (line : string) : list string :=
  (if contains END_BUILDFILE line then build_files (p_gen p) else [])
  ++ (if contains END_FILEREF line then file_refs (p_gen p) else []).

(** Lines 209-229: the body of [for group_id in GROUP_IDS.values()] for
    one group; [line] is the line the [while] iteration started on.  Line
    227 appends [line] again, and the [continue] of line 229 resumes this
    [for]. *)
Definition group_body (line : string) (s : nat * list string)
  (group_id : string) : nat * list string :=
  let '(i, out) := s in
  if contains (group_id ++ " /* ") line && contains "= {" line then
    let before := span_not "children = (" (skipn (i + 1) lines) in
    let c := i + 1 + List.length before in
    match nth_error lines c with
    | None => (c + 1, out ++ [line] ++ before ++ [line])
    | Some children_open =>
        let existing := span_not ");" (skipn (c + 1) lines) in
        (c + 1 + List.length existing + 1,
         out ++ [line] ++ before ++ [children_open] ++ existing
         ++ match Dict.get group_id (group_children_to_add p) with
            | Some cs => map (fun ch => child_line (fst ch) (snd ch)) cs
            | None => []
            end
         ++ [line])
    end
  else s.

(** One iteration of the [while] loop of lines 171-247. *)
Definition step (i : nat) (out : list string) : option (nat * list string) :=
  match nth_error lines i with
  | None => None
  | Some line =>
      let out0 := out ++ before_line line in
      if contains SOURCES_OPEN line then
        let before := span_not "files = (" (skipn (i + 1) lines) in
        let j := i + 1 + List.length before in
        match nth_error lines j with
        | None => Some (j + 1, out0 ++ [line] ++ before ++ [line])
        | Some files_open =>
            let existing := span_not ");" (skipn (j + 1) lines) in
            Some (j + 1 + List.length existing + 1,
                  out0 ++ [line] ++ before ++ [files_open] ++ existing
                  ++ source_entries (p_gen p) ++ [line])
        end
      else
        let '(i', out') :=
          fold_left (group_body line) (Dict.values (group_ids (p_groups p)))
                    (i, out0) in
        let out'' :=
          if contains END_GROUP line
          then out' ++ flat_map (render_def (p_gen p)) (subgroup_defs (p_groups p))
          else out' in
        Some (i' + 1, out'' ++ [line])
  end.

(** The loop; [None] is running out of [fuel]. *)
Fixpoint loop (fuel : nat) (i : nat) (out : list string) : option (list string) :=
  if (List.length lines <=? i)%nat then Some out
  else match fuel with
       | O => None
       | S f => match step i out with
                | None => None
                | Some (i', out') => loop f i' out'
                end
       end.

End Loop.

(** Lines 153-247; every iteration advances [i]. *)
Definition rewrite (lines : list string) (p : plan) : option (list string) :=
  loop lines p (List.length lines) 0 [].

(** Lines 257-262. *)
Definition valid (result : string) : bool :=
  contains END_BUILDFILE result && contains END_FILEREF result
  && contains END_GROUP result
  && contains "/* End PBXSourcesBuildPhase section */" result.

(** The script from line 37 on, started on a disk whose manifest holds
    [text]. *)
Definition patch (scan : list (string * string)) (text : string) (d : fs)
  (w : list (path * string)) : run :=
  let d1 := write_text CompleteBackup text d in
  let w1 := w ++ [(CompleteBackup, text)] in
  match rewrite (split_nl text) (make_plan (file_groups scan)) with
  | None => mkRun d1 w1 Disk.Crashed
  | Some new_lines =>
      let result := join_nl new_lines in
      let d2 := write_text Manifest result d1 in
      let w2 := w1 ++ [(Manifest, result)] in
      if valid result then mkRun d2 w2 Disk.ValidationPassed
      else mkRun (write_text Manifest text d2)
                 (w2 ++ [(Manifest, text)]) Disk.ValidationFailed
  end.

(** Lines 29-35: the dated backup, when it exists, is read and written
    in the place of the manifest. *)
Definition restore_original (d : fs) : fs * list (path * string) :=
  match read_text OrigBackup d with
  | Some orig => (write_text Manifest orig d, [(Manifest, orig)])
  | None => (d, [])
  end.

(** The script: line 37 reads the manifest after lines 29-35. *)
Definition main (scan : list (string * string)) (d : fs) : run :=
  let '(d0, w0) := restore_original d in
  match read_text Manifest d0 with
  | Some text => patch scan text d0 w0
  | None => mkRun d0 w0 Disk.Crashed
  end.

End CompleteFix.

(** ** complete_fix.py: lines treated on their own *)

Module CompleteFixAux.
Import Py Render CompleteFix.

(** The group test of line 209 holds for [line] and some group. *)
Definition group_hit (p : plan) (line : string) : bool :=
  existsb (fun gid => contains (gid ++ " /* ") line && contains "= {" line)
          (Dict.values (group_ids (p_groups p))).

(** What one iteration appends for a line that is neither the header of
    the Sources phase nor the start of a group record. *)
Definition plain_line (p : plan) (line : string) : list string :=
  before_line p line
  ++ (if contains END_GROUP line
      then flat_map (render_def (p_gen p)) (subgroup_defs (p_groups p))
      else [])
  ++ [line].

Definition plain_pass (p : plan) (ls : list string) : list string :=
  flat_map (plain_line p) ls.

(** A line the loop treats on its own. *)
Definition plain (p : plan) (line : string) : bool :=
  negb (contains SOURCES_OPEN line) && negb (group_hit p line).

(** The four sentinels the validation looks for. *)
Definition SENTINELS : list string :=
  [ END_BUILDFILE; END_FILEREF; END_GROUP;
    "/* End PBXSourcesBuildPhase section */" ].

End CompleteFixAux.

(** ** fix-xcode-project.py *)

Module FixXcodeProjectDash.
Import Py Disk Render Fmt.

(** Lines 19-26. *)
Definition existing_files : list string := curr.

(** Lines 29-46.  [scan] lists [(filename, list(rel_path.parent.parts))]
    in the order [rglob] yields the files. *)
Definition all_swift_files (scan : list (string * list string))
  : list (string * list string) :=
  filter (fun f => negb (mem (fst f) existing_files)) scan.

(** Lines 59-72. *)
Definition group_mapping : Dict.t string :=
  [ ("Models", "A10000033");
    ("Services", "A10000034");
    ("Storage", "A10000035");
    ("Utilities", "A10000036");
    ("Components", "A10000037");
    ("Styles", "A10000038");
    ("Theme", "A10000039");
    ("Home", "A10000028");
    ("Profile", "A10000029");
    ("Documents", "A10000030");
    ("Timeline", "A10000031");
    ("Settings", "A10000032") ].

Record new_group : Type := mkGroup {
  ng_id : string;
  ng_files : list (string * string);
  ng_path : list string
}.

Record gen_state : Type := mkGen {
  id_counter : N;
  file_references : list string;
  build_files : list string;
  sources_to_add : list string;
  new_groups : Dict.t new_group;
  new_group_counter : N
}.

(** [f"A100000{n:02d}"] *)
Definition file_id (n : N) : string := "A100000" ++ zfill 2 (str_of_N n).

(** [f"A100001{n:02d}"] *)
Definition group_id (n : N) : string := "A100001" ++ zfill 2 (str_of_N n).

(** Lines 78-120: the body of the loop over [all_swift_files].  The
    groups it collects are read nowhere else in the script. *)
Definition gen_file (st : gen_state) (file_info : string * list string)
  : gen_state :=
  let '(filename, group_path) := file_info in
  let file_ref_id := file_id (id_counter st) in
  let build_file_id := file_id (id_counter st + 1) in
  let '(groups, counter) :=
    match group_path with
    | [] => (new_groups st, new_group_counter st)
    | _ :: _ =>
        let group_name := last group_path "" in
        if Dict.has group_name group_mapping
        then (new_groups st, new_group_counter st)
        else
          let '(groups1, counter1) :=
            if Dict.has group_name (new_groups st)
            then (new_groups st, new_group_counter st)
            else (Dict.set group_name
                    (mkGroup (group_id (new_group_counter st)) [] group_path)
                    (new_groups st),
                  (new_group_counter st + 1)%N) in
          (Dict.update group_name
             (fun g => mkGroup (ng_id g)
                         (ng_files g ++ [(file_ref_id, filename)]) (ng_path g))
             groups1,
           counter1)
    end in
  mkGen (id_counter st + 2)
        (file_references st ++ [ref_line file_ref_id filename "sourcecode.swift"])
        (build_files st ++ [build_line build_file_id file_ref_id filename])
        (sources_to_add st ++ [source_line build_file_id filename])
        groups counter.

Definition gen (files : list (string * list string)) : gen_state :=
  fold_left gen_file files (mkGen 50 [] [] [] [] 100).

(** A list used as a condition: true unless it is empty. *)
Definition truthy {A : Type} (l : list A) : bool :=
  match l with [] => false | _ :: _ => true end.

(** Lines 130-143: the lines added before line [i]. *)
Definition before (st : gen_state) (i : nat) : list string :=
  (if Nat.eqb i 16 && truthy (build_files st) then build_files st else [])
  ++ (if Nat.eqb i 29 && truthy (file_references st) then file_references st else [])
  ++ (if Nat.eqb i 293 && truthy (sources_to_add st) then sources_to_add st else []).

(** Lines 123-146. *)
Definition assemble (st : gen_state) (lines : list string) : list string :=
  flat_map (fun il => before st (fst il) ++ [snd il])
           (combine (seq 0 (List.length lines)) lines).

(** The script. *)
Definition main (scan : list (string * list string)) (d : fs) : run :=
  match read_text Manifest d with
  | None => mkRun d [] Crashed
  | Some pbxproj_content =>
      let st := gen (all_swift_files scan) in
      let output_content := join_nl (assemble st (split_nl pbxproj_content)) in
      mkRun (write_text Manifest output_content
               (write_text PlainBackup pbxproj_content d))
            [(PlainBackup, pbxproj_content); (Manifest, output_content)]
            NoValidation
  end.

End FixXcodeProjectDash.

(** ** final_complete_fix.py *)

Module FinalCompleteFix.
Import Py Render.

(** The files the script touches. *)
Inductive path : Type :=
| Manifest        (* project.pbxproj *)
| FinalBackup.    (* project.pbxproj.FINAL_BACKUP *)

Definition path_eqb (p q : path) : bool :=
  match p, q with
  | Manifest, Manifest | FinalBackup, FinalBackup => true
  | _, _ => false
  end.

Definition fs : Type := path -> option string.

(** [p.read_text()]: the content in text mode, with universal
    newlines. *)
Definition read_text (p : path) (d : fs) : option string :=
  option_map universal_newlines (d p).

Definition write_text (p : path) (s : string) (d : fs) : fs :=
  fun q => if path_eqb q p then Some s else d q.

Record run : Type := mkRun {
  disk : fs;
  writes : list (path * string);
  said : Disk.report
}.

(** Lines 31-37. *)
Definition GROUPS : Dict.t string :=
  [ ("Core/Models", "A10000033");
    ("Core/Services", "A10000034");
    ("Core/Storage", "A10000035");
    ("Core/Utilities", "A10000036");
    ("UI/Theme", "A10000039") ].

(** Lines 40-55.  [scan] lists [(f.name, str(rel.parent))] in the order
    of [sorted(src.rglob("*.swift"))]. *)
Definition file_to_group (scan : list (string * string)) : Dict.t string :=
  Dict.set DATA_MODEL "Core/Storage"
    (fold_left
       (fun m f => if mem (fst f) curr then m else Dict.set (fst f) (snd f) m)
       scan []).

Definition all_files (scan : list (string * string)) : list string :=
  map fst (filter (fun f => negb (mem (fst f) curr)) scan) ++ [DATA_MODEL].

Record entries : Type := mkEntries {
  file_ids : Dict.t string;
  refs : list string;
  builds : list string;
  sources : list string
}.

(** Lines 64-74: the body of the loop. *)
Definition gen_file (s : N * entries) (fname : string) : N * entries :=
  let '(seed, e) := s in
  let fid := gen_id seed in
  let bid := gen_id (seed + 1) in
  ((seed + 2)%N,
   mkEntries (Dict.set fname fid (file_ids e))
             (refs e ++ [ref_line fid fname (ftype_of fname)])
             (builds e ++ [build_line bid fid fname])
             (sources e ++ [source_line bid fname])).

(** Lines 60-74. *)
Definition gen_entries (files : list string) : entries :=
  snd (fold_left gen_file files (70000%N, mkEntries [] [] [] [])).

(** Lines 77-81.  Every key of [file_to_group] has an identifier, so
    [file_ids[fname]] raises no [KeyError]. *)
Definition group_children (ftg : Dict.t string) (e : entries)
  : Dict.t (list (string * string)) :=
  fold_left
    (fun acc item =>
       match Dict.get (snd item) GROUPS with
       | Some group_id =>
           match Dict.get (fst item) (file_ids e) with
           | Some fid => Dict.append group_id (fid, fst item) acc
           | None => acc
           end
       | None => acc
       end)
    ftg [].

(** Everything the rewriting loop reads. *)
Record plan : Type := mkPlan {
  p_entries : entries;
  p_children : Dict.t (list (string * string))
}.

Definition make_plan (scan : list (string * string)) : plan :=
  let e := gen_entries (all_files scan) in
  mkPlan e (group_children (file_to_group scan) e).

Section Loop.
Variable lines : list string.
Variable p : plan.

(** Lines 110-135, entered when the test of line 109 holds; [None] is an
    [IndexError]. *)
Definition sources_block (i : nat) (output : list string)
  : option (nat * list string) :=
  match nth_error lines i, nth_error lines (i + 1),
        nth_error lines (i + 2), nth_error lines (i + 3) with
  | Some line, Some isa, Some mask, Some files_open =>
      let existing := span_not ");" (skipn (i + 4) lines) in
      let j := i + 4 + List.length existing in
      match nth_error lines j with
      | None => None
      | Some close =>
          let rest := span_not "};" (skipn (j + 1) lines) in
          let k := j + 1 + List.length rest in
          match nth_error lines k with
          | None => None
          | Some brace =>
              Some (k + 1,
                    output ++ [line; isa; mask; files_open]
                    ++ existing ++ sources (p_entries p) ++ [close]
                    ++ rest ++ [brace])
          end
      end
  | _, _, _, _ => None
  end.

(** Lines 138-173: the body of [for group_id, children in
    group_children.items()] for one group.  [line] is the line the
    [while] iteration started on; [i] and [output] are their current
    values.  Line 140 reads [lines[i+1]] unguarded, and the [continue] of
    line 173 resumes this [for]. *)
Definition group_body (line : string) (st : nat * list string)
  (g : string * list (string * string)) : option (nat * list string) :=
  let '(i, output) := st in
  let '(group_id, children) := g in
  if contains (group_id ++ " /* ") line && contains "= {" line then
    match nth_error lines (i + 1) with
    | None => None
    | Some isa =>
        if contains "isa = PBXGroup" isa then
          let before := span_not "children = (" (skipn (i + 2) lines) in
          let c := i + 2 + List.length before in
          match nth_error lines c with
          | None => None
          | Some children_open =>
              let existing := span_not ");" (skipn (c + 1) lines) in
              let j := c + 1 + List.length existing in
              match nth_error lines j with
              | None => None
              | Some close =>
                  let rest := span_not "};" (skipn (j + 1) lines) in
                  let k := j + 1 + List.length rest in
                  match nth_error lines k with
                  | None => None
                  | Some brace =>
                      Some (k + 1,
                            output ++ [line; isa] ++ before ++ [children_open]
                            ++ existing
                            ++ map (fun ch => child_line (fst ch) (snd ch)) children
                            ++ [close] ++ rest ++ [brace])
                  end
              end
          end
        else Some st
    end
  else Some st.

(** The [for] loop of lines 138-173. *)
Fixpoint groups_pass (line : string) (gs : Dict.t (list (string * string)))
  (st : nat * list string) : option (nat * list string) :=
  match gs with
  | [] => Some st
  | g :: r =>
      match group_body line st g with
      | None => None
      | Some st' => groups_pass line r st'
      end
  end.

(** One iteration of the [while] loop of lines 91-176; [None] is an
    [IndexError]. *)
Definition step (i : nat) (output : list string) : option (nat * list string) :=
  match nth_error lines i with
  | None => None
  | Some line =>
      if contains END_BUILDFILE line then
        Some (i + 1, output ++ builds (p_entries p) ++ [line])
      else if contains END_FILEREF line then
        Some (i + 1, output ++ refs (p_entries p) ++ [line])
      else if contains SOURCES_HDR line
              && match nth_error lines (i + 1) with
                 | Some isa => contains ISA_SOURCES isa
                 | None => false
                 end
      then sources_block i output
      else
        match groups_pass line (p_children p) (i, output) with
        | None => None
        | Some (i', output') => Some (i' + 1, output' ++ [line])
        end
  end.

(** The loop; [fuel] bounds the number of iterations and the outer [None]
    is running out of it. *)
Fixpoint loop (fuel : nat) (i : nat) (output : list string)
  : option (option (list string)) :=
  if (List.length lines <=? i)%nat then Some (Some output)
  else match fuel with
       | O => None
       | S f => match step i output with
                | None => Some None
                | Some (i', output') => loop f i' output'
                end
       end.

End Loop.

(** Lines 88-176 on a document: [Some output], or [None] for an
    [IndexError].  Every iteration advances [i]. *)
Definition rewrite (lines : list string) (p : plan) : option (list string) :=
  match loop lines p (List.length lines) 0 [] with
  | Some r => r
  | None => None
  end.

(** Line 185. *)
Definition valid (result : string) : bool :=
  contains END_BUILDFILE result && contains END_FILEREF result.

(** The script. *)
Definition main (scan : list (string * string)) (d : fs) : run :=
  match read_text Manifest d with
  | None => mkRun d [] Disk.Crashed
  | Some text =>
      let lines := splitlines text in
      let d1 := write_text FinalBackup text d in
      let w1 := [(FinalBackup, text)] in
      match rewrite lines (make_plan scan) with
      | None => mkRun d1 w1 Disk.Crashed
      | Some output =>
          let result := (join_nl output ++ String "010" "")%string in
          let d2 := write_text Manifest result d1 in
          let w2 := w1 ++ [(Manifest, result)] in
          if valid result then mkRun d2 w2 Disk.ValidationPassed
          else mkRun (write_text Manifest text d2)
                     (w2 ++ [(Manifest, text)]) Disk.ValidationFailed
      end
  end.

(** The group test of line 140, without its look at the next line, holds
    for [line] and some group that has children to add. *)
Definition group_hit (p : plan) (line : string) : bool :=
  existsb (fun g => contains (fst g ++ " /* ") line && contains "= {" line)
          (p_children p).

(** What one iteration appends for a line that starts neither the Sources
    phase nor a group record. *)
Definition plain_line (p : plan) (line : string) : list string :=
  if contains END_BUILDFILE line then builds (p_entries p) ++ [line]
  else if contains END_FILEREF line then refs (p_entries p) ++ [line]
  else [line].

Definition plain_pass (p : plan) (ls : list string) : list string :=
  flat_map (plain_line p) ls.

(** A line the loop treats on its own. *)
Definition plain (p : plan) (line : string) : bool :=
  negb (contains SOURCES_HDR line) && negb (group_hit p line).

End FinalCompleteFix.

(** * Properties *)

(** ** The hash functions against published digests *)

Example md5_empty : MD5.hexdigest "" = "d41d8cd98f00b204e9800998ecf8427e".
Proof. vm_compute. reflexivity. Qed.

Example md5_abc : MD5.hexdigest "abc" = "900150983cd24fb0d6963f7d28e17f72".
Proof. vm_compute. reflexivity. Qed.

Example md5_two_blocks :
  MD5.hexdigest "12345678901234567890123456789012345678901234567890123456789012345678901234567890"
  = "57edf4a22be3c955ac49da2e2107b67a".
Proof. vm_compute. reflexivity. Qed.

Example sha256_abc :
  SHA256.hexdigest "abc"
  = "ba7816bf8f01cfea414140de5dae2223b00361a396177a9cb410ff61f20015ad".
Proof. vm_compute. reflexivity. Qed.

Example sha256_two_blocks :
  SHA256.hexdigest "aaaaaaaaaaaaaaaaaaaaaaaaaaaaaaaaaaaaaaaaaaaaaaaaaaaaaaaaaaaaaaaaaaaaaa"
  = "6bd5e5034855a11241f0dee8fc72850ffd9955b28347a86428b5fa19119f6ad0".
Proof. vm_compute. reflexivity. Qed.

Example sha256_latin1 :
  SHA256.hexdigest (String "233" "")
  = "4a99557e4033c3539de2eb65472017cad5f9557f7a0625a09f1c3f6e2ba69c4c".
Proof. vm_compute. reflexivity. Qed.

Example gen_id_60000 : gen_id 60000 = "2B4226DD7ED6EB2D419B881F".
Proof. vm_compute. reflexivity. Qed.

Example gen_id_90001 : gen_id 90001 = "6BEB5F589A9FD04C21FCD50D".
Proof. vm_compute. reflexivity. Qed.

(** ** The scripts on a small manifest *)

(** fix_xcode_project.py reads the registered Swift files off the
    manifest: [Foo.swift] is taken as existing, [Bar.swift] as missing. *)
Example existing_refs_of_foo :
  FixXcodeProject.existing_refs Sample.foo_text = ["Foo.swift"].
Proof. vm_compute. reflexivity. Qed.

Example all_swift_files_of_foo :
  Dict.keys
    (FixXcodeProject.all_swift_files
       [ ("Bar.swift", "Core/Bar.swift", "Core");
         ("Foo.swift", "Core/Foo.swift", "Core") ]
       Sample.foo_text)
  = ["Bar.swift"].
Proof. vm_compute. reflexivity. Qed.

(** manual_fix.py puts the new phase lines after the entry the list
    had. *)
Example manual_fix_appends_phase_lines :
  exists out,
    ManualFix.rewrite Sample.lines
      (ManualFix.gen_entries 60000 (ManualFix.new_files ["A.swift"]))
    = Some out
    /\ nth_error out 14 = Some (Render.t3 "files = (")
    /\ nth_error out 15
       = Some (Render.t4 "A10000001 /* ZairyuMateApp.swift in Sources */,")
    /\ nth_error out 16 = Some (Render.source_line (gen_id 60001) "A.swift")
    /\ nth_error out 17
       = Some (Render.source_line (gen_id 60003) Render.DATA_MODEL)
    /\ nth_error out 18 = Some (Render.t3 ");").
Proof.
  eexists. split; [vm_compute; reflexivity|].
  split; [reflexivity|]. split; [reflexivity|].
  split; [vm_compute; reflexivity|].
  split; [vm_compute; reflexivity | reflexivity].
Qed.

(** ** Facts about the string primitives *)

Module PyFacts.
Import Py.

Lemma app_assoc_s (a b c : string) : ((a ++ b) ++ c = a ++ (b ++ c))%string.
Proof. induction a as [|x a IH]; simpl; [reflexivity | now rewrite IH]. Qed.

Lemma app_nil_r_s (a : string) : (a ++ "" = a)%string.
Proof. induction a as [|x a IH]; simpl; [reflexivity | now rewrite IH]. Qed.

Lemma prefix_nil (h : string) : String.prefix "" h = true.
Proof. destruct h; reflexivity. Qed.

Lemma prefix_cons (a b : ascii) (n h : string) :
  String.prefix (String a n) (String b h) = true <-> a = b /\ String.prefix n h = true.
Proof.
  simpl. destruct (ascii_dec a b) as [->|ne].
  - split; [intros H; split; [reflexivity | exact H] | intros [_ H]; exact H].
  - split; [discriminate | intros [e _]; contradiction].
Qed.

Lemma prefix_iff (n h : string) :
  String.prefix n h = true <-> exists b, h = (n ++ b)%string.
Proof.
  revert h. induction n as [|a n IH]; intros h.
  - rewrite prefix_nil. split; [intros _; now exists h | reflexivity].
  - destruct h as [|b h].
    + simpl. split; [discriminate | intros [x H]; discriminate].
    + rewrite prefix_cons, IH. split.
      * intros [-> [x ->]]. now exists x.
      * intros [x H]. simpl in H. injection H as -> ->. split; [reflexivity | now exists x].
Qed.

Lemma contains_eq (n h : string) :
  contains n h =
  if String.prefix n h then true
  else match h with EmptyString => false | String _ t => contains n t end.
Proof. destruct h; reflexivity. Qed.

Lemma contains_iff (n h : string) :
  contains n h = true <-> exists a b, h = (a ++ n ++ b)%string.
Proof.
  split.
  - induction h as [|c t IH]; rewrite contains_eq.
    + destruct (String.prefix n "") eqn:E; [|discriminate].
      intros _. apply prefix_iff in E as [b E]. now exists "", b.
    + destruct (String.prefix n (String c t)) eqn:E.
      * intros _. apply prefix_iff in E as [b E]. now exists "", b.
      * intros H. destruct (IH H) as (a & b & ->). now exists (String c a), b.
  - intros (a & b & ->). induction a as [|c a IH]; rewrite contains_eq.
    + simpl. replace (String.prefix n (n ++ b)) with true; [reflexivity|].
      symmetry. apply prefix_iff. now exists b.
    + destruct (String.prefix n _); [reflexivity | exact IH].
Qed.

Lemma contains_app_l (n a b : string) :
  contains n a = true -> contains n (a ++ b) = true.
Proof.
  rewrite !contains_iff. intros (x & y & ->). exists x, (y ++ b)%string.
  now rewrite !app_assoc_s.
Qed.

Lemma contains_app_r (n a b : string) :
  contains n b = true -> contains n (a ++ b) = true.
Proof.
  rewrite !contains_iff. intros (x & y & ->). exists (a ++ x)%string, y.
  now rewrite !app_assoc_s.
Qed.

Lemma contains_cons (n : string) (c : ascii) (h : string) :
  contains n h = true -> contains n (String c h) = true.
Proof. apply (contains_app_r n (String c "") h). Qed.

Lemma contains_nil_inv (n : string) : contains n "" = true -> n = "".
Proof.
  rewrite contains_iff. intros (a & b & H).
  destruct a; [|discriminate]. destruct n; [reflexivity | discriminate].
Qed.

(** A pattern without the character [c] cannot straddle an occurrence of
    [c]. *)
Lemma prefix_sep (c : ascii) (n l r : string) :
  char_free c n = true ->
  String.prefix n (l ++ String c r) = true -> String.prefix n l = true.
Proof.
  revert l. induction n as [|a n IH]; intros l F H.
  - apply prefix_nil.
  - simpl in F. apply andb_prop in F as [Fa F].
    destruct l as [|d l]; simpl append in H; apply prefix_cons in H as [-> H].
    + rewrite Ascii.eqb_refl in Fa. discriminate.
    + apply prefix_cons. split; [reflexivity | now apply IH].
Qed.

Lemma contains_sep (c : ascii) (n l r : string) :
  char_free c n = true ->
  contains n (l ++ String c r) = true ->
  contains n l = true \/ contains n r = true.
Proof.
  intros F. induction l as [|d l IH]; simpl append; intros H.
  - rewrite contains_eq in H.
    destruct (String.prefix n (String c r)) eqn:E; [|now right].
    left. apply (prefix_sep c n "" r F) in E.
    rewrite contains_eq, E. reflexivity.
  - rewrite contains_eq in H.
    destruct (String.prefix n (String d (l ++ String c r))) eqn:E.
    + left. apply (prefix_sep c n (String d l) r F) in E.
      rewrite contains_eq, E. reflexivity.
    + destruct (IH H) as [G|G]; [left; now apply contains_cons | now right].
Qed.

(** *** Joining lines *)

Lemma join_nl_cons (l : string) (r : list string) :
  r <> [] -> join_nl (l :: r) = (l ++ String "010" (join_nl r))%string.
Proof. destruct r; [contradiction | reflexivity]. Qed.

Lemma join_nl_head (c : ascii) (l : string) (r : list string) :
  join_nl (String c l :: r) = String c (join_nl (l :: r)).
Proof. destruct r; reflexivity. Qed.

Lemma contains_join (n l : string) (ls : list string) :
  In l ls -> contains n l = true -> contains n (join_nl ls) = true.
Proof.
  induction ls as [|x r IH]; intros I H; [contradiction|].
  destruct r as [|y r].
  - destruct I as [->|[]]. exact H.
  - rewrite join_nl_cons by discriminate. destruct I as [->|I].
    + now apply contains_app_l.
    + apply contains_app_r, contains_cons. now apply IH.
Qed.

Lemma contains_join_inv (n : string) (ls : list string) :
  char_free "010" n = true -> n <> "" ->
  contains n (join_nl ls) = true ->
  exists l, In l ls /\ contains n l = true.
Proof.
  intros F N. induction ls as [|x r IH]; intros H.
  - apply contains_nil_inv in H. contradiction.
  - destruct r as [|y r].
    + exists x. split; [now left | exact H].
    + rewrite join_nl_cons in H by discriminate.
      apply (contains_sep _ _ _ _ F) in H as [H|H].
      * exists x. split; [now left | exact H].
      * destruct (IH H) as (l & I & G). exists l. split; [now right | exact G].
Qed.

(** The text a script writes: the lines joined, then a final newline. *)
Lemma contains_result (n l : string) (ls : list string) :
  In l ls -> contains n l = true ->
  contains n (join_nl ls ++ String "010" "") = true.
Proof. intros I H. apply contains_app_l. now apply (contains_join n l). Qed.


(** *** [split] *)

Lemma split_nonempty (c : ascii) (s : string) : split c s <> [].
Proof.
  destruct s as [|a t]; simpl; [discriminate|].
  destruct (Ascii.eqb a c); [discriminate|]. destruct (split c t); discriminate.
Qed.

Lemma join_split_nl (s : string) : join_nl (split_nl s) = s.
Proof.
  unfold split_nl. induction s as [|a t IH]; [reflexivity|].
  simpl split. destruct (Ascii.eqb a "010") eqn:E.
  - apply Ascii.eqb_eq in E as ->.
    rewrite join_nl_cons by apply split_nonempty. now rewrite IH.
  - destruct (split "010" t) as [|l r] eqn:S.
    + now apply split_nonempty in S.
    + rewrite join_nl_head, IH. reflexivity.
Qed.


(** *** [splitlines] *)

Lemma splitlines_nonempty (s : string) : s <> "" -> splitlines s <> [].
Proof.
  destruct s as [|a t]; [contradiction|]. intros _. simpl.
  destruct (is_boundary a).
  - destruct t; [discriminate|]. destruct (_ && _); discriminate.
  - destruct (splitlines t); discriminate.
Qed.

Lemma contains_prefix (n h : string) :
  String.prefix n h = true -> contains n h = true.
Proof. intros H. rewrite contains_eq, H. reflexivity. Qed.

Lemma contains_cons_inv (n : string) (a : ascii) (t : string) :
  contains n (String a t) = true ->
  String.prefix n (String a t) = true \/ contains n t = true.
Proof.
  rewrite contains_eq. destruct (String.prefix n (String a t)); [now left | now right].
Qed.




Lemma prefix_first_line (n t : string) :
  boundary_free n = true -> String.prefix n t = true ->
  String.prefix n (hd "" (splitlines t)) = true.
Proof.
  revert t. induction n as [|b n IH]; intros t F H; [apply prefix_nil|].
  destruct t as [|c t]; [discriminate|].
  apply prefix_cons in H as [<- H].
  unfold boundary_free in F. simpl in F. apply andb_prop in F as [Fb F].
  simpl splitlines. destruct (is_boundary b); [discriminate|].
  specialize (IH t F H).
  destruct (splitlines t) as [|l r]; cbn [hd] in *;
    apply prefix_cons; (split; [reflexivity | exact IH]).
Qed.

(** A pattern without line boundaries that occurs in the text occurs in
    one of its lines. *)
Lemma contains_splitlines_inv (n s : string) :
  boundary_free n = true -> n <> "" ->
  contains n s = true ->
  exists l, In l (splitlines s) /\ contains n l = true.
Proof.
  intros F N.
  assert (NB : forall a t, is_boundary a = true ->
                 String.prefix n (String a t) = false).
  { intros a t B. destruct n as [|b n]; [contradiction|].
    destruct (String.prefix _ _) eqn:E; [|reflexivity].
    apply prefix_cons in E as [-> _].
    unfold boundary_free in F. simpl in F. rewrite B in F. discriminate. }
  remember (String.length s) as k eqn:K.
  assert (L : String.length s <= k) by lia. clear K. revert s L.
  induction k as [|k IH]; intros s L H.
  - destruct s; [|simpl in L; lia]. apply contains_nil_inv in H. contradiction.
  - destruct s as [|a t]; [apply contains_nil_inv in H; contradiction|].
    simpl in L. simpl splitlines. destruct (is_boundary a) eqn:B.
    + apply contains_cons_inv in H as [H|H]; [now rewrite NB in H|].
      destruct t as [|b t']; [apply contains_nil_inv in H; contradiction|].
      destruct (Ascii.eqb a "013" && Ascii.eqb b "010") eqn:C.
      * apply andb_prop in C as [_ C]. apply Ascii.eqb_eq in C as ->.
        apply contains_cons_inv in H as [H|H]; [now rewrite NB in H|].
        simpl in L. destruct (IH t' ltac:(lia) H) as (l & I & G).
        exists l. split; [now right | exact G].
      * destruct (IH (String b t') ltac:(lia) H) as (l & I & G).
        exists l. split; [now right | exact G].
    + apply contains_cons_inv in H as [H|H].
      * destruct n as [|c n]; [contradiction|].
        apply prefix_cons in H as [-> H].
        unfold boundary_free in F. simpl in F. apply andb_prop in F as [_ F].
        pose proof (prefix_first_line n t F H) as P.
        exists (String a (hd "" (splitlines t))). split.
        -- destruct (splitlines t); now left.
        -- apply contains_prefix, prefix_cons. now split.
      * destruct (IH t ltac:(lia) H) as (l & I & G).
        destruct (splitlines t) as [|l0 r]; [contradiction|].
        destruct I as [<-|I].
        -- exists (String a l0). split; [now left | now apply contains_cons].
        -- exists l. split; [now right | exact G].
Qed.

(** On a text whose only line boundary is LF, [splitlines] and
    ['\n'.join(...) + '\n'] restore the text, up to a missing final LF. *)
Lemma join_splitlines_lf (s : string) :
  all_chars (fun a => negb (is_boundary a) || Ascii.eqb a "010") s = true ->
  s <> "" ->
  (join_nl (splitlines s) ++ String "010" "")%string
  = if ends_nl s then s else (s ++ String "010" "")%string.
Proof.
  induction s as [|a t IH]; intros F N; [contradiction|].
  simpl in F. apply andb_prop in F as [Fa F].
  simpl splitlines. destruct (is_boundary a) eqn:B.
  - simpl in Fa. apply Ascii.eqb_eq in Fa as ->.
    destruct t as [|b t']; [reflexivity|].
    change (Ascii.eqb "010" "013" && Ascii.eqb b "010") with false.
    cbv iota.
    rewrite join_nl_cons by (apply splitlines_nonempty; discriminate).
    cbn [append]. rewrite (IH F) by discriminate.
    change (ends_nl (String "010" (String b t'))) with (ends_nl (String b t')).
    now destruct (ends_nl (String b t')).
  - destruct (splitlines t) as [|l r] eqn:S.
    + destruct t as [|b t']; [|exfalso; revert S; now apply splitlines_nonempty].
      simpl. replace (Ascii.eqb a "010") with false; [reflexivity|].
      symmetry. apply Ascii.eqb_neq. intros ->. discriminate.
    + rewrite join_nl_head. cbn [append].
      assert (T : t <> "") by (intros ->; discriminate).
      rewrite (IH F T). destruct t as [|b t']; [contradiction|].
      change (ends_nl (String a (String b t'))) with (ends_nl (String b t')).
      now destruct (ends_nl (String b t')).
Qed.

Lemma join_splitlines_terminated (s : string) :
  lf_terminated s = true ->
  (join_nl (splitlines s) ++ String "010" "")%string = s.
Proof.
  unfold lf_terminated. intros H. apply andb_prop in H as [E F].
  rewrite join_splitlines_lf; [now rewrite E | exact F | now destruct s].
Qed.

(** *** Universal newlines *)

(** Induction that reaches two characters back. *)
Lemma string_ind2 (P : string -> Prop) :
  P "" ->
  (forall a, P (String a "")) ->
  (forall a b t, P t -> P (String b t) -> P (String a (String b t))) ->
  forall s, P s.
Proof.
  intros P0 P1 P2.
  assert (H : forall s, P s /\ forall a, P (String a s)).
  { induction s as [|b t [IH1 IH2]]; split; auto. }
  intros s. apply H.
Qed.

Lemma universal_newlines_plain (s : string) :
  char_free "013" s = true -> universal_newlines s = s.
Proof.
  unfold char_free. induction s as [|a t IH]; cbn [all_chars universal_newlines];
    [reflexivity|].
  intros H. apply andb_prop in H as [A T]. apply negb_true_iff in A.
  rewrite A. now rewrite IH.
Qed.

Lemma universal_newlines_cr_free (s : string) :
  char_free "013" (universal_newlines s) = true.
Proof.
  unfold char_free. induction s as [|a|a b t IH1 IH2] using string_ind2.
  - reflexivity.
  - cbn [universal_newlines]. destruct (Ascii.eqb a "013") eqn:A; [reflexivity|].
    cbn [all_chars]. now rewrite A.
  - cbn [universal_newlines] in *. destruct (Ascii.eqb a "013") eqn:A.
    + destruct (Ascii.eqb b "010") eqn:B; cbn [all_chars]; cbn [negb andb].
      * exact IH1.
      * exact IH2.
    + cbn [all_chars]. rewrite A. exact IH2.
Qed.

(** The text read is the file's content exactly when the file holds no
    CR. *)
Lemma universal_newlines_fixed (s : string) :
  universal_newlines s = s <-> char_free "013" s = true.
Proof.
  split.
  - intros E. rewrite <- E. apply universal_newlines_cr_free.
  - apply universal_newlines_plain.
Qed.

Lemma universal_newlines_idem (s : string) :
  universal_newlines (universal_newlines s) = universal_newlines s.
Proof. apply universal_newlines_plain, universal_newlines_cr_free. Qed.

Lemma universal_newlines_cons (a : ascii) (t : string) :
  a <> "013"%char -> universal_newlines (String a t) = String a (universal_newlines t).
Proof. intros ne. cbn [universal_newlines]. apply Ascii.eqb_neq in ne. now rewrite ne. Qed.

Lemma universal_newlines_cr_lf (t : string) :
  universal_newlines (String "013" (String "010" t)) = String "010" (universal_newlines t).
Proof. reflexivity. Qed.

Lemma universal_newlines_cr (b : ascii) (t : string) :
  b <> "010"%char ->
  universal_newlines (String "013" (String b t))
  = String "010" (universal_newlines (String b t)).
Proof.
  intros nb. cbn [universal_newlines Ascii.eqb Bool.eqb].
  apply Ascii.eqb_neq in nb. now rewrite nb.
Qed.

(** A needle without CR and LF starts the text read exactly when it
    starts the content. *)
Lemma prefix_universal_newlines (n : string) :
  char_free "013" n = true -> char_free "010" n = true ->
  forall s, String.prefix n (universal_newlines s) = String.prefix n s.
Proof.
  unfold char_free. induction n as [|a n IH]; intros C L s.
  - now destruct (universal_newlines s), s.
  - cbn [all_chars] in C, L.
    apply andb_prop in C as [C0 C]. apply andb_prop in L as [L0 L].
    apply negb_true_iff in C0, L0.
    destruct s as [|c t]; [reflexivity|].
    cbn [universal_newlines]. destruct (Ascii.eqb_spec c "013") as [->|ne].
    + assert (E : forall r, String.prefix (String a n) (String "010" r) = false).
      { intros r. cbn [String.prefix].
        destruct (ascii_dec a "010") as [->|]; [|reflexivity].
        now rewrite Ascii.eqb_refl in L0. }
      assert (E' : String.prefix (String a n) (String "013" t) = false).
      { cbn [String.prefix].
        destruct (ascii_dec a "013") as [->|]; [|reflexivity].
        now rewrite Ascii.eqb_refl in C0. }
      rewrite E'. destruct t as [|b t']; [apply E|].
      destruct (Ascii.eqb b "010"); apply E.
    + cbn [String.prefix]. destruct (ascii_dec a c); [|reflexivity].
      now apply IH.
Qed.

(** A sentinel (no CR, no LF, not empty) occurs in the text read exactly
    when it occurs in the content. *)
Lemma contains_universal_newlines (n : string) :
  char_free "013" n = true -> char_free "010" n = true -> n <> "" ->
  forall s, contains n (universal_newlines s) = contains n s.
Proof.
  intros C L N.
  assert (P : forall r, String.prefix n (String "010" r) = false).
  { intros r. destruct n as [|a n]; [contradiction|]. cbn [String.prefix].
    destruct (ascii_dec a "010") as [->|]; [|reflexivity].
    unfold char_free in L. cbn [all_chars] in L. now rewrite Ascii.eqb_refl in L. }
  assert (Q : forall r, String.prefix n (String "013" r) = false).
  { intros r. destruct n as [|a n]; [contradiction|]. cbn [String.prefix].
    destruct (ascii_dec a "013") as [->|]; [|reflexivity].
    unfold char_free in C. cbn [all_chars] in C. now rewrite Ascii.eqb_refl in C. }
  assert (Z : String.prefix n "" = false) by (destruct n; [contradiction | reflexivity]).
  intros s. induction s as [|a|a b t IH1 IH2] using string_ind2.
  - reflexivity.
  - cbn [universal_newlines]. destruct (Ascii.eqb_spec a "013") as [->|ne].
    + cbn [contains]. now rewrite P, Q, Z.
    + reflexivity.
  - destruct (Ascii.eqb_spec a "013") as [->|ne].
    + destruct (Ascii.eqb_spec b "010") as [->|nb].
      * rewrite universal_newlines_cr_lf. cbn [contains]. rewrite P, Q, P. exact IH1.
      * rewrite (universal_newlines_cr b t nb).
        remember (String b t) as r. cbn [contains]. rewrite P, Q. exact IH2.
    + rewrite (universal_newlines_cons a (String b t) ne).
      pose proof (prefix_universal_newlines n C L (String a (String b t))) as X.
      rewrite (universal_newlines_cons a (String b t) ne) in X.
      cbn [contains]. rewrite X, IH2. reflexivity.
Qed.

(** [splitlines] cuts the text read into the lines it cuts the content
    into. *)
Lemma splitlines_boundary (a : ascii) (s : string) :
  is_boundary a = true -> a <> "013"%char ->
  splitlines (String a s) = "" :: splitlines s.
Proof.
  intros B ne. cbn [splitlines]. rewrite B. apply Ascii.eqb_neq in ne.
  rewrite ne. now destruct s.
Qed.

Lemma splitlines_universal_newlines (s : string) :
  splitlines (universal_newlines s) = splitlines s.
Proof.
  induction s as [|a|a b t IH1 IH2] using string_ind2.
  - reflexivity.
  - cbn [universal_newlines]. now destruct (Ascii.eqb_spec a "013") as [->|ne].
  - destruct (Ascii.eqb_spec a "013") as [->|ne].
    + destruct (Ascii.eqb_spec b "010") as [->|nb].
      * rewrite universal_newlines_cr_lf.
        rewrite splitlines_boundary, IH1 by (reflexivity || discriminate).
        reflexivity.
      * rewrite (universal_newlines_cr b t nb).
        rewrite splitlines_boundary, IH2 by (reflexivity || discriminate).
        change (splitlines (String "013" (String b t)))
          with (if (Ascii.eqb "013" "013" && Ascii.eqb b "010")%bool
                then "" :: splitlines t else "" :: splitlines (String b t)).
        apply Ascii.eqb_neq in nb. now rewrite nb, andb_false_r.
    + rewrite (universal_newlines_cons a (String b t) ne).
      destruct (is_boundary a) eqn:B.
      * rewrite !splitlines_boundary by assumption. now rewrite IH2.
      * remember (String b t) as r. cbn [splitlines]. now rewrite B, IH2.
Qed.

End PyFacts.

(** ** Facts about lists of lines *)

Module FrameFacts.
Import Py Render Frame.

Lemma framed_refl (P : string -> Prop) (l : list string) : framed P l l.
Proof. induction l; constructor; assumption. Qed.

Lemma framed_inserted (P : string -> Prop) (ins : list string) :
  Forall P ins -> framed P [] ins.
Proof. induction 1; constructor; assumption. Qed.

Lemma framed_app (P : string -> Prop) (o1 r1 o2 r2 : list string) :
  framed P o1 r1 -> framed P o2 r2 -> framed P (o1 ++ o2) (r1 ++ r2).
Proof. induction 1; intros H2; simpl; try constructor; auto. Qed.

Lemma framed_mono (P Q : string -> Prop) (o r : list string) :
  (forall x, P x -> Q x) -> framed P o r -> framed Q o r.
Proof. intros PQ. induction 1; constructor; auto. Qed.

(** Every original line is in the output. *)
Lemma framed_In (P : string -> Prop) (o r : list string) (x : string) :
  framed P o r -> In x o -> In x r.
Proof.
  induction 1 as [|y o r _ IH|y o r _ _ IH]; intros I.
  - exact I.
  - destruct I as [->|I]; [now left | right; auto].
  - right; auto.
Qed.


(** With nothing to insert the output is the input. *)
Lemma framed_nothing (o r : list string) :
  framed (fun _ => False) o r -> r = o.
Proof. induction 1; [reflexivity | now f_equal | contradiction]. Qed.

(** Deleting the inserted lines gives the original back. *)
Lemma framed_length (P : string -> Prop) (o r : list string) :
  framed P o r -> List.length o <= List.length r.
Proof. induction 1; simpl; lia. Qed.

Lemma skipn_nth (l : list string) (i j : nat) (x : string) :
  nth_error l i = Some x -> j = S i -> skipn i l = x :: skipn j l.
Proof.
  intros H ->. revert l H. induction i as [|i IH]; intros [|y l] H; try discriminate.
  - now injection H as ->.
  - simpl in H. simpl. now apply IH.
Qed.

Lemma span_not_split (pat : string) (l : list string) :
  l = span_not pat l ++ skipn (List.length (span_not pat l)) l.
Proof.
  induction l as [|x l IH]; [reflexivity|]. simpl.
  destruct (contains pat x); [reflexivity|]. simpl. now f_equal.
Qed.

Lemma skipn_span (pat : string) (l : list string) (i j : nat) :
  j = i + List.length (span_not pat (skipn i l)) ->
  skipn i l = span_not pat (skipn i l) ++ skipn j l.
Proof.
  intros ->. rewrite (span_not_split pat (skipn i l)) at 1.
  now rewrite skipn_skipn, Nat.add_comm.
Qed.

Lemma span_not_spec (pat : string) (l : list string) :
  Forall (fun x => contains pat x = false) (span_not pat l).
Proof.
  induction l as [|x l IH]; simpl; [constructor|].
  destruct (contains pat x) eqn:E; constructor; assumption.
Qed.

End FrameFacts.

(** ** manual_fix.py: the rewriting loop *)

Module ManualFixFacts.
Import Py Disk Render Frame FrameFacts ManualFix.

Lemma mf_inserted_builds e : Forall (inserted e) (builds e).
Proof. apply Forall_forall. intros x I. unfold inserted. apply in_or_app. now left. Qed.

Lemma mf_inserted_refs e : Forall (inserted e) (refs e).
Proof.
  apply Forall_forall. intros x I. unfold inserted.
  apply in_or_app. right. apply in_or_app. now left.
Qed.

Lemma mf_inserted_sources e : Forall (inserted e) (sources e).
Proof.
  apply Forall_forall. intros x I. unfold inserted.
  apply in_or_app. right. apply in_or_app. now right.
Qed.

(** One iteration consumes a non-empty block of the remaining lines and
    appends that block with entries inserted. *)
Lemma mf_step_frame (lines : list string) (e : entries) (i : nat)
  (out : list string) (i' : nat) (out' : list string) :
  step lines e i out = Some (i', out') ->
  exists consumed added,
    skipn i lines = consumed ++ skipn i' lines
    /\ i' = i + List.length consumed
    /\ consumed <> []
    /\ out' = out ++ added
    /\ framed (inserted e) consumed added.
Proof.
  unfold step. destruct (nth_error lines i) as [line|] eqn:L; [|discriminate].
  pose proof (skipn_nth lines i (i + 1) line L ltac:(lia)) as S0.
  assert (simple : forall ins, Forall (inserted e) ins ->
            exists consumed added,
              skipn i lines = consumed ++ skipn (i + 1) lines
              /\ i + 1 = i + List.length consumed
              /\ consumed <> []
              /\ out ++ ins ++ [line] = out ++ added
              /\ framed (inserted e) consumed added).
  { intros ins F. exists [line], (ins ++ [line]). repeat split; try easy.
    apply (framed_app _ [] ins [line] [line]);
      [now apply framed_inserted | apply framed_refl]. }
  destruct (contains END_BUILDFILE line).
  { intros H. injection H as <- <-. apply simple, mf_inserted_builds. }
  destruct (contains END_FILEREF line).
  { intros H. injection H as <- <-. apply simple, mf_inserted_refs. }
  assert (plain : Some (i + 1, out ++ [line]) = Some (i', out') ->
            exists consumed added,
              skipn i lines = consumed ++ skipn i' lines
              /\ i' = i + List.length consumed
              /\ consumed <> []
              /\ out' = out ++ added
              /\ framed (inserted e) consumed added).
  { intros H. injection H as <- <-. apply (simple []). constructor. }
  destruct (contains SOURCES_HDR line); [|exact plain].
  destruct (nth_error lines (i + 1)) as [isa|] eqn:L1; [|discriminate].
  destruct (contains ISA_SOURCES isa); [|exact plain].
  destruct (nth_error lines (i + 2)) as [mask|] eqn:L2; [|discriminate].
  destruct (nth_error lines (i + 3)) as [files_open|] eqn:L3; [|discriminate].
  set (existing := span_not ");" (skipn (i + 4) lines)).
  set (j := i + 4 + List.length existing).
  destruct (nth_error lines j) as [close|] eqn:Lj; [|discriminate].
  set (rest := span_not "};" (skipn (j + 1) lines)).
  set (k := j + 1 + List.length rest).
  destruct (nth_error lines k) as [brace|] eqn:Lk; [|discriminate].
  intros H. injection H as <- <-.
  exists ([line; isa; mask; files_open] ++ existing ++ [close] ++ rest ++ [brace]),
         ([line; isa; mask; files_open] ++ existing ++ sources e ++ [close]
          ++ rest ++ [brace]).
  split; [|split; [|split; [|split]]].
  - rewrite S0.
    rewrite (skipn_nth lines (i + 1) (i + 2) isa L1) by lia.
    rewrite (skipn_nth lines (i + 2) (i + 3) mask L2) by lia.
    rewrite (skipn_nth lines (i + 3) (i + 4) files_open L3) by lia.
    rewrite (skipn_span ");" lines (i + 4) j) by reflexivity. fold existing.
    rewrite (skipn_nth lines j (j + 1) close Lj) by lia.
    rewrite (skipn_span "};" lines (j + 1) k) by reflexivity. fold rest.
    rewrite (skipn_nth lines k (k + 1) brace Lk) by lia.
    simpl. repeat (rewrite <- app_assoc; simpl). reflexivity.
  - simpl. repeat (rewrite length_app; simpl). unfold k, j. lia.
  - discriminate.
  - reflexivity.
  - apply (framed_app _ [line; isa; mask; files_open] _ _ _ (framed_refl _ _)).
    apply (framed_app _ existing _ _ _ (framed_refl _ _)).
    apply (framed_app _ [] (sources e) _ _);
      [apply framed_inserted, mf_inserted_sources | apply framed_refl].
Qed.

Lemma mf_step_advances (lines : list string) (e : entries) (i : nat)
  (out : list string) (i' : nat) (out' : list string) :
  step lines e i out = Some (i', out') -> i < i'.
Proof.
  intros H. destruct (mf_step_frame _ _ _ _ _ _ H) as (c & a & _ & -> & N & _).
  destruct c; [contradiction | simpl; lia].
Qed.

(** [len(lines)] iterations are enough: the loop never runs out of
    fuel. *)
Lemma mf_loop_fuel (lines : list string) (e : entries) (fuel : nat) :
  forall i out, List.length lines - i <= fuel -> loop lines e fuel i out <> None.
Proof.
  induction fuel as [|f IH]; intros i out B; simpl.
  - destruct (Nat.leb_spec (List.length lines) i); [discriminate | lia].
  - destruct (Nat.leb_spec (List.length lines) i); [discriminate|].
    destruct (step lines e i out) as [[i' out']|] eqn:S; [|discriminate].
    apply IH. apply mf_step_advances in S. lia.
Qed.

Lemma mf_loop_frame (lines : list string) (e : entries) (fuel : nat) :
  forall i out output,
    loop lines e fuel i out = Some (Some output) ->
    exists added, output = out ++ added
                  /\ framed (inserted e) (skipn i lines) added.
Proof.
  assert (stop : forall i out output,
            List.length lines <= i -> Some (Some out) = Some (Some output) ->
            exists added, output = out ++ added
                          /\ framed (inserted e) (skipn i lines) added).
  { intros i out output B H. injection H as <-. exists [].
    rewrite app_nil_r, skipn_all2 by exact B. split; [reflexivity | constructor]. }
  induction fuel as [|f IH]; intros i out output; simpl.
  - destruct (Nat.leb_spec (List.length lines) i) as [B|B];
      [now apply stop | discriminate].
  - destruct (Nat.leb_spec (List.length lines) i) as [B|B]; [now apply stop|].
    destruct (step lines e i out) as [[i' out']|] eqn:S; [|discriminate].
    intros H. destruct (IH _ _ _ H) as (a2 & -> & F2).
    destruct (mf_step_frame _ _ _ _ _ _ S) as (c & a1 & E & _ & _ & -> & F1).
    exists (a1 ++ a2). rewrite app_assoc. split; [reflexivity|].
    rewrite E. now apply framed_app.
Qed.

(** The completed rewrite keeps every line and adds only entries. *)
Lemma mf_rewrite_framed (lines : list string) (e : entries) (output : list string) :
  rewrite lines e = Some output -> framed (inserted e) lines output.
Proof.
  unfold rewrite. destruct (loop lines e (List.length lines) 0 []) as [r|] eqn:L;
    [|discriminate].
  intros ->. destruct (mf_loop_frame _ _ _ _ _ _ L) as (a & -> & F). exact F.
Qed.

(** X2. [rewrite] is [None] only for an [IndexError]. *)
Lemma mf_rewrite_total (lines : list string) (e : entries) :
  exists r, loop lines e (List.length lines) 0 [] = Some r /\ rewrite lines e = r.
Proof.
  unfold rewrite. destruct (loop lines e (List.length lines) 0 []) as [r|] eqn:L.
  - now exists r.
  - exfalso. revert L. apply mf_loop_fuel. lia.
Qed.

End ManualFixFacts.

(** ** ULTIMATE_FIX.py: the rewriting loop away from group records *)

Module UltimateFixFacts.
Import Py Disk Render Frame FrameFacts UltimateFix.

Lemma uf_inserted_builds p : Forall (inserted p) (builds (p_gen p)).
Proof. apply Forall_forall. intros x I. unfold inserted. rewrite !in_app_iff. tauto. Qed.

Lemma uf_inserted_refs p : Forall (inserted p) (refs (p_gen p)).
Proof. apply Forall_forall. intros x I. unfold inserted. rewrite !in_app_iff. tauto. Qed.

Lemma uf_inserted_sources p : Forall (inserted p) (sources (p_gen p)).
Proof. apply Forall_forall. intros x I. unfold inserted. rewrite !in_app_iff. tauto. Qed.

Lemma uf_inserted_defs p : Forall (inserted p) (subgroup_defs (subgroups (p_gen p))).
Proof. apply Forall_forall. intros x I. unfold inserted. rewrite !in_app_iff. tauto. Qed.

Lemma no_group_hit_at (p : plan) (lines : list string) (i : nat) (line isa : string) :
  no_group_hit p lines = true ->
  nth_error lines i = Some line -> nth_error lines (i + 1) = Some isa ->
  hits_group p line isa = false.
Proof.
  revert i. induction lines as [|x r IH]; intros i N L L1; [now destruct i|].
  simpl in N. apply andb_prop in N as [N0 N].
  destruct i as [|i].
  - simpl in L, L1. injection L as ->. destruct r as [|y r]; [discriminate|].
    simpl in L1. injection L1 as ->. now apply negb_true_iff.
  - simpl in L, L1. now apply (IH i).
Qed.

(** Where no group test holds, the [for] loop over the groups leaves [i]
    and [output] alone. *)
Lemma groups_pass_miss (lines : list string) (p : plan) (line : string)
  (i : nat) (out : list string) (gs : Dict.t string) :
  (forall g, In g gs ->
     (contains (snd g ++ " /* ") line && contains "= {" line
      && match nth_error lines (i + 1) with
         | Some isa => contains "isa = PBXGroup" isa
         | None => false
         end) = false) ->
  groups_pass lines p line gs (i, out) = Some (i, out).
Proof.
  induction gs as [|[gp gid] r IH]; intros M; [reflexivity|].
  simpl. pose proof (M (gp, gid) (or_introl eq_refl)) as M0. simpl in M0.
  destruct (contains (gid ++ " /* ") line && contains "= {" line).
  - simpl in M0. destruct (nth_error lines (i + 1)) as [isa|].
    + rewrite M0. apply IH. intros g I. apply M. now right.
    + apply IH. intros g I. apply M. now right.
  - apply IH. intros g I. apply M. now right.
Qed.

Lemma groups_pass_no_hit (lines : list string) (p : plan) (line : string)
  (i : nat) (out : list string) :
  no_group_hit p lines = true -> nth_error lines i = Some line ->
  groups_pass lines p line (p_groups p) (i, out) = Some (i, out).
Proof.
  intros N L. apply groups_pass_miss. intros g I.
  destruct (nth_error lines (i + 1)) as [isa|] eqn:L1; [|apply andb_false_r].
  pose proof (no_group_hit_at p lines i line isa N L L1) as H.
  unfold hits_group in H. apply andb_false_iff in H as [H|H].
  - apply andb_false_iff. left.
    destruct (contains (snd g ++ " /* ") line && contains "= {" line) eqn:E;
      [|reflexivity].
    rewrite <- H. symmetry. apply existsb_exists. now exists g.
  - apply andb_false_iff. now right.
Qed.

Lemma uf_sources_block_frame (lines : list string) (p : plan) (i : nat)
  (out : list string) (i' : nat) (out' : list string) :
  sources_block lines p i out = Some (i', out') ->
  exists consumed added,
    skipn i lines = consumed ++ skipn i' lines
    /\ i' = i + List.length consumed
    /\ consumed <> []
    /\ out' = out ++ added
    /\ framed (inserted p) consumed added.
Proof.
  unfold sources_block.
  destruct (nth_error lines i) as [line|] eqn:L; [|discriminate].
  destruct (nth_error lines (i + 1)) as [isa|] eqn:L1; [|discriminate].
  destruct (nth_error lines (i + 2)) as [mask|] eqn:L2; [|discriminate].
  destruct (nth_error lines (i + 3)) as [files_open|] eqn:L3; [|discriminate].
  set (existing := span_not ");" (skipn (i + 4) lines)).
  set (j := i + 4 + List.length existing).
  destruct (nth_error lines j) as [close|] eqn:Lj; [|discriminate].
  set (rest := span_not "};" (skipn (j + 1) lines)).
  set (k := j + 1 + List.length rest).
  destruct (nth_error lines k) as [brace|] eqn:Lk; [|discriminate].
  intros H. injection H as <- <-.
  exists ([line; isa; mask; files_open] ++ existing ++ [close] ++ rest ++ [brace]),
         ([line; isa; mask; files_open] ++ existing ++ sources (p_gen p)
          ++ [close] ++ rest ++ [brace]).
  split; [|split; [|split; [|split]]].
  - rewrite (skipn_nth lines i (i + 1) line L) by lia.
    rewrite (skipn_nth lines (i + 1) (i + 2) isa L1) by lia.
    rewrite (skipn_nth lines (i + 2) (i + 3) mask L2) by lia.
    rewrite (skipn_nth lines (i + 3) (i + 4) files_open L3) by lia.
    rewrite (skipn_span ");" lines (i + 4) j) by reflexivity. fold existing.
    rewrite (skipn_nth lines j (j + 1) close Lj) by lia.
    rewrite (skipn_span "};" lines (j + 1) k) by reflexivity. fold rest.
    rewrite (skipn_nth lines k (k + 1) brace Lk) by lia.
    simpl. repeat (rewrite <- app_assoc; simpl). reflexivity.
  - simpl. repeat (rewrite length_app; simpl). unfold k, j. lia.
  - discriminate.
  - reflexivity.
  - apply (framed_app _ [line; isa; mask; files_open] _ _ _ (framed_refl _ _)).
    apply (framed_app _ existing _ _ _ (framed_refl _ _)).
    apply (framed_app _ [] (sources (p_gen p)) _ _);
      [apply framed_inserted, uf_inserted_sources | apply framed_refl].
Qed.

Lemma uf_step_frame (lines : list string) (p : plan) (i : nat)
  (out : list string) (i' : nat) (out' : list string) :
  no_group_hit p lines = true ->
  step lines p i out = Some (i', out') ->
  exists consumed added,
    skipn i lines = consumed ++ skipn i' lines
    /\ i' = i + List.length consumed
    /\ consumed <> []
    /\ out' = out ++ added
    /\ framed (inserted p) consumed added.
Proof.
  intros N. unfold step.
  destruct (nth_error lines i) as [line|] eqn:L; [|discriminate].
  pose proof (skipn_nth lines i (i + 1) line L ltac:(lia)) as S0.
  assert (simple : forall ins, Forall (inserted p) ins ->
            exists consumed added,
              skipn i lines = consumed ++ skipn (i + 1) lines
              /\ i + 1 = i + List.length consumed
              /\ consumed <> []
              /\ out ++ ins ++ [line] = out ++ added
              /\ framed (inserted p) consumed added).
  { intros ins F. exists [line], (ins ++ [line]). repeat split; try easy.
    apply (framed_app _ [] ins [line] [line]);
      [now apply framed_inserted | apply framed_refl]. }
  destruct (contains END_BUILDFILE line).
  { intros H. injection H as <- <-. apply simple, uf_inserted_builds. }
  destruct (contains END_FILEREF line).
  { intros H. injection H as <- <-. apply simple, uf_inserted_refs. }
  destruct (contains SOURCES_HDR line && _).
  { apply uf_sources_block_frame. }
  rewrite (groups_pass_no_hit lines p line i out N L).
  destruct (contains END_GROUP line); intros H; injection H as <- <-.
  - rewrite <- app_assoc. apply simple, uf_inserted_defs.
  - apply (simple []). constructor.
Qed.

Lemma uf_loop_fuel (lines : list string) (p : plan) (fuel : nat) :
  no_group_hit p lines = true ->
  forall i out, List.length lines - i <= fuel -> loop lines p fuel i out <> None.
Proof.
  intros N. induction fuel as [|f IH]; intros i out B; simpl.
  - destruct (Nat.leb_spec (List.length lines) i); [discriminate | lia].
  - destruct (Nat.leb_spec (List.length lines) i); [discriminate|].
    destruct (step lines p i out) as [[i' out']|] eqn:S; [|discriminate].
    apply IH. destruct (uf_step_frame _ _ _ _ _ _ N S) as (c & a & _ & -> & C & _).
    destruct c; [contradiction | simpl; lia].
Qed.

Lemma uf_loop_frame (lines : list string) (p : plan) (fuel : nat) :
  no_group_hit p lines = true ->
  forall i out output,
    loop lines p fuel i out = Some (Some output) ->
    exists added, output = out ++ added
                  /\ framed (inserted p) (skipn i lines) added.
Proof.
  intros N.
  assert (stop : forall i out output,
            List.length lines <= i -> Some (Some out) = Some (Some output) ->
            exists added, output = out ++ added
                          /\ framed (inserted p) (skipn i lines) added).
  { intros i out output B H. injection H as <-. exists [].
    rewrite app_nil_r, skipn_all2 by exact B. split; [reflexivity | constructor]. }
  induction fuel as [|f IH]; intros i out output; simpl.
  - destruct (Nat.leb_spec (List.length lines) i) as [B|B];
      [now apply stop | discriminate].
  - destruct (Nat.leb_spec (List.length lines) i) as [B|B]; [now apply stop|].
    destruct (step lines p i out) as [[i' out']|] eqn:S; [|discriminate].
    intros H. destruct (IH _ _ _ H) as (a2 & -> & F2).
    destruct (uf_step_frame _ _ _ _ _ _ N S) as (c & a1 & E & _ & _ & -> & F1).
    exists (a1 ++ a2). rewrite app_assoc. split; [reflexivity|].
    rewrite E. now apply framed_app.
Qed.

Lemma uf_rewrite_framed (lines : list string) (p : plan) (output : list string) :
  no_group_hit p lines = true ->
  rewrite lines p = Some output -> framed (inserted p) lines output.
Proof.
  intros N. unfold rewrite.
  destruct (loop lines p (List.length lines) 0 []) as [r|] eqn:L; [|discriminate].
  intros ->. destruct (uf_loop_frame _ _ _ N _ _ _ L) as (a & -> & F). exact F.
Qed.

End UltimateFixFacts.

(** ** Runs of manual_fix.py *)

Module ManualFixRuns.
Import Py PyFacts Disk Render Frame FrameFacts ManualFix ManualFixFacts.

(** A sentinel present in the text is present in what a completed rewrite
    writes. *)
Lemma mf_sentinel_kept (n text : string) (e : entries) (output : list string) :
  boundary_free n = true -> n <> "" ->
  contains n text = true ->
  rewrite (splitlines text) e = Some output ->
  contains n (join_nl output ++ String "010" "") = true.
Proof.
  intros F N C R.
  destruct (contains_splitlines_inv n text F N C) as (l & I & G).
  apply (contains_result n l); [|exact G].
  apply mf_rewrite_framed in R. now apply (framed_In _ _ _ _ R).
Qed.


(** X1. When both validated sentinels occur in the manifest, the validation
    of manual_fix.py cannot fail. *)
Lemma mf_validation_cannot_fail (files : list string) (d : fs) (text : string) :
  d Manifest = Some text ->
  contains END_BUILDFILE text = true -> contains END_FILEREF text = true ->
  said (main_with files d) <> ValidationFailed.
Proof.
  intros M B F. unfold main_with, read_text. rewrite M. cbn [option_map].
  rewrite <- (contains_universal_newlines END_BUILDFILE eq_refl eq_refl
                ltac:(discriminate) text) in B.
  rewrite <- (contains_universal_newlines END_FILEREF eq_refl eq_refl
                ltac:(discriminate) text) in F.
  destruct (rewrite _ _) as [output|] eqn:R; [|discriminate].
  unfold valid.
  rewrite (mf_sentinel_kept END_BUILDFILE _ _ output eq_refl ltac:(discriminate) B R).
  rewrite (mf_sentinel_kept END_FILEREF _ _ output eq_refl ltac:(discriminate) F R).
  discriminate.
Qed.

Lemma mf_validation_cannot_fail_on_sample :
  said (main ["A.swift"] Sample.disk) <> ValidationFailed.
Proof.
  apply (mf_validation_cannot_fail (new_files ["A.swift"]) Sample.disk Sample.text);
    reflexivity.
Defined.

End ManualFixRuns.

(** ** proper_fix.py: locating the insertion points *)

Module ProperFixFacts.
Import Py PyFacts Disk Render ProperFix.






(** Without all three insertion points the script stops before it writes
    the manifest. *)
Lemma not_found_no_write (scan : list string) (has_model : bool) (d : fs)
  (text : string) :
  d Manifest = Some text ->
  all_found (locate (split_nl (universal_newlines text))) = false ->
  said (main scan has_model d) = AnchorsNotFound
  /\ wrote_manifest (main scan has_model d) = []
  /\ disk (main scan has_model d) Manifest = Some text.
Proof.
  intros M A. unfold main, read_text. rewrite M. cbn [option_map].
  rewrite A. simpl. repeat split. exact M.
Qed.

End ProperFixFacts.

(** ** fix_project.py: the assembly *)

Module FixProjectFacts.
Import Py PyFacts Disk Render Frame FrameFacts FixProject.

Lemma after_inserted (e : entries) (i : nat) : Forall (inserted e) (after e i).
Proof.
  apply Forall_forall. intros x. unfold after, inserted. rewrite !in_app_iff.
  destruct (Nat.eqb i 16), (Nat.eqb i 29), (Nat.eqb i 293); simpl; tauto.
Qed.

Lemma assemble_from (e : entries) (lines : list string) (k : nat) :
  framed (inserted e) lines
    (flat_map (fun il => snd il :: after e (fst il))
              (combine (seq k (List.length lines)) lines)).
Proof.
  revert k. induction lines as [|l r IH]; intros k; simpl; [constructor|].
  constructor. apply (framed_app _ [] (after e k) r _); [|apply IH].
  apply framed_inserted, after_inserted.
Qed.

(** The assembled lines are the input lines with entries inserted. *)
Lemma assemble_framed (e : entries) (lines : list string) :
  framed (inserted e) lines (assemble e lines).
Proof. apply assemble_from. Qed.

End FixProjectFacts.

(** ** ULTIMATE_FIX.py: the loop always ends *)

Module UltimateFixTotal.
Import Py Render UltimateFix.

Lemma group_body_mono (lines : list string) (p : plan) (line : string)
  (g : string * string) (i : nat) (out : list string) (i' : nat)
  (out' : list string) :
  group_body lines p line (i, out) g = Some (i', out') -> i <= i'.
Proof.
  unfold group_body. destruct g as [gp gid].
  destruct (contains (gid ++ " /* ") line && contains "= {" line);
    [|intros H; injection H as <- _; lia].
  destruct (nth_error lines (i + 1)) as [isa|]; [|intros H; injection H as <- _; lia].
  destruct (contains "isa = PBXGroup" isa); [|intros H; injection H as <- _; lia].
  destruct (nth_error lines _) as [c|]; [|discriminate].
  destruct (nth_error lines _) as [cl|]; [|discriminate].
  destruct (nth_error lines _) as [br|]; [|discriminate].
  intros H. injection H as <- _. lia.
Qed.

Lemma groups_pass_mono (lines : list string) (p : plan) (line : string)
  (gs : Dict.t string) :
  forall i out i' out',
    groups_pass lines p line gs (i, out) = Some (i', out') -> i <= i'.
Proof.
  induction gs as [|g r IH]; intros i out i' out'; cbn [groups_pass].
  - intros H. injection H as <- _. lia.
  - destruct (group_body lines p line (i, out) g) as [[i1 out1]|] eqn:B;
      [|discriminate].
    intros H. apply group_body_mono in B. apply IH in H. lia.
Qed.

Lemma uft_step_advances (lines : list string) (p : plan) (i : nat)
  (out : list string) (i' : nat) (out' : list string) :
  step lines p i out = Some (i', out') -> i < i'.
Proof.
  unfold step. destruct (nth_error lines i) as [line|]; [|discriminate].
  destruct (contains END_BUILDFILE line); [intros H; injection H as <- _; lia|].
  destruct (contains END_FILEREF line); [intros H; injection H as <- _; lia|].
  destruct (contains SOURCES_HDR line && _).
  - unfold sources_block.
    destruct (nth_error lines i); [|discriminate].
    destruct (nth_error lines (i + 1)); [|discriminate].
    destruct (nth_error lines (i + 2)); [|discriminate].
    destruct (nth_error lines (i + 3)); [|discriminate].
    destruct (nth_error lines _); [|discriminate].
    destruct (nth_error lines _); [|discriminate].
    intros H. injection H as <- _. lia.
  - destruct (groups_pass lines p line (p_groups p) (i, out)) as [[i1 out1]|] eqn:G;
      [|discriminate].
    intros H. injection H as <- _. apply groups_pass_mono in G. lia.
Qed.

(** [len(lines)] iterations are enough, whatever the document. *)
Lemma uft_loop_fuel (lines : list string) (p : plan) (fuel : nat) :
  forall i out, List.length lines - i <= fuel -> loop lines p fuel i out <> None.
Proof.
  induction fuel as [|f IH]; intros i out B; simpl.
  - destruct (Nat.leb_spec (List.length lines) i); [discriminate | lia].
  - destruct (Nat.leb_spec (List.length lines) i); [discriminate|].
    destruct (step lines p i out) as [[i' out']|] eqn:S; [|discriminate].
    apply IH. apply uft_step_advances in S. lia.
Qed.

(** X3. [rewrite] is [None] only for an [IndexError]. *)
Lemma uft_rewrite_total (lines : list string) (p : plan) :
  exists r, loop lines p (List.length lines) 0 [] = Some r /\ rewrite lines p = r.
Proof.
  unfold rewrite. destruct (loop lines p (List.length lines) 0 []) as [r|] eqn:L.
  - now exists r.
  - exfalso. revert L. apply uft_loop_fuel. lia.
Qed.

End UltimateFixTotal.

(** ** Identifiers *)

Module IdFacts.
Import Py.

Open Scope Z_scope.







Lemma upper_length (s : string) : String.length (upper s) = String.length s.
Proof. induction s as [|a t IH]; [reflexivity|]. simpl. now rewrite IH. Qed.

Lemma take_length (n : nat) (s : string) :
  (n <= String.length s)%nat -> String.length (take n s) = n.
Proof.
  revert s. induction n as [|n IH]; intros s L; [reflexivity|].
  destruct s as [|a t]; simpl in *; [lia|]. rewrite IH; lia.
Qed.



Close Scope Z_scope.

Lemma mem_In (x : string) (l : list string) : mem x l = true <-> In x l.
Proof.
  unfold mem. rewrite existsb_exists. split.
  - intros (y & I & E). apply String.eqb_eq in E. now subst.
  - intros I. exists x. split; [exact I | apply String.eqb_refl].
Qed.

Lemma nodupb_NoDup (l : list string) : nodupb l = true -> NoDup l.
Proof.
  induction l as [|x r IH]; simpl; intros H; constructor;
    apply andb_prop in H as [M H].
  - intros I. apply mem_In in I. rewrite I in M. discriminate.
  - now apply IH.
Qed.






End IdFacts.

(** ** [sorted(set(...))] *)

Module SortFacts.
Import Py.

Definition slt (a b : string) : Prop := String.compare a b = Lt.

Lemma slt_trans (a b c : string) : slt a b -> slt b c -> slt a c.
Proof.
  unfold slt. intros H1 H2. apply String_as_OT.cmp_lt.
  apply String_as_OT.cmp_lt in H1, H2. eapply String_as_OT.lt_trans; eassumption.
Qed.

Lemma slt_irrefl (a : string) : ~ slt a a.
Proof.
  unfold slt. intros H. apply String_as_OT.cmp_lt in H.
  apply String_as_OT.lt_not_eq in H. apply H. reflexivity.
Qed.

Lemma gt_slt (a b : string) : String.compare a b = Gt -> slt b a.
Proof.
  unfold slt. intros H. change String.compare with String_as_OT.cmp in *.
  rewrite String_as_OT.cmp_antisym, H. reflexivity.
Qed.

Lemma insert_sorted_In (x y : string) (l : list string) :
  In y (insert_sorted x l) <-> y = x \/ In y l.
Proof.
  induction l as [|a r IH]; simpl; [intuition|].
  destruct (String.compare x a) eqn:C; simpl.
  - apply String.compare_eq_iff in C as ->. intuition.
  - intuition.
  - rewrite IH. intuition.
Qed.

Lemma insert_sorted_sorted (x : string) (l : list string) :
  StronglySorted slt l -> StronglySorted slt (insert_sorted x l).
Proof.
  induction 1 as [|a r S IH F]; simpl; [repeat constructor|].
  destruct (String.compare x a) eqn:C.
  - now constructor.
  - constructor; [now constructor|]. constructor; [exact C|].
    revert F. apply Forall_impl. intros z. now apply slt_trans.
  - constructor; [exact IH|]. apply Forall_forall. intros z I.
    apply insert_sorted_In in I as [->|I]; [now apply gt_slt|].
    now apply (proj1 (Forall_forall _ _) F).
Qed.

Lemma sorted_set_In (x : string) (l : list string) :
  In x (sorted_set l) <-> In x l.
Proof.
  induction l as [|a r IH]; simpl; [reflexivity|].
  rewrite insert_sorted_In, IH. intuition.
Qed.

Lemma sorted_set_sorted (l : list string) : StronglySorted slt (sorted_set l).
Proof.
  induction l as [|a r IH]; simpl; [constructor | now apply insert_sorted_sorted].
Qed.

Lemma sorted_NoDup (l : list string) : StronglySorted slt l -> NoDup l.
Proof.
  induction 1 as [|a r S IH F]; constructor; [|exact IH].
  intros I. apply (proj1 (Forall_forall _ _) F) in I. now apply slt_irrefl in I.
Qed.

Lemma sorted_set_NoDup (l : list string) : NoDup (sorted_set l).
Proof. apply sorted_NoDup, sorted_set_sorted. Qed.

End SortFacts.

(** ** Dictionaries *)

Module DictFacts.

Lemma get_set (V : Type) (k k' : string) (v : V) (d : Dict.t V) :
  Dict.get k (Dict.set k' v d) = if String.eqb k k' then Some v else Dict.get k d.
Proof.
  induction d as [|[k0 v0] r IH]; simpl.
  - reflexivity.
  - destruct (String.eqb_spec k' k0) as [->|N]; simpl.
    + now destruct (String.eqb k k0).
    + rewrite IH. destruct (String.eqb_spec k k0) as [->|N0]; [|reflexivity].
      destruct (String.eqb_spec k0 k'); [congruence | reflexivity].
Qed.

Lemma get_update (V : Type) (k k' : string) (f : V -> V) (d : Dict.t V) :
  Dict.get k (Dict.update k' f d)
  = if String.eqb k k' then option_map f (Dict.get k d) else Dict.get k d.
Proof.
  induction d as [|[k0 v0] r IH]; simpl.
  - now destruct (String.eqb k k').
  - destruct (String.eqb_spec k' k0) as [->|N]; simpl.
    + now destruct (String.eqb k k0).
    + rewrite IH. destruct (String.eqb_spec k k0) as [->|N0]; [|reflexivity].
      destruct (String.eqb_spec k0 k'); [congruence | reflexivity].
Qed.

Lemma keys_set (V : Type) (k k' : string) (v : V) (d : Dict.t V) :
  In k (Dict.keys (Dict.set k' v d)) <-> k = k' \/ In k (Dict.keys d).
Proof.
  unfold Dict.keys. induction d as [|[k0 v0] r IH]; simpl.
  - intuition.
  - destruct (String.eqb_spec k' k0) as [->|N]; simpl.
    + intuition.
    + rewrite IH. intuition.
Qed.

Lemma get_append (A : Type) (k k' : string) (x : A) (d : Dict.t (list A)) :
  Dict.get k (Dict.append k' x d)
  = if String.eqb k k'
    then Some (match Dict.get k d with Some l => l ++ [x] | None => [x] end)
    else Dict.get k d.
Proof.
  unfold Dict.append. destruct (String.eqb_spec k k') as [->|N].
  - destruct (Dict.get k' d); rewrite get_set, String.eqb_refl; reflexivity.
  - apply String.eqb_neq in N.
    destruct (Dict.get k' d); rewrite get_set, N; reflexivity.
Qed.

End DictFacts.

(** ** ULTIMATE_FIX.py: the new groups *)

Module GroupFacts.
Import Py Render UltimateFix.

Lemma make_subgroups_keys (seed : N) (needed : list string) :
  Dict.keys (make_subgroups seed needed) = needed.
Proof.
  revert seed. induction needed as [|g r IH]; intros seed; [reflexivity|].
  simpl. f_equal. apply IH.
Qed.

Lemma make_subgroups_get (needed : list string) :
  forall seed g sg,
    Dict.get g (make_subgroups seed needed) = Some sg ->
    sg_files sg = []
    /\ sg_name sg = last (split "/" g) ""
    /\ sg_path sg = sg_name sg
    /\ sg_parent sg = join "/" (removelast (split "/" g)).
Proof.
  induction needed as [|g0 r IH]; intros seed g sg; [discriminate|].
  cbn [make_subgroups Dict.get].
  destruct (String.eqb_spec g g0) as [->|N].
  - intros H. injection H as <-. repeat split.
  - apply IH.
Qed.

Lemma new_groups_needed_In (base fm : Dict.t string) (g : string) :
  In g (new_groups_needed base fm)
  <-> In g (Dict.values fm) /\ ~ In g (Dict.keys base).
Proof.
  unfold new_groups_needed. rewrite SortFacts.sorted_set_In, filter_In.
  rewrite negb_true_iff, <- not_true_iff_false, IdFacts.mem_In. reflexivity.
Qed.

Lemma gen_file_get (g : string) (st : gen_state) (item : string * string) :
  Dict.get g (subgroups (gen_file st item))
  = match Dict.get g (subgroups st) with
    | Some sg =>
        Some (if String.eqb g (snd item)
              then mkSubgroup (sg_id sg) (sg_name sg) (sg_path sg) (sg_parent sg)
                     (sg_files sg ++ [(gen_id (g_seed st), fst item)])
              else sg)
    | None => None
    end.
Proof.
  destruct item as [fname gp]. unfold gen_file. cbn [subgroups fst snd].
  unfold Dict.has. destruct (Dict.get gp (subgroups st)) as [sg0|] eqn:H.
  - rewrite DictFacts.get_update.
    destruct (String.eqb_spec g gp) as [->|N].
    + rewrite H. reflexivity.
    + now destruct (Dict.get g (subgroups st)).
  - destruct (String.eqb_spec g gp) as [->|N].
    + rewrite H. reflexivity.
    + now destruct (Dict.get g (subgroups st)).
Qed.

(** The children of a new group are the files of [file_map] at its path,
    in order; its identifier, name and parent are as created. *)
Lemma gen_files_children (fm : Dict.t string) :
  forall st g sg',
    Dict.get g (subgroups (fold_left gen_file fm st)) = Some sg' ->
    exists sg,
      Dict.get g (subgroups st) = Some sg
      /\ map snd (sg_files sg') = map snd (sg_files sg) ++ files_at g fm
      /\ sg_id sg' = sg_id sg /\ sg_name sg' = sg_name sg
      /\ sg_parent sg' = sg_parent sg.
Proof.
  induction fm as [|item r IH]; intros st g sg' H.
  - exists sg'. unfold files_at. simpl. rewrite app_nil_r. now repeat split.
  - simpl in H. destruct (IH _ _ _ H) as (sg1 & G & F & I & Nm & P).
    rewrite gen_file_get in G.
    destruct (Dict.get g (subgroups st)) as [sg|]; [|discriminate].
    exists sg. split; [reflexivity|]. injection G as <-.
    unfold files_at in *. cbn [filter].
    destruct (String.eqb g (snd item)); cbn [sg_files sg_id sg_name sg_parent] in *.
    + rewrite F, map_app, <- app_assoc. now repeat split.
    + now repeat split.
Qed.

(** When the record of a group is rewritten, the children added to it
    include every new group whose recorded parent is the group's path. *)
Lemma new_children_links (p : plan) (group_path group_id g : string)
  (sg : subgroup) :
  In (g, sg) (subgroups (p_gen p)) -> sg_parent sg = group_path ->
  In (child_line (sg_id sg) (sg_name sg)) (new_children p group_path group_id).
Proof.
  intros I P. unfold new_children. apply in_or_app. right.
  apply in_flat_map. exists (g, sg). split; [exact I|].
  cbn [snd]. rewrite P, String.eqb_refl. now left.
Qed.

End GroupFacts.

(** ** manual_fix.py: the entries *)

Module EntryFacts.
Import Py Render ManualFix.

(** The [k]-th file gets the identifiers number [2k] and [2k+1] and one
    line of each kind. *)
Lemma entries_of_file (files : list string) :
  forall seed k f,
    nth_error files k = Some f ->
    let e := gen_entries seed files in
    let fid := gen_id (seed + 2 * N.of_nat k) in
    let bid := gen_id (seed + 2 * N.of_nat k + 1) in
    nth_error (refs e) k = Some (ref_line fid f (ftype_of f))
    /\ nth_error (builds e) k = Some (build_line bid fid f)
    /\ nth_error (sources e) k = Some (source_line bid f).
Proof.
  induction files as [|f0 r IH]; intros seed k f H; [now destruct k|].
  destruct k as [|k].
  - simpl in H. injection H as ->. cbn -[gen_id]. rewrite N.add_0_r. now repeat split.
  - simpl in H. specialize (IH (seed + 2)%N k f H).
    cbn [gen_entries refs builds sources nth_error].
    replace (seed + 2 * N.of_nat (S k))%N with (seed + 2 + 2 * N.of_nat k)%N by lia.
    exact IH.
Qed.

Lemma entries_length (files : list string) (seed : N) :
  let e := gen_entries seed files in
  List.length (refs e) = List.length files
  /\ List.length (builds e) = List.length files
  /\ List.length (sources e) = List.length files.
Proof.
  revert seed. induction files as [|f r IH]; intros seed; [now repeat split|].
  destruct (IH (seed + 2)%N) as (A & B & C). cbn [gen_entries refs builds sources List.length].
  now rewrite A, B, C.
Qed.

End EntryFacts.

(** ** add-files-to-xcode.py: the generated records *)

Module AddFilesFacts.
Import Py Render AddFiles.

Lemma gen_refs_length (draws : nat -> nat) (files : list file_info) :
  forall st,
    List.length (file_refs (fold_left (gen_file draws) files st))
    = List.length (file_refs st) + List.length files.
Proof.
  induction files as [|f r IH]; intros st; simpl; [lia|].
  rewrite IH. unfold gen_file. cbn [file_refs]. rewrite length_app. simpl. lia.
Qed.

Lemma gen_builds_length (draws : nat -> nat) (files : list file_info) :
  forall st,
    List.length (build_files (fold_left (gen_file draws) files st))
    = List.length (build_files st) + List.length (filter is_source files).
Proof.
  induction files as [|f r IH]; intros st; simpl; [lia|].
  rewrite IH. unfold gen_file. cbn [build_files].
  destruct (is_source f); [rewrite length_app|]; simpl; lia.
Qed.

Lemma gen_sources (draws : nat -> nat) (files : list file_info) :
  (forall f, In f files -> parent f <> "SOURCES") ->
  forall st,
    map snd (children_of "SOURCES" (fold_left (gen_file draws) files st))
    = map snd (children_of "SOURCES" st) ++ map name (filter is_source files).
Proof.
  induction files as [|f r IH]; intros P st; simpl; [now rewrite app_nil_r|].
  rewrite IH by (intros g I; apply P; now right).
  assert (Pf : String.eqb "SOURCES" (parent f) = false).
  { apply String.eqb_neq. intros E. apply (P f); [now left | now symmetry]. }
  assert (E : map snd (children_of "SOURCES" (gen_file draws st f))
              = map snd (children_of "SOURCES" st)
                ++ (if is_source f then [name f] else [])).
  { unfold children_of, gen_file. cbn [group_children].
    destruct (String.eqb (parent f) "");
      [|rewrite DictFacts.get_append, Pf];
      (destruct (is_source f);
       [rewrite DictFacts.get_append; cbn [String.eqb Ascii.eqb Bool.eqb];
        destruct (Dict.get "SOURCES" (group_children st));
        [rewrite map_app|]; reflexivity
       |now rewrite app_nil_r]). }
  rewrite E, <- app_assoc. now destruct (is_source f).
Qed.





End AddFilesFacts.

(** ** fix_xcode_project.py: the files taken as missing *)

Module FixXcodeProjectFacts.
Import Py Render FixXcodeProject.


(** *** The pattern finds the file references the scripts render *)















End FixXcodeProjectFacts.

(** ** More about dictionaries *)

Module DictMore.

Lemma set_keys_NoDup (V : Type) (k : string) (v : V) (d : Dict.t V) :
  NoDup (Dict.keys d) -> NoDup (Dict.keys (Dict.set k v d)).
Proof.
  unfold Dict.keys. induction d as [|[k0 v0] r IH]; intros N; cbn [Dict.set map fst].
  - constructor; [intros [] | constructor].
  - inversion N as [|? ? N0 N1]; subst.
    destruct (String.eqb_spec k k0) as [->|ne]; cbn [map fst].
    + now constructor.
    + constructor; [|now apply IH].
      intros I. apply (DictFacts.keys_set V k0 k v r) in I as [E|I];
        [now symmetry in E | contradiction].
Qed.

Lemma get_In (V : Type) (k : string) (v : V) (d : Dict.t V) :
  Dict.get k d = Some v -> In (k, v) d.
Proof.
  induction d as [|[k0 v0] r IH]; cbn [Dict.get]; [discriminate|].
  destruct (String.eqb_spec k k0) as [->|ne].
  - intros H. injection H as ->. now left.
  - intros H. right. now apply IH.
Qed.

Lemma append_keys_NoDup (A : Type) (k : string) (x : A) (d : Dict.t (list A)) :
  NoDup (Dict.keys d) -> NoDup (Dict.keys (Dict.append k x d)).
Proof.
  intros N. unfold Dict.append.
  destruct (Dict.get k d); now apply set_keys_NoDup.
Qed.

Lemma append_has (A : Type) (k k' : string) (x : A) (d : Dict.t (list A)) :
  Dict.has k d = true -> Dict.has k (Dict.append k' x d) = true.
Proof.
  unfold Dict.has, Dict.append. intros H.
  destruct (Dict.get k' d); rewrite DictFacts.get_set;
    destruct (String.eqb k k'); try reflexivity; exact H.
Qed.

Lemma append_has_same (A : Type) (k : string) (x : A) (d : Dict.t (list A)) :
  Dict.has k (Dict.append k x d) = true.
Proof.
  unfold Dict.has, Dict.append.
  destruct (Dict.get k d); now rewrite DictFacts.get_set, String.eqb_refl.
Qed.

Lemma has_existsb (V : Type) (k : string) (d : Dict.t V) (f : string -> bool) :
  Dict.has k d = true -> f k = true -> existsb (fun g => f (fst g)) d = true.
Proof.
  unfold Dict.has. induction d as [|[k0 v0] r IH]; cbn [Dict.get existsb fst];
    [discriminate|].
  destruct (String.eqb_spec k k0) as [->|ne]; intros H F.
  - now rewrite F.
  - rewrite (IH H F). apply orb_true_r.
Qed.

End DictMore.

(** ** Runs of proper_fix.py *)

Module ProperFixRuns.
Import Py PyFacts Disk Render ProperFix ProperFixAux.

(** The pairs [enumerate(lines)] yields. *)
Lemma in_enumerate (ls : list string) (k i : nat) (l : string) :
  In (i, l) (combine (seq k (List.length ls)) ls) ->
  k <= i /\ nth_error ls (i - k) = Some l.
Proof.
  revert k. induction ls as [|x r IH]; intros k I; [contradiction|].
  simpl in I. destruct I as [E|I].
  - injection E as <- <-. rewrite Nat.sub_diag. split; [lia | reflexivity].
  - apply IH in I as [L N]. split; [lia|].
    replace (i - k) with (S (i - S k)) by lia. exact N.
Qed.

Lemma locate_points (lines : list string) (items : list (nat * string)) :
  (forall i l, In (i, l) items -> nth_error lines i = Some l) ->
  forall a,
    points_at lines END_BUILDFILE (buildfile_end_idx a) ->
    points_at lines END_FILEREF (fileref_end_idx a) ->
    let a' := fold_left (locate_step lines) items a in
    points_at lines END_BUILDFILE (buildfile_end_idx a')
    /\ points_at lines END_FILEREF (fileref_end_idx a').
Proof.
  induction items as [|[i l] r IH]; intros A a Pb Pf; [now split|].
  cbn [fold_left]. apply IH.
  - intros j m I. apply A. now right.
  - unfold locate_step. cbn [buildfile_end_idx].
    destruct (contains END_BUILDFILE l) eqn:E; [|exact Pb].
    intros j H. injection H as <-. exists l. split; [apply A; now left | exact E].
  - unfold locate_step. cbn [fileref_end_idx].
    destruct (contains END_FILEREF l) eqn:E; [|exact Pf].
    intros j H. injection H as <-. exists l. split; [apply A; now left | exact E].
Qed.

Lemma locate_sound (lines : list string) :
  points_at lines END_BUILDFILE (buildfile_end_idx (locate lines))
  /\ points_at lines END_FILEREF (fileref_end_idx (locate lines)).
Proof.
  unfold locate. apply locate_points.
  - intros i l I. apply in_enumerate in I as [_ N]. now rewrite Nat.sub_0_r in N.
  - intros i H. discriminate.
  - intros i H. discriminate.
Qed.

Lemma build_keeps (a : anchors) (e : entries) (lines : list string) (l : string) :
  In l lines -> In l (build a e lines).
Proof.
  unfold build. generalize 0 as k.
  induction lines as [|x r IH]; intros k I; [contradiction|].
  cbn [List.length seq combine flat_map]. rewrite !in_app_iff.
  destruct I as [->|I].
  - left. right. right. right. now left.
  - right. now apply IH.
Qed.

Lemma found_sentinel_written (pat : string) (a : anchors) (e : entries)
  (lines : list string) (x : option nat) :
  points_at lines pat x -> truthy x = true ->
  contains pat (join_nl (build a e lines)) = true.
Proof.
  intros P T. destruct x as [[|n]|]; try discriminate.
  destruct (P (S n) eq_refl) as (l & N & C).
  apply (contains_join pat l); [|exact C].
  apply build_keeps. now apply nth_error_In in N.
Qed.

(** With the insertion points found, what is built passes the test of
    line 124. *)
Lemma found_valid (a : anchors) (e : entries) (lines : list string) :
  all_found (locate lines) = true -> valid (join_nl (build a e lines)) = true.
Proof.
  intros A. unfold all_found in A.
  apply andb_prop in A as [A _]. apply andb_prop in A as [Tb Tf].
  destruct (locate_sound lines) as [Pb Pf]. unfold valid.
  rewrite (found_sentinel_written END_BUILDFILE _ _ _ _ Pb Tb).
  now rewrite (found_sentinel_written END_FILEREF _ _ _ _ Pf Tf).
Qed.

(** Reading the manifest back changes nothing for the test of line
    124. *)
Lemma valid_read_back (written : string) :
  valid (universal_newlines written) = valid written.
Proof.
  unfold valid.
  rewrite (contains_universal_newlines END_BUILDFILE eq_refl eq_refl
             ltac:(discriminate)).
  now rewrite (contains_universal_newlines END_FILEREF eq_refl eq_refl
                 ltac:(discriminate)).
Qed.

(** A run that finds its insertion points. *)
Lemma main_found (scan : list string) (has_model : bool) (d : fs) (text : string) :
  d Manifest = Some text ->
  let loaded := universal_newlines text in
  let lines := split_nl loaded in
  let written :=
    join_nl (build (locate lines) (gen_entries (to_add scan) has_model) lines) in
  all_found (locate lines) = true ->
  main scan has_model d
  = mkRun (write_text Manifest written (write_text StampedBackup loaded d))
          [(StampedBackup, loaded); (Manifest, written)]
          ValidationPassed.
Proof.
  intros M loaded lines written A. unfold main, read_text at 1. rewrite M.
  cbn [option_map]. fold loaded. fold lines. rewrite A. cbn [negb].
  fold written. unfold read_text, write_text at 1. cbn [path_eqb option_map].
  rewrite valid_read_back. unfold written. now rewrite (found_valid _ _ _ A).
Qed.

(** X4. The restore branch of proper_fix.py cannot be reached: a run that
    gets to the validation passes it. *)
Theorem pf_validation_cannot_fail (scan : list string) (has_model : bool) (d : fs) :
  said (main scan has_model d) <> ValidationFailed.
Proof.
  destruct (d Manifest) as [text|] eqn:M.
  - destruct (all_found (locate (split_nl (universal_newlines text)))) eqn:A.
    + rewrite (main_found scan has_model d text M A). discriminate.
    + rewrite (proj1 (ProperFixFacts.not_found_no_write scan has_model d text M A)).
      discriminate.
  - unfold main, read_text. rewrite M. discriminate.
Qed.

(** *** The last line with a sentinel is the one taken *)

Section LastHit.
Variable lines : list string.
Variable proj : anchors -> option nat.
Variable pat : string.
Hypothesis proj_step : forall a il,
  proj (locate_step lines a il)
  = if contains pat (snd il) then Some (fst il) else proj a.

Let miss (ls : list string) : Prop :=
  forall j l, nth_error ls j = Some l -> contains pat l = false.

Lemma last_hit_from (ls : list string) :
  forall k a i,
    proj (fold_left (locate_step lines) (combine (seq k (List.length ls)) ls) a)
    = Some i
    <-> (k <= i
         /\ (exists l, nth_error ls (i - k) = Some l /\ contains pat l = true)
         /\ miss (skipn (S (i - k)) ls))
        \/ (proj a = Some i /\ miss ls).
Proof.
  induction ls as [|x r IH]; intros k a i.
  - cbn [List.length seq combine fold_left]. split.
    + intros H. right. split; [exact H|]. intros j l N. now destruct j.
    + intros [(_ & (l & N & _) & _)|[H _]]; [now destruct (i - k) | exact H].
  - cbn [List.length seq combine fold_left]. rewrite IH, proj_step. cbn [fst snd].
    split.
    + intros [(L & (l & N & C) & M)|[H M]].
      * left. split; [lia|]. replace (i - k) with (S (i - S k)) by lia.
        split; [now exists l | exact M].
      * destruct (contains pat x) eqn:E.
        -- injection H as <-. left. split; [lia|]. rewrite Nat.sub_diag.
           split; [now exists x | exact M].
        -- right. split; [exact H|]. intros [|j] l N.
           ++ injection N as <-. exact E.
           ++ now apply (M j).
    + intros [(L & (l & N & C) & M)|[H M]].
      * destruct (Nat.eq_dec i k) as [->|ne].
        -- rewrite Nat.sub_diag in N, M. injection N as ->. rewrite C.
           right. split; [reflexivity | exact M].
        -- left. split; [lia|]. replace (i - k) with (S (i - S k)) in N, M by lia.
           split; [now exists l | exact M].
      * right. rewrite (M 0 x eq_refl). split; [exact H|].
        intros j l N. now apply (M (S j)).
Qed.

Lemma last_hit (i : nat) :
  proj (mkAnchors None None None) = None ->
  proj (locate lines) = Some i
  <-> (exists l, nth_error lines i = Some l /\ contains pat l = true)
      /\ (forall j l, i < j -> nth_error lines j = Some l -> contains pat l = false).
Proof.
  intros P0. unfold locate. rewrite last_hit_from, P0, Nat.sub_0_r. split.
  - intros [(_ & H & M)|[H _]]; [|discriminate]. split; [exact H|].
    intros j l L N. apply (M (j - S i)).
    rewrite nth_error_skipn. now replace (S i + (j - S i)) with j by lia.
  - intros [H M]. left. split; [lia|]. split; [exact H|].
    intros j l N. rewrite nth_error_skipn in N. apply (M (S i + j)); [lia | exact N].
Qed.

End LastHit.

(** X5. The scan of lines 77-81 has no [break]: the insertion point of the
    build files is the last line that contains the end of the build-file
    section, and that of the file references the last line that contains
    the end of the file-reference section. *)
Theorem pf_insertion_point_is_last_sentinel_line (lines : list string) (i : nat) :
  (buildfile_end_idx (locate lines) = Some i
   <-> (exists l, nth_error lines i = Some l /\ contains END_BUILDFILE l = true)
       /\ (forall j l, i < j -> nth_error lines j = Some l ->
                       contains END_BUILDFILE l = false))
  /\ (fileref_end_idx (locate lines) = Some i
      <-> (exists l, nth_error lines i = Some l /\ contains END_FILEREF l = true)
          /\ (forall j l, i < j -> nth_error lines j = Some l ->
                          contains END_FILEREF l = false)).
Proof.
  split.
  - apply (last_hit lines buildfile_end_idx END_BUILDFILE); [|reflexivity].
    intros a [j l]. reflexivity.
  - apply (last_hit lines fileref_end_idx END_FILEREF); [|reflexivity].
    intros a [j l]. reflexivity.
Qed.

(** X6. [all([...])] takes the index 0 for a missing one: a manifest whose
    only line with the end of the build-file section (or of the
    file-reference section) is the first line read is refused, and
    nothing is written to it. *)
Theorem pf_sentinel_on_first_line_refused (scan : list string) (has_model : bool)
  (d : fs) (text first : string) (rest : list string) (pat : string) :
  d Manifest = Some text ->
  split_nl (universal_newlines text) = first :: rest ->
  pat = END_BUILDFILE \/ pat = END_FILEREF ->
  contains pat first = true ->
  (forall l, In l rest -> contains pat l = false) ->
  said (main scan has_model d) = AnchorsNotFound
  /\ wrote_manifest (main scan has_model d) = []
  /\ disk (main scan has_model d) Manifest = Some text.
Proof.
  intros M S P C R.
  assert (A : all_found (locate (split_nl (universal_newlines text))) = false).
  { rewrite S. unfold all_found.
    assert (Z : forall proj,
              (forall a il, proj (locate_step (first :: rest) a il)
                            = if contains pat (snd il) then Some (fst il) else proj a) ->
              proj (mkAnchors None None None) = None ->
              proj (locate (first :: rest)) = Some 0).
    { intros proj St P0. apply (last_hit (first :: rest) proj pat St 0 P0). split.
      - now exists first.
      - intros [|j] l L N; [lia|]. apply R. simpl in N. now apply nth_error_In in N. }
    destruct P as [->| ->].
    - rewrite (Z buildfile_end_idx); [reflexivity | now intros a [j l] | reflexivity].
    - rewrite (Z fileref_end_idx); [|now intros a [j l] | reflexivity].
      cbn [truthy]. now rewrite andb_false_r. }
  now apply ProperFixFacts.not_found_no_write.
Qed.

Lemma pf_sentinel_on_first_line_refused_witness :
  said (main [] false
          (Sample.only_manifest (join_nl [END_BUILDFILE; END_FILEREF; "x"])))
  = AnchorsNotFound.
Proof.
  apply (pf_sentinel_on_first_line_refused [] false
           (Sample.only_manifest (join_nl [END_BUILDFILE; END_FILEREF; "x"]))
           (join_nl [END_BUILDFILE; END_FILEREF; "x"])
           END_BUILDFILE [END_FILEREF; "x"] END_BUILDFILE).
  - reflexivity.
  - reflexivity.
  - now left.
  - reflexivity.
  - intros l [<-|[<-|[]]]; reflexivity.
Defined.

(** *** Where the entries go *)

Lemma enumerate_app (l1 l2 : list string) (k : nat) :
  combine (seq k (List.length (l1 ++ l2))) (l1 ++ l2)
  = combine (seq k (List.length l1)) l1
    ++ combine (seq (k + List.length l1) (List.length l2)) l2.
Proof.
  revert k. induction l1 as [|x r IH]; intros k.
  - cbn. now rewrite Nat.add_0_r.
  - cbn [List.length seq combine app]. rewrite IH.
    replace (S k + List.length r) with (k + S (List.length r)) by lia. reflexivity.
Qed.

Section Build.
Variables (a : anchors) (e : entries).

Let body (il : nat * string) : list string :=
  (if at_idx (buildfile_end_idx a) (fst il) then build_files e else [])
  ++ (if at_idx (fileref_end_idx a) (fst il) then file_refs e else [])
  ++ (if at_idx (sources_insert_idx a) (fst il) then source_entries e else [])
  ++ [snd il].

(** A stretch of lines none of which is an insertion point is copied. *)
Lemma build_stretch (l : list string) :
  forall k,
    (forall i, k <= i < k + List.length l ->
       at_idx (buildfile_end_idx a) i = false
       /\ at_idx (fileref_end_idx a) i = false
       /\ at_idx (sources_insert_idx a) i = false) ->
    flat_map body (combine (seq k (List.length l)) l) = l.
Proof.
  induction l as [|x r IH]; intros k H; [reflexivity|].
  cbn [List.length seq combine flat_map]. rewrite IH.
  - unfold body. cbn [fst snd].
    destruct (H k) as (-> & -> & ->); [simpl; lia | reflexivity].
  - intros i B. apply H. simpl. lia.
Qed.

End Build.

Lemma at_idx_ne (n i : nat) : i <> n -> at_idx (Some n) i = false.
Proof. intros H. simpl. now apply Nat.eqb_neq. Qed.

Lemma at_idx_eq (n : nat) : at_idx (Some n) n = true.
Proof. simpl. apply Nat.eqb_refl. Qed.

Lemma build_at (e : entries) (l1 l2 l3 l4 : list string) (x y z : string) :
  let b := List.length l1 in
  let f := b + 1 + List.length l2 in
  let s := f + 1 + List.length l3 in
  build (mkAnchors (Some b) (Some f) (Some s)) e
        (l1 ++ x :: l2 ++ y :: l3 ++ z :: l4)
  = l1 ++ build_files e ++ x :: l2 ++ file_refs e ++ y :: l3
       ++ source_entries e ++ z :: l4.
Proof.
  intros b f s. unfold build.
  rewrite enumerate_app. cbn [List.length seq combine].
  rewrite enumerate_app. cbn [List.length seq combine].
  rewrite enumerate_app. cbn [List.length seq combine].
  rewrite !flat_map_app. cbn [flat_map].
  rewrite !flat_map_app. cbn [flat_map].
  rewrite !flat_map_app. cbn [flat_map].
  rewrite !build_stretch.
  - cbn [buildfile_end_idx fileref_end_idx sources_insert_idx fst snd].
    replace (S (S (0 + List.length l1) + List.length l2) + List.length l3)
      with s by (unfold s, f, b; lia).
    replace (S (0 + List.length l1) + List.length l2) with f by (unfold f, b; lia).
    replace (0 + List.length l1) with b by reflexivity.
    rewrite !at_idx_eq.
    rewrite (at_idx_ne f b), (at_idx_ne s b), (at_idx_ne b f), (at_idx_ne s f),
      (at_idx_ne b s), (at_idx_ne f s) by (unfold s, f; lia).
    cbn [app]. repeat (rewrite <- app_assoc; cbn [app]). reflexivity.
  - intros i B. cbn [buildfile_end_idx fileref_end_idx sources_insert_idx].
    repeat split; apply at_idx_ne; unfold s, f, b in *; lia.
  - intros i B. cbn [buildfile_end_idx fileref_end_idx sources_insert_idx].
    repeat split; apply at_idx_ne; unfold s, f, b in *; lia.
  - intros i B. cbn [buildfile_end_idx fileref_end_idx sources_insert_idx].
    repeat split; apply at_idx_ne; unfold s, f, b in *; lia.
  - intros i B. cbn [buildfile_end_idx fileref_end_idx sources_insert_idx].
    repeat split; apply at_idx_ne; unfold s, f, b in *; lia.
Qed.

(** X7. When the three insertion points are found on the lines [x], [y] and
    [z] of the text read, in this order and none of them on the first
    line, the manifest written is that text with the build files before
    [x], the file references before [y] and the phase entries before [z],
    and the validation passes. *)
Theorem pf_entries_go_before_the_located_lines (scan : list string)
  (has_model : bool) (d : fs) (text x y z : string) (l1 l2 l3 l4 : list string) :
  d Manifest = Some text ->
  split_nl (universal_newlines text) = l1 ++ x :: l2 ++ y :: l3 ++ z :: l4 ->
  l1 <> [] ->
  locate (split_nl (universal_newlines text))
  = mkAnchors (Some (List.length l1))
              (Some (List.length l1 + 1 + List.length l2))
              (Some (List.length l1 + 1 + List.length l2 + 1 + List.length l3)) ->
  let e := gen_entries (to_add scan) has_model in
  said (main scan has_model d) = ValidationPassed
  /\ disk (main scan has_model d) Manifest
     = Some (join_nl (l1 ++ build_files e ++ x :: l2 ++ file_refs e ++ y :: l3
                         ++ source_entries e ++ z :: l4)).
Proof.
  intros M Sp N L e.
  assert (A : all_found (locate (split_nl (universal_newlines text))) = true).
  { rewrite L. unfold all_found. cbn [buildfile_end_idx fileref_end_idx sources_insert_idx].
    destruct l1 as [|u l1]; [contradiction|]. cbn [List.length].
    replace (S (List.length l1) + 1 + List.length l2)
      with (S (List.length l1 + 1 + List.length l2)) by lia.
    replace (S (List.length l1 + 1 + List.length l2) + 1 + List.length l3)
      with (S (List.length l1 + 1 + List.length l2 + 1 + List.length l3)) by lia.
    reflexivity. }
  rewrite (main_found scan has_model d text M A).
  cbn [said disk]. split; [reflexivity|].
  unfold write_text. cbn [path_eqb]. f_equal. f_equal.
  rewrite L, Sp. apply build_at.
Qed.

Lemma pf_entries_go_before_the_located_lines_witness :
  said (main ["A.swift"] false (Sample.only_manifest (join_nl Sample.lines)))
  = ValidationPassed
  /\ disk (main ["A.swift"] false (Sample.only_manifest (join_nl Sample.lines)))
       Manifest
     = Some (join_nl
               (firstn 2 Sample.lines
                ++ build_files (gen_entries (to_add ["A.swift"]) false)
                ++ END_BUILDFILE :: firstn 2 (skipn 3 Sample.lines)
                ++ file_refs (gen_entries (to_add ["A.swift"]) false)
                ++ END_FILEREF :: firstn 6 (skipn 6 Sample.lines)
                ++ source_entries (gen_entries (to_add ["A.swift"]) false)
                ++ t3 ");" :: skipn 13 Sample.lines)).
Proof.
  apply (pf_entries_go_before_the_located_lines ["A.swift"] false
           (Sample.only_manifest (join_nl Sample.lines)) (join_nl Sample.lines)
           END_BUILDFILE END_FILEREF (t3 ");")
           (firstn 2 Sample.lines) (firstn 2 (skipn 3 Sample.lines))
           (firstn 6 (skipn 6 Sample.lines)) (skipn 13 Sample.lines)).
  - reflexivity.
  - reflexivity.
  - discriminate.
  - reflexivity.
Defined.

(** *** The insertion point of the phase entries *)

Lemma find_idx_spec (pat : string) (l : list string) :
  forall i k,
    find_idx pat l i = Some k ->
    i <= k
    /\ (exists x, nth_error l (k - i) = Some x /\ contains pat x = true)
    /\ (forall m x, m < k - i -> nth_error l m = Some x -> contains pat x = false).
Proof.
  induction l as [|y r IH]; intros i k; cbn [find_idx]; [discriminate|].
  destruct (contains pat y) eqn:E.
  - intros H. injection H as <-. rewrite Nat.sub_diag. split; [lia|].
    split; [now exists y | intros m x L; lia].
  - intros H. apply IH in H as (L & (x & N & C) & F). split; [lia|].
    replace (k - i) with (S (k - S i)) by lia. split; [now exists x|].
    intros [|m] x' B N'; [now injection N' as <- | apply (F m); [lia | exact N']].
Qed.

Lemma find_first_spec (lines : list string) (pat : string) (lo hi k : nat) :
  find_first lines pat lo hi = Some k ->
  lo <= k < hi
  /\ (exists x, nth_error lines k = Some x /\ contains pat x = true)
  /\ (forall m x, lo <= m < k -> nth_error lines m = Some x ->
                  contains pat x = false).
Proof.
  unfold find_first. intros H. apply find_idx_spec in H as (L & (x & N & C) & F).
  assert (W : forall m y, nth_error (firstn (hi - lo) (skipn lo lines)) m = Some y ->
                m < hi - lo /\ nth_error lines (lo + m) = Some y).
  { intros m y Q. destruct (Nat.lt_ge_cases m (hi - lo)) as [B|B].
    - rewrite nth_error_firstn in Q.
      destruct (Nat.ltb_spec m (hi - lo)); [|lia].
      rewrite nth_error_skipn in Q. now split.
    - exfalso. assert (O : nth_error (firstn (hi - lo) (skipn lo lines)) m = None).
      { apply nth_error_None. rewrite length_firstn. lia. }
      rewrite O in Q. discriminate. }
  destruct (W _ _ N) as [B N']. replace (lo + (k - lo)) with k in N' by lia.
  split; [lia|]. split; [now exists x|].
  intros m y R Q. apply (F (m - lo)); [lia|].
  rewrite nth_error_firstn. destruct (Nat.ltb_spec (m - lo) (hi - lo)); [|lia].
  rewrite nth_error_skipn. now replace (lo + (m - lo)) with m by lia.
Qed.

(** X8. The phase entries go before the first line with [");"] that follows,
    within 50 lines, the first line with ["files = ("] found within 20
    lines from a header of the Sources phase. *)
Theorem pf_phase_insertion_point (lines : list string) (k : nat) :
  sources_insert_idx (locate lines) = Some k ->
  exists i j hdr fo close,
    i <= j < i + 20 /\ j < k < j + 50
    /\ nth_error lines i = Some hdr /\ contains SOURCES_OPEN hdr = true
    /\ nth_error lines j = Some fo /\ contains "files = (" fo = true
    /\ nth_error lines k = Some close /\ contains ");" close = true
    /\ (forall m x, i <= m < j -> nth_error lines m = Some x ->
                    contains "files = (" x = false)
    /\ (forall m x, j < m < k -> nth_error lines m = Some x ->
                    contains ");" x = false).
Proof.
  unfold locate.
  assert (G : forall items a,
            (forall i l, In (i, l) items -> nth_error lines i = Some l) ->
            sources_insert_idx (fold_left (locate_step lines) items a) = Some k ->
            sources_insert_idx a = Some k
            \/ exists i j hdr fo close,
                 i <= j < i + 20 /\ j < k < j + 50
                 /\ nth_error lines i = Some hdr /\ contains SOURCES_OPEN hdr = true
                 /\ nth_error lines j = Some fo /\ contains "files = (" fo = true
                 /\ nth_error lines k = Some close /\ contains ");" close = true
                 /\ (forall m x, i <= m < j -> nth_error lines m = Some x ->
                                 contains "files = (" x = false)
                 /\ (forall m x, j < m < k -> nth_error lines m = Some x ->
                                 contains ");" x = false)).
  { induction items as [|[i l] r IH]; intros a A H; [now left|].
    cbn [fold_left] in H.
    destruct (IH _ (fun j m I => A j m (or_intror I)) H) as [H0|H0]; [|now right].
    unfold locate_step in H0. cbn [sources_insert_idx] in H0.
    destruct (contains SOURCES_OPEN l) eqn:C; [|now left].
    destruct (find_first lines "files = (" i _) as [j|] eqn:F1; [|now left].
    destruct (find_first lines ");" (j + 1) _) as [k'|] eqn:F2; [|now left].
    injection H0 as ->. right.
    apply find_first_spec in F1 as (B1 & (fo & N1 & C1) & M1).
    apply find_first_spec in F2 as (B2 & (cl & N2 & C2) & M2).
    exists i, j, l, fo, cl. repeat split; try lia; try assumption.
    - apply A. now left.
    - intros m x B. apply M2. lia. }
  intros H.
  assert (A : forall i l, In (i, l) (combine (seq 0 (List.length lines)) lines) ->
                nth_error lines i = Some l).
  { intros i l I. apply in_enumerate in I as [_ N]. now rewrite Nat.sub_0_r in N. }
  destruct (G _ _ A H) as [H0|H0]; [discriminate | exact H0].
Qed.

Lemma pf_phase_insertion_point_witness :
  exists i j hdr fo close,
    i <= j < i + 20 /\ j < 12 < j + 50
    /\ nth_error Sample.lines i = Some hdr /\ contains SOURCES_OPEN hdr = true
    /\ nth_error Sample.lines j = Some fo /\ contains "files = (" fo = true
    /\ nth_error Sample.lines 12 = Some close /\ contains ");" close = true
    /\ (forall m x, i <= m < j -> nth_error Sample.lines m = Some x ->
                    contains "files = (" x = false)
    /\ (forall m x, j < m < 12 -> nth_error Sample.lines m = Some x ->
                    contains ");" x = false).
Proof. apply (pf_phase_insertion_point Sample.lines 12). reflexivity. Defined.

End ProperFixRuns.

(** ** manual_fix.py: the Sources phase *)

Module ManualFixBlocks.
Import Py PyFacts Disk Render Frame FrameFacts ManualFix ManualFixFacts ManualFixPlain.


Lemma mf_step_plain (lines : list string) (e : entries) (i : nat)
  (out : list string) (line : string) :
  nth_error lines i = Some line -> contains SOURCES_HDR line = false ->
  step lines e i out = Some (i + 1, out ++ plain_line e line).
Proof.
  intros N H. unfold step, plain_line. rewrite N, H.
  destruct (contains END_BUILDFILE line); [reflexivity|].
  destruct (contains END_FILEREF line); reflexivity.
Qed.

(** The loop over a stretch of lines without the phase header. *)
Lemma mf_loop_plain (e : entries) (pre post : list string) :
  Forall (fun l => contains SOURCES_HDR l = false) pre ->
  forall done out fuel,
    loop (done ++ pre ++ post) e (List.length pre + fuel) (List.length done) out
    = loop (done ++ pre ++ post) e fuel (List.length done + List.length pre)
           (out ++ plain_pass e pre).
Proof.
  induction 1 as [|x pre Hx _ IH]; intros done out fuel.
  - cbn [List.length plain_pass flat_map]. now rewrite Nat.add_0_r, app_nil_r.
  - cbn [List.length Nat.add loop].
    destruct (Nat.leb_spec (List.length (done ++ (x :: pre) ++ post)) (List.length done)) as [B|B].
    { rewrite !length_app in B. simpl in B. lia. }
    rewrite (mf_step_plain _ e _ out x).
    + replace (done ++ (x :: pre) ++ post) with ((done ++ [x]) ++ pre ++ post)
        by (rewrite <- app_assoc; reflexivity).
      replace (List.length done + 1) with (List.length (done ++ [x]))
        by (rewrite length_app; reflexivity).
      rewrite IH. rewrite length_app. cbn [List.length plain_pass flat_map].
      f_equal; [lia | now rewrite <- app_assoc].
    + rewrite nth_error_app2 by lia. now rewrite Nat.sub_diag.
    + exact Hx.
Qed.

(** The loop does not depend on the lines behind it. *)
Lemma mf_step_shift (e : entries) (pre post : list string) (i : nat) (out : list string) :
  step (pre ++ post) e (List.length pre + i) out
  = match step post e i [] with
    | Some (i', o) => Some (List.length pre + i', out ++ o)
    | None => None
    end.
Proof.
  set (n := List.length pre).
  assert (N : forall a c, a = n + c -> nth_error (pre ++ post) a = nth_error post c).
  { intros a c ->. rewrite nth_error_app2 by (unfold n; lia). f_equal. unfold n. lia. }
  assert (K : forall a c, a = n + c -> skipn a (pre ++ post) = skipn c post).
  { intros a c ->. rewrite skipn_app, skipn_all2 by (unfold n; lia).
    cbn [app]. f_equal. unfold n. lia. }
  unfold step. rewrite (N (n + i) i) by lia.
  destruct (nth_error post i) as [line|]; [|reflexivity].
  destruct (contains END_BUILDFILE line).
  { cbn [app]. f_equal. f_equal. lia. }
  destruct (contains END_FILEREF line).
  { cbn [app]. f_equal. f_equal. lia. }
  destruct (contains SOURCES_HDR line); [|cbn [app]; f_equal; f_equal; lia].
  rewrite (N (n + i + 1) (i + 1)) by lia.
  destruct (nth_error post (i + 1)) as [isa|]; [|reflexivity].
  destruct (contains ISA_SOURCES isa); [|cbn [app]; f_equal; f_equal; lia].
  rewrite (N (n + i + 2) (i + 2)), (N (n + i + 3) (i + 3)) by lia.
  destruct (nth_error post (i + 2)) as [mask|]; [|reflexivity].
  destruct (nth_error post (i + 3)) as [fo|]; [|reflexivity].
  cbv zeta. rewrite (K (n + i + 4) (i + 4)) by lia.
  set (existing := span_not ");" (skipn (i + 4) post)).
  rewrite (N (n + i + 4 + List.length existing) (i + 4 + List.length existing)) by lia.
  destruct (nth_error post (i + 4 + List.length existing)) as [close|]; [|reflexivity].
  rewrite (K (n + i + 4 + List.length existing + 1)
             (i + 4 + List.length existing + 1)) by lia.
  set (rest := span_not "};" (skipn (i + 4 + List.length existing + 1) post)).
  rewrite (N (n + i + 4 + List.length existing + 1 + List.length rest)
             (i + 4 + List.length existing + 1 + List.length rest)) by lia.
  destruct (nth_error post _) as [brace|]; [|reflexivity].
  cbn [app]. f_equal. f_equal. lia.
Qed.

Lemma mf_loop_shift (e : entries) (pre post : list string) (fuel : nat) :
  forall i out,
    loop (pre ++ post) e fuel (List.length pre + i) out
    = match loop post e fuel i [] with
      | Some (Some o) => Some (Some (out ++ o))
      | Some None => Some None
      | None => None
      end.
Proof.
  assert (stop : forall i, Nat.leb (List.length (pre ++ post)) (List.length pre + i)
                           = Nat.leb (List.length post) i).
  { intros i. rewrite length_app.
    destruct (Nat.leb_spec (List.length post) i), (Nat.leb_spec (List.length pre + List.length post) (List.length pre + i)); try reflexivity; lia. }
  assert (out_of : forall f i out,
            loop post e f i out
            = match loop post e f i [] with
              | Some (Some o) => Some (Some (out ++ o))
              | Some None => Some None
              | None => None
              end).
  { induction f as [|f IH]; intros i out; cbn [loop].
    - destruct (Nat.leb (List.length post) i); [now rewrite app_nil_r | reflexivity].
    - destruct (Nat.leb (List.length post) i); [now rewrite app_nil_r|].
      pose proof (mf_step_shift e [] post i out) as S1.
      cbn [app List.length Nat.add] in S1. rewrite S1.
      destruct (step post e i []) as [[i' o]|]; [|reflexivity].
      cbn [app]. rewrite (IH i' (out ++ o)), (IH i' o).
      destruct (loop post e f i' []) as [[r|]|]; try reflexivity.
      now rewrite app_assoc. }
  induction fuel as [|f IH]; intros i out; cbn [loop]; rewrite stop.
  - destruct (Nat.leb (List.length post) i); [now rewrite app_nil_r | reflexivity].
  - destruct (Nat.leb (List.length post) i); [now rewrite app_nil_r|].
    rewrite mf_step_shift.
    destruct (step post e i []) as [[i' o]|]; [|reflexivity].
    rewrite IH, (out_of f i' o).
    destruct (loop post e f i' []) as [[r|]|]; try reflexivity.
    now rewrite app_assoc.
Qed.

(** More fuel than needed changes nothing. *)
Lemma mf_loop_any_fuel (lines : list string) (e : entries) (f1 : nat) :
  forall f2 i out,
    List.length lines - i <= f1 -> List.length lines - i <= f2 ->
    loop lines e f1 i out = loop lines e f2 i out.
Proof.
  induction f1 as [|f1 IH]; intros f2 i out B1 B2.
  - destruct f2; cbn [loop];
      destruct (Nat.leb_spec (List.length lines) i); try reflexivity; lia.
  - destruct f2 as [|f2]; cbn [loop];
      destruct (Nat.leb_spec (List.length lines) i); try reflexivity; try lia.
    destruct (step lines e i out) as [[i' out']|] eqn:S1; [|reflexivity].
    apply mf_step_advances in S1. apply IH; lia.
Qed.

Lemma span_not_stop (pat : string) (a r : list string) (c : string) :
  Forall (fun x => contains pat x = false) a -> contains pat c = true ->
  span_not pat (a ++ c :: r) = a.
Proof.
  induction 1 as [|x a Hx _ IH]; intros C; cbn [app span_not].
  - now rewrite C.
  - rewrite Hx. f_equal. now apply IH.
Qed.

(** X9. On a manifest without the header of the Sources phase the rewrite
    completes, and its output is the input with the build files before
    every line that contains the end of the build-file section and the
    file references before every other line that contains the end of the
    file-reference section. *)
Theorem mf_rewrite_without_phase_header (lines : list string) (e : entries) :
  Forall (fun l => contains SOURCES_HDR l = false) lines ->
  rewrite lines e = Some (plain_pass e lines).
Proof.
  intros H. unfold rewrite.
  pose proof (mf_loop_plain e lines [] H [] [] 0) as L.
  cbn [app List.length Nat.add] in L. rewrite app_nil_r, Nat.add_0_r in L.
  rewrite L. cbn [loop]. now rewrite Nat.leb_refl.
Qed.

Lemma mf_rewrite_without_phase_header_witness :
  rewrite [END_BUILDFILE; "x"; END_BUILDFILE] (gen_entries 60000 ["A.swift"])
  = Some (plain_pass (gen_entries 60000 ["A.swift"]) [END_BUILDFILE; "x"; END_BUILDFILE]).
Proof.
  apply (mf_rewrite_without_phase_header [END_BUILDFILE; "x"; END_BUILDFILE]).
  repeat constructor.
Defined.

(** X10. Line 77 reads [lines[i+1]] unguarded: when the last line of the
    manifest is the first one that contains the header of the Sources
    phase, the script stops on an [IndexError] after it has written the
    backup, and the manifest is left as it was.  The backup holds the
    text read: the manifest with every CR LF and CR turned into LF. *)
Theorem mf_header_on_last_line_crashes (files : list string) (d : fs)
  (text : string) (pre : list string) (last : string) :
  d Manifest = Some text ->
  splitlines text = pre ++ [last] ->
  Forall (fun l => contains SOURCES_HDR l = false) pre ->
  contains SOURCES_HDR last = true ->
  contains END_BUILDFILE last = false ->
  contains END_FILEREF last = false ->
  said (main_with files d) = Crashed
  /\ wrote_manifest (main_with files d) = []
  /\ disk (main_with files d) Manifest = Some text
  /\ disk (main_with files d) ManualBackup = Some (universal_newlines text).
Proof.
  intros M Sp P H B F. unfold main_with, read_text. rewrite M. cbn [option_map].
  rewrite splitlines_universal_newlines, Sp.
  assert (R : rewrite (pre ++ [last]) (gen_entries 60000 files) = None).
  { unfold rewrite. rewrite length_app. cbn [List.length].
    pose proof (mf_loop_plain (gen_entries 60000 files) pre [last] P [] [] 1) as L.
    cbn [app List.length Nat.add] in L. rewrite L. cbn [loop].
    destruct (Nat.leb_spec (List.length (pre ++ [last])) (List.length pre)) as [Q|Q].
    { rewrite length_app in Q. simpl in Q. lia. }
    unfold step. rewrite nth_error_app2, Nat.sub_diag by lia. cbn [nth_error].
    rewrite B, F, H.
    replace (nth_error (pre ++ [last]) (List.length pre + 1)) with (@None string).
    - reflexivity.
    - symmetry. apply nth_error_None. rewrite length_app. simpl. lia. }
  rewrite R. cbn. repeat split; try reflexivity. exact M.
Qed.

Lemma mf_header_on_last_line_crashes_witness :
  said (main ["A.swift"]
          (Sample.only_manifest
             ("x" ++ String "013" (String "010"
                       (t2 "A10000042 /* Sources */ = {")))%string))
  = Crashed
  /\ disk (main ["A.swift"]
             (Sample.only_manifest
                ("x" ++ String "013" (String "010"
                          (t2 "A10000042 /* Sources */ = {")))%string))
       ManualBackup
     = Some ("x" ++ String "010" (t2 "A10000042 /* Sources */ = {"))%string.
Proof.
  assert (H := mf_header_on_last_line_crashes (new_files ["A.swift"])
           (Sample.only_manifest
              ("x" ++ String "013" (String "010"
                        (t2 "A10000042 /* Sources */ = {")))%string)
           ("x" ++ String "013" (String "010"
                     (t2 "A10000042 /* Sources */ = {")))%string
           ["x"] (t2 "A10000042 /* Sources */ = {")
           eq_refl eq_refl
           ltac:(constructor; [reflexivity | constructor])
           eq_refl eq_refl eq_refl).
  split; [exact (proj1 H) | exact (proj2 (proj2 (proj2 H)))].
Defined.

(** X11. The phase entries are appended to the list of the Sources phase: when
    the first header of the phase is followed by a line with
    [isa = PBXSourcesBuildPhase], two more lines, the entries the list
    has, its closing line and the rest of the record, the output is the
    treated lines before the header, the record with the new entries
    after all the entries it had, and the rewrite of what follows. *)
Theorem mf_phase_entries_follow_the_existing_ones (e : entries)
  (pre existing rest post : list string) (hdr isa mask opening close brace : string) :
  Forall (fun l => contains SOURCES_HDR l = false) pre ->
  contains SOURCES_HDR hdr = true ->
  contains END_BUILDFILE hdr = false -> contains END_FILEREF hdr = false ->
  contains ISA_SOURCES isa = true ->
  Forall (fun l => contains ");" l = false) existing ->
  contains ");" close = true ->
  Forall (fun l => contains "};" l = false) rest ->
  contains "};" brace = true ->
  rewrite (pre ++ [hdr; isa; mask; opening] ++ existing ++ [close] ++ rest
               ++ [brace] ++ post) e
  = match rewrite post e with
    | Some tail =>
        Some (plain_pass e pre ++ [hdr; isa; mask; opening] ++ existing
                ++ sources e ++ [close] ++ rest ++ [brace] ++ tail)
    | None => None
    end.
Proof.
  intros P H B F I E C R Br.
  set (block := [hdr; isa; mask; opening] ++ existing ++ [close] ++ rest ++ [brace]).
  set (lines := pre ++ [hdr; isa; mask; opening] ++ existing ++ [close] ++ rest
                    ++ [brace] ++ post).
  assert (EL : lines = pre ++ block ++ post).
  { unfold lines, block. cbn [app]. do 5 f_equal.
    rewrite <- !app_assoc. cbn [app]. f_equal. f_equal. now rewrite <- app_assoc. }
  assert (LB : List.length block = 4 + List.length existing + 1 + List.length rest + 1).
  { unfold block. cbn [app List.length]. rewrite !length_app. cbn [List.length].
    rewrite !length_app. cbn [List.length]. lia. }
  assert (S0 : step (block ++ post) e 0 []
               = Some (List.length block,
                       [hdr; isa; mask; opening] ++ existing ++ sources e
                       ++ [close] ++ rest ++ [brace])).
  { assert (BP : block ++ post
                 = hdr :: isa :: mask :: opening
                   :: existing ++ close :: rest ++ brace :: post).
    { unfold block. cbn [app]. do 4 f_equal. rewrite <- app_assoc. f_equal.
      cbn [app]. f_equal. now rewrite <- app_assoc. }
    rewrite BP. unfold step. cbn [nth_error Nat.add skipn].
    rewrite B, F, H, I.
    rewrite (span_not_stop ");" existing _ close E C).
    replace (nth_error (existing ++ close :: rest ++ brace :: post) (List.length existing))
      with (Some close)
      by (rewrite nth_error_app2, Nat.sub_diag by lia; reflexivity).
    cbn [nth_error].
    replace (skipn (List.length existing + 1) (existing ++ close :: rest ++ brace :: post))
      with (rest ++ brace :: post).
    2:{ rewrite skipn_app, skipn_all2 by lia. cbn [app].
        now replace (List.length existing + 1 - List.length existing) with 1 by lia. }
    rewrite (span_not_stop "};" rest _ brace R Br).
    replace (nth_error (existing ++ close :: rest ++ brace :: post)
               (List.length existing + 1 + List.length rest))
      with (Some brace).
    2:{ rewrite nth_error_app2 by lia.
        replace (List.length existing + 1 + List.length rest - List.length existing)
          with (S (List.length rest)) by lia.
        cbn [nth_error]. now rewrite nth_error_app2, Nat.sub_diag by lia. }
    rewrite LB. reflexivity. }
  unfold rewrite. fold lines. rewrite EL.
  replace (List.length (pre ++ block ++ post))
    with (List.length pre + (List.length block + List.length post))
    by (rewrite !length_app; lia).
  pose proof (mf_loop_plain e pre (block ++ post) P [] []
                (List.length block + List.length post)) as L1.
  cbn [app List.length Nat.add] in L1. rewrite L1. clear L1.
  assert (LBpos : List.length block = S (List.length block - 1)) by lia.
  rewrite LBpos at 1. cbn [Nat.add loop].
  destruct (Nat.leb_spec (List.length (pre ++ block ++ post)) (List.length pre)) as [Q|Q].
  { rewrite !length_app in Q. lia. }
  pose proof (mf_step_shift e pre (block ++ post) 0 (plain_pass e pre)) as S1.
  rewrite Nat.add_0_r, S0 in S1. rewrite S1. clear S1.
  replace (pre ++ block ++ post) with ((pre ++ block) ++ post) by now rewrite app_assoc.
  replace (List.length pre + List.length block)
    with (List.length (pre ++ block) + 0) by (rewrite length_app; lia).
  rewrite mf_loop_shift.
  rewrite (mf_loop_any_fuel post e _ (List.length post) 0 []) by lia.
  destruct (loop post e (List.length post) 0 []) as [[tail|]|] eqn:LP.
  - apply (f_equal Some). cbn [app]. repeat (rewrite <- app_assoc; cbn [app]).
    reflexivity.
  - reflexivity.
  - exfalso. revert LP. apply mf_loop_fuel. lia.
Qed.

Lemma mf_phase_entries_follow_the_existing_ones_witness :
  rewrite Sample.lines (gen_entries 60000 ["A.swift"])
  = Some (plain_pass (gen_entries 60000 ["A.swift"]) (firstn 7 Sample.lines)
          ++ firstn 4 (skipn 7 Sample.lines)
          ++ [t4 "A10000001 /* ZairyuMateApp.swift in Sources */,"]
          ++ sources (gen_entries 60000 ["A.swift"])
          ++ [t3 ");"] ++ [t3 "runOnlyForDeploymentPostprocessing = 0;"]
          ++ [t2 "};"] ++ ["/* End PBXSourcesBuildPhase section */"]).
Proof.
  apply (mf_phase_entries_follow_the_existing_ones
           (gen_entries 60000 ["A.swift"])
           (firstn 7 Sample.lines)
           [t4 "A10000001 /* ZairyuMateApp.swift in Sources */,"]
           [t3 "runOnlyForDeploymentPostprocessing = 0;"]
           ["/* End PBXSourcesBuildPhase section */"]
           (t2 "A10000042 /* Sources */ = {") (t3 "isa = PBXSourcesBuildPhase;")
           (t3 "buildActionMask = 2147483647;") (t3 "files = (")
           (t3 ");") (t2 "};")).
  - repeat constructor.
  - reflexivity.
  - reflexivity.
  - reflexivity.
  - reflexivity.
  - repeat constructor.
  - reflexivity.
  - repeat constructor.
  - reflexivity.
Defined.

End ManualFixBlocks.

(** ** ULTIMATE_FIX.py: the plan *)

Module UltimateFixPlan.
Import Py PyFacts Disk Render Frame FrameFacts DictMore UltimateFix UltimateFixFacts.

(** *** The table of files *)

Lemma find_last (A : Type) (p : A -> bool) (l : list A) (x : A) :
  find p (rev (x :: l)) = match find p (rev l) with
                          | Some y => Some y
                          | None => if p x then Some x else None
                          end.
Proof.
  cbn [rev]. generalize (rev l) as m. induction m as [|y m IH]; cbn [app find].
  - reflexivity.
  - destruct (p y); [reflexivity | exact IH].
Qed.

Lemma file_map_fold (name : string) (scan : list (string * string)) :
  forall m,
    Dict.get name
      (fold_left (fun m f => if mem (fst f) curr then m else Dict.set (fst f) (snd f) m)
                 scan m)
    = if mem name curr then Dict.get name m
      else match find (fun f => String.eqb name (fst f)) (rev scan) with
           | Some f => Some (snd f)
           | None => Dict.get name m
           end.
Proof.
  induction scan as [|[n p] r IH]; intros m.
  - cbn [fold_left rev find]. destruct (mem name curr); reflexivity.
  - cbn [fold_left]. rewrite IH, find_last. cbn [fst snd].
    destruct (mem name curr) eqn:C.
    + destruct (mem n curr) eqn:Cn; [reflexivity|]. rewrite DictFacts.get_set.
      destruct (String.eqb_spec name n) as [->|ne]; [congruence | reflexivity].
    + destruct (find _ (rev r)) as [f|]; [reflexivity|].
      destruct (mem n curr) eqn:Cn.
      * destruct (String.eqb_spec name n) as [->|ne]; [congruence | reflexivity].
      * rewrite DictFacts.get_set. now destruct (String.eqb name n).
Qed.

Lemma file_map_fold_keys (scan : list (string * string)) :
  forall m, NoDup (Dict.keys m) ->
    NoDup (Dict.keys
             (fold_left (fun m f => if mem (fst f) curr then m
                                    else Dict.set (fst f) (snd f) m) scan m)).
Proof.
  induction scan as [|[n p] r IH]; intros m N; [exact N|].
  cbn [fold_left fst snd]. apply IH.
  destruct (mem n curr); [exact N | now apply set_keys_NoDup].
Qed.

(** X12. [file_map] is a dictionary keyed by file name: a name that is found
    in several directories has one entry, with the directory of the last
    file found; names of [curr] have none; the data model is always at
    [Core/Storage]. *)
Theorem uf_file_map_keeps_the_last_directory (scan : list (string * string))
  (name : string) :
  NoDup (Dict.keys (file_map scan))
  /\ Dict.get DATA_MODEL (file_map scan) = Some "Core/Storage"
  /\ (name <> DATA_MODEL ->
      Dict.get name (file_map scan)
      = if mem name curr then None
        else option_map snd (find (fun f => String.eqb name (fst f)) (rev scan))).
Proof.
  unfold file_map. split; [|split].
  - apply set_keys_NoDup, file_map_fold_keys. constructor.
  - now rewrite DictFacts.get_set, String.eqb_refl.
  - intros ne. rewrite DictFacts.get_set.
    destruct (String.eqb_spec name DATA_MODEL) as [E|_]; [contradiction|].
    rewrite file_map_fold. destruct (mem name curr); [reflexivity|].
    now destruct (find _ (rev scan)).
Qed.

Lemma uf_file_map_keeps_the_last_directory_witness :
  Dict.get "A.swift" (file_map [("A.swift", "Core"); ("A.swift", "UI")])
  = option_map snd
      (find (fun f => String.eqb "A.swift" (fst f))
            (rev [("A.swift", "Core"); ("A.swift", "UI")])).
Proof.
  apply (proj2 (proj2 (uf_file_map_keeps_the_last_directory
                         [("A.swift", "Core"); ("A.swift", "UI")] "A.swift"))).
  discriminate.
Defined.

(** *** Name and parent of a new group *)

Lemma join_cons_ne (sep l : string) (r : list string) :
  r <> [] -> join sep (l :: r) = (l ++ sep ++ join sep r)%string.
Proof. destruct r; [contradiction | reflexivity]. Qed.

Lemma split_last_free (c : ascii) (s : string) :
  char_free c (last (split c s) "") = true.
Proof.
  induction s as [|a t IH]; [reflexivity|]. cbn [split].
  destruct (Ascii.eqb a c) eqn:E.
  - pose proof (split_nonempty c t) as N.
    destruct (split c t) as [|l r]; [contradiction | exact IH].
  - pose proof (split_nonempty c t) as N.
    destruct (split c t) as [|l r]; [contradiction|].
    destruct r as [|l' r].
    + cbn [last] in *. unfold char_free in *. cbn [all_chars]. now rewrite E, IH.
    + exact IH.
Qed.

Lemma split_free (c : ascii) (s : string) :
  char_free c s = true -> split c s = [s].
Proof.
  induction s as [|a t IH]; [reflexivity|].
  unfold char_free. cbn [all_chars]. intros H. apply andb_prop in H as [Ha Ht].
  cbn [split]. apply negb_true_iff in Ha. rewrite Ha.
  unfold char_free in IH. now rewrite (IH Ht).
Qed.

Lemma split_not_free (c : ascii) (s : string) :
  char_free c s = false -> removelast (split c s) <> [].
Proof.
  induction s as [|a t IH]; [discriminate|].
  unfold char_free. cbn [all_chars split]. intros H.
  pose proof (split_nonempty c t) as N.
  destruct (Ascii.eqb a c) eqn:E.
  - destruct (split c t); [contradiction | discriminate].
  - cbn [negb andb] in H. specialize (IH H).
    destruct (split c t) as [|l [|l' r]]; [contradiction | contradiction | discriminate].
Qed.

Lemma join_split (c : ascii) (s : string) : join (String c "") (split c s) = s.
Proof.
  induction s as [|a t IH]; [reflexivity|]. cbn [split].
  pose proof (split_nonempty c t) as N.
  destruct (Ascii.eqb a c) eqn:E.
  - apply Ascii.eqb_eq in E as ->. rewrite join_cons_ne by exact N.
    cbn [append]. now rewrite IH.
  - destruct (split c t) as [|l r]; [contradiction|].
    destruct r as [|l' r]; cbn [join append] in *; now rewrite IH.
Qed.

Lemma join_removelast (sep : string) (l : list string) :
  removelast l <> [] ->
  join sep l = (join sep (removelast l) ++ sep ++ last l "")%string.
Proof.
  induction l as [|x [|y r] IH]; intros N; try contradiction.
  destruct r as [|z r].
  - reflexivity.
  - rewrite join_cons_ne by discriminate.
    rewrite IH by discriminate.
    change (removelast (x :: y :: z :: r)) with (x :: removelast (y :: z :: r)).
    rewrite (join_cons_ne sep x) by (destruct r; discriminate).
    change (last (x :: y :: z :: r) "") with (last (y :: z :: r) "").
    now rewrite !app_assoc_s.
Qed.

(** X13. Lines 78-80: the name of a new group is the last segment of its path
    and holds no slash; for a path with a slash, parent, slash and name
    make up the path again; a path without a slash has the empty
    parent. *)
Theorem uf_new_group_name_and_parent (seed : N) (needed : list string)
  (g : string) (sg : subgroup) :
  Dict.get g (make_subgroups seed needed) = Some sg ->
  char_free "/" (sg_name sg) = true
  /\ (if char_free "/" g
      then sg_name sg = g /\ sg_parent sg = ""
      else (sg_parent sg ++ "/" ++ sg_name sg)%string = g).
Proof.
  intros H. apply GroupFacts.make_subgroups_get in H as (_ & Nm & _ & Pa).
  rewrite Nm, Pa. split; [apply split_last_free|].
  destruct (char_free "/" g) eqn:F.
  - now rewrite (split_free _ _ F).
  - rewrite <- join_removelast by now apply split_not_free.
    apply join_split.
Qed.

Lemma uf_new_group_name_and_parent_witness :
  exists sg,
    Dict.get "Features/Home/Views" (make_subgroups 80000 ["Features/Home/Views"])
    = Some sg
    /\ (sg_parent sg ++ "/" ++ sg_name sg)%string = "Features/Home/Views".
Proof.
  eexists. split; [reflexivity|].
  apply (proj2 (uf_new_group_name_and_parent 80000 ["Features/Home/Views"]
                  "Features/Home/Views" _ eq_refl)).
Defined.

(** *** Validation *)

(** X14. When the clean copy holds both validated sentinels and no group
    record of it is rewritten, the validation of ULTIMATE_FIX.py cannot
    fail. *)
Theorem uf_validation_cannot_fail_without_group_records (fm : Dict.t string)
  (d : fs) (text : string) :
  d ManualBackup = Some text ->
  contains END_BUILDFILE text = true -> contains END_GROUP text = true ->
  no_group_hit (make_plan BASE_GROUPS fm) (splitlines text) = true ->
  said (main_with fm d) <> ValidationFailed.
Proof.
  intros M B G N. unfold main_with, read_text. rewrite M. cbn [option_map].
  rewrite splitlines_universal_newlines.
  destruct (rewrite _ _) as [output|] eqn:R; [|discriminate].
  apply (uf_rewrite_framed _ _ _ N) in R.
  assert (K : forall n, boundary_free n = true -> n <> "" ->
                contains n text = true ->
                contains n (join_nl output ++ String "010" "") = true).
  { intros n F E C. destruct (contains_splitlines_inv n text F E C) as (l & I & H).
    apply (contains_result n l); [|exact H]. now apply (framed_In _ _ _ _ R). }
  unfold valid.
  rewrite (K END_BUILDFILE eq_refl ltac:(discriminate) B).
  rewrite (K END_GROUP eq_refl ltac:(discriminate) G).
  discriminate.
Qed.

Lemma uf_validation_cannot_fail_without_group_records_witness :
  said (main_with (file_map [("A.swift", "Core")])
          (Sample.with_clean_copy
             (join_nl [END_BUILDFILE; END_GROUP]) "")) <> ValidationFailed.
Proof.
  apply (uf_validation_cannot_fail_without_group_records
           (file_map [("A.swift", "Core")])
           (Sample.with_clean_copy (join_nl [END_BUILDFILE; END_GROUP]) "")
           (join_nl [END_BUILDFILE; END_GROUP])); reflexivity.
Defined.

(** *** The children of the groups the manifest has *)

Lemma values_inj (V : Type) (d : Dict.t V) (k k' : string) (v : V) :
  NoDup (Dict.values d) -> In (k, v) d -> In (k', v) d -> k = k'.
Proof.
  unfold Dict.values. induction d as [|[k0 v0] r IH]; intros N I I'; [contradiction|].
  cbn [map snd] in N. inversion N as [|? ? N0 N1]; subst.
  destruct I as [E|I], I' as [E'|I'].
  - congruence.
  - injection E as -> ->. exfalso. apply N0.
    change v with (snd (k', v)). now apply in_map.
  - injection E' as -> ->. exfalso. apply N0.
    change v with (snd (k, v)). now apply in_map.
  - now apply IH.
Qed.

Lemma base_ids_distinct : NoDup (Dict.values BASE_GROUPS).
Proof. apply IdFacts.nodupb_NoDup. reflexivity. Qed.

Lemma get_None_keys (V : Type) (k : string) (d : Dict.t V) :
  Dict.get k d = None <-> ~ In k (Dict.keys d).
Proof.
  unfold Dict.keys. induction d as [|[k0 v0] r IH]; cbn [Dict.get map fst].
  - split; [intros _ [] | reflexivity].
  - destruct (String.eqb_spec k k0) as [->|ne].
    + split; [discriminate | intros H; exfalso; apply H; now left].
    + rewrite IH. split; [intros H [E|I]; [now symmetry in E | contradiction] |
                          intros H I; apply H; now right].
Qed.

Lemma extend_base_get (sgs : Dict.t subgroup) :
  forall base k,
    ~ In k (Dict.keys sgs) ->
    Dict.get k (extend_base base sgs) = Dict.get k base.
Proof.
  unfold extend_base. induction sgs as [|[g sg] r IH]; intros base k N; [reflexivity|].
  cbn [fold_left fst snd]. rewrite IH by (intros I; apply N; now right).
  rewrite DictFacts.get_set. destruct (String.eqb_spec k g) as [->|ne]; [|reflexivity].
  exfalso. apply N. now left.
Qed.

Lemma gen_files_has (fm : Dict.t string) :
  forall st g, Dict.has g (subgroups (fold_left gen_file fm st)) = Dict.has g (subgroups st).
Proof.
  induction fm as [|item r IH]; intros st g; [reflexivity|].
  cbn [fold_left]. rewrite IH. unfold Dict.has. rewrite GroupFacts.gen_file_get.
  now destruct (Dict.get g (subgroups st)).
Qed.

Lemma gen_files_ids (fm : Dict.t string) :
  forall st n,
    In n (Dict.keys fm) \/ Dict.get n (file_ids st) <> None ->
    Dict.get n (file_ids (fold_left gen_file fm st)) <> None.
Proof.
  induction fm as [|[f g] r IH]; intros st n H.
  - destruct H as [[]|H]; exact H.
  - cbn [fold_left]. apply IH. cbn [Dict.keys map fst] in H.
    destruct H as [[<-|I]|H].
    + right. cbn [gen_file file_ids]. now rewrite DictFacts.get_set, String.eqb_refl.
    + now left.
    + right. cbn [gen_file file_ids]. rewrite DictFacts.get_set.
      now destruct (String.eqb n f).
Qed.

Section BaseChildren.
Variable fm : Dict.t string.
Variables gp gid : string.
Hypothesis in_base : Dict.get gp BASE_GROUPS = Some gid.

Let p : plan := make_plan BASE_GROUPS fm.
Let sgs : Dict.t subgroup := make_subgroups 80000 (new_groups_needed BASE_GROUPS fm).

Lemma new_group_iff (g : string) :
  Dict.has g (subgroups (p_gen p)) = true
  <-> In g (Dict.values fm) /\ ~ In g (Dict.keys BASE_GROUPS).
Proof.
  unfold p, make_plan. cbn [p_gen]. unfold gen_files. rewrite gen_files_has.
  cbn [subgroups]. rewrite <- GroupFacts.new_groups_needed_In.
  fold sgs. unfold Dict.has.
  assert (K : Dict.keys sgs = new_groups_needed BASE_GROUPS fm)
    by apply GroupFacts.make_subgroups_keys.
  rewrite <- K. destruct (Dict.get g sgs) eqn:E.
  - split; [intros _|reflexivity].
    destruct (in_dec string_dec g (Dict.keys sgs)) as [I|I]; [exact I|].
    apply get_None_keys in I. congruence.
  - split; [discriminate|]. intros I. apply get_None_keys in E. contradiction.
Qed.

Lemma base_group_of (g g' : string) :
  Dict.get g (p_groups p) = Some g' ->
  Dict.has g (subgroups (p_gen p)) = false ->
  Dict.get g BASE_GROUPS = Some g'.
Proof.
  intros G H. unfold p, make_plan in G. cbn [p_groups] in G.
  rewrite extend_base_get in G; [exact G|].
  rewrite GroupFacts.make_subgroups_keys. intros I.
  apply GroupFacts.new_groups_needed_In in I.
  apply new_group_iff in I. congruence.
Qed.

Lemma base_group_kept :
  Dict.get gp (p_groups p) = Some gid
  /\ Dict.has gp (subgroups (p_gen p)) = false.
Proof.
  assert (K : In gp (Dict.keys BASE_GROUPS)).
  { apply get_In in in_base. unfold Dict.keys.
    change gp with (fst (gp, gid)). now apply in_map. }
  assert (H : Dict.has gp (subgroups (p_gen p)) = false).
  { destruct (Dict.has gp (subgroups (p_gen p))) eqn:E; [|reflexivity].
    apply new_group_iff in E as [_ E]. contradiction. }
  split; [|exact H].
  unfold p, make_plan. cbn [p_groups]. rewrite extend_base_get; [exact in_base|].
  rewrite GroupFacts.make_subgroups_keys. intros I.
  apply GroupFacts.new_groups_needed_In in I as [_ I]. contradiction.
Qed.

Let children (acc : Dict.t (list (string * string))) : list (string * string) :=
  match Dict.get gid acc with Some l => l | None => [] end.

Let body (acc : Dict.t (list (string * string))) (item : string * string) :=
  let '(fname, group_path) := item in
  match Dict.get group_path (p_groups p) with
  | Some g =>
      if Dict.has group_path (subgroups (p_gen p)) then acc
      else match Dict.get fname (file_ids (p_gen p)) with
           | Some fid => Dict.append g (fid, fname) acc
           | None => acc
           end
  | None => acc
  end.

Lemma base_children_fold (r : Dict.t string) :
  forall acc,
    children (fold_left body r acc)
    = children acc
      ++ flat_map
           (fun item =>
              if String.eqb gp (snd item)
              then match Dict.get (fst item) (file_ids (p_gen p)) with
                   | Some fid => [(fid, fst item)]
                   | None => []
                   end
              else [])
           r.
Proof.
  destruct base_group_kept as [G H].
  induction r as [|[fname g] r IH]; intros acc.
  - cbn. now rewrite app_nil_r.
  - cbn [fold_left flat_map fst snd]. rewrite IH, app_assoc. f_equal.
    unfold body. destruct (String.eqb_spec gp g) as [<-|ne].
    + rewrite G, H.
      destruct (Dict.get fname (file_ids (p_gen p))) as [fid|];
        [|now rewrite app_nil_r].
      unfold children. rewrite DictFacts.get_append, String.eqb_refl.
      now destruct (Dict.get gid acc).
    + rewrite app_nil_r.
      destruct (Dict.get g (p_groups p)) as [g'|] eqn:G'; [|reflexivity].
      destruct (Dict.has g (subgroups (p_gen p))) eqn:H'; [reflexivity|].
      destruct (Dict.get fname (file_ids (p_gen p))) as [fid|]; [|reflexivity].
      unfold children. rewrite DictFacts.get_append.
      destruct (String.eqb_spec gid g') as [<-|ne']; [|reflexivity].
      exfalso. apply ne. apply base_group_of in G'; [|exact H'].
      apply (values_inj _ BASE_GROUPS gp g gid base_ids_distinct);
        now apply get_In.
Qed.

End BaseChildren.

(** X15. Lines 114-118: the children added to a group of [BASE_GROUPS] are the
    files that [file_map] puts at the group's path, in the order of the
    table, each with the identifier of its file reference. *)
Theorem uf_base_group_gets_its_files (fm : Dict.t string) (gp gid : string) :
  Dict.get gp BASE_GROUPS = Some gid ->
  let p := make_plan BASE_GROUPS fm in
  let children := match Dict.get gid (p_base_files p) with
                  | Some l => l
                  | None => []
                  end in
  map snd children = files_at gp fm
  /\ Forall (fun c => Dict.get (snd c) (file_ids (p_gen p)) = Some (fst c)) children.
Proof.
  intros B p children.
  assert (E : children
              = flat_map
                  (fun item =>
                     if String.eqb gp (snd item)
                     then match Dict.get (fst item) (file_ids (p_gen p)) with
                          | Some fid => [(fid, fst item)]
                          | None => []
                          end
                     else [])
                  fm).
  { unfold children, p at 1, make_plan. cbn [p_base_files].
    unfold base_group_files.
    pose proof (base_children_fold fm gp gid B fm []) as F.
    cbn [Dict.get app] in F. exact F. }
  rewrite E. clear E children.
  assert (A : forall item, In item fm ->
                Dict.get (fst item) (file_ids (p_gen p)) <> None).
  { intros item I. unfold p, make_plan. cbn [p_gen]. unfold gen_files.
    apply gen_files_ids. left. unfold Dict.keys. now apply in_map. }
  unfold files_at. revert A. generalize (file_ids (p_gen p)) as ids. intros ids A.
  induction fm as [|[f g] r IH]; [now split|].
  cbn [flat_map filter fst snd]. destruct IH as [IH1 IH2].
  { intros item I. apply A. now right. }
  destruct (String.eqb gp g).
  - pose proof (A (f, g) (or_introl eq_refl)) as A0. cbn [fst] in A0.
    destruct (Dict.get f ids) as [fid|] eqn:Q; [|contradiction].
    cbn [app map snd]. split; [now f_equal|]. constructor; [exact Q | exact IH2].
  - now split.
Qed.

Lemma uf_base_group_gets_its_files_witness :
  map snd
    (match Dict.get "A10000024"
             (p_base_files
                (make_plan BASE_GROUPS
                   (file_map [("A.swift", "Core"); ("B.swift", "Core/Models")])))
     with Some l => l | None => [] end)
  = files_at "Core" (file_map [("A.swift", "Core"); ("B.swift", "Core/Models")]).
Proof.
  apply (uf_base_group_gets_its_files
           (file_map [("A.swift", "Core"); ("B.swift", "Core/Models")])
           "Core" "A10000024").
  reflexivity.
Defined.

End UltimateFixPlan.

(** ** Runs of fix_project.py *)

Module FixProjectRuns.
Import Py PyFacts Disk Render FixProject.

Lemma fp_enumerate_app (l1 l2 : list string) (k : nat) :
  combine (seq k (List.length (l1 ++ l2))) (l1 ++ l2)
  = combine (seq k (List.length l1)) l1
    ++ combine (seq (k + List.length l1) (List.length l2)) l2.
Proof.
  revert k. induction l1 as [|x r IH]; intros k.
  - cbn. now rewrite Nat.add_0_r.
  - cbn [List.length seq combine app]. rewrite IH.
    replace (S k + List.length r) with (k + S (List.length r)) by lia. reflexivity.
Qed.

(** A stretch of lines none of which has one of the three line numbers
    is copied. *)
Lemma assemble_stretch (e : entries) (l : list string) :
  forall k,
    (forall i, k <= i < k + List.length l -> i <> 16 /\ i <> 29 /\ i <> 293) ->
    flat_map (fun il => snd il :: after e (fst il))
             (combine (seq k (List.length l)) l) = l.
Proof.
  induction l as [|x r IH]; intros k H; [reflexivity|].
  cbn [List.length seq combine flat_map fst snd]. rewrite IH.
  - destruct (H k) as (A & B & C); [simpl; lia|]. unfold after.
    apply Nat.eqb_neq in A, B, C. now rewrite A, B, C.
  - intros i B. apply H. simpl. lia.
Qed.

Lemma assemble_long (e : entries) (A B C D : list string) (a b c : string) :
  List.length A = 16 -> List.length B = 12 -> List.length C = 263 ->
  assemble e (A ++ a :: B ++ b :: C ++ c :: D)
  = A ++ a :: builds e ++ B ++ b :: refs e ++ C ++ c :: sources e ++ D.
Proof.
  intros LA LB LC. unfold assemble.
  rewrite fp_enumerate_app. cbn [List.length seq combine].
  rewrite fp_enumerate_app. cbn [List.length seq combine].
  rewrite fp_enumerate_app. cbn [List.length seq combine].
  rewrite !flat_map_app. cbn [flat_map].
  rewrite !flat_map_app. cbn [flat_map].
  rewrite !flat_map_app. cbn [flat_map fst snd].
  rewrite !assemble_stretch by (intros i R; lia).
  rewrite LA, LB, LC. cbn [Nat.add after Nat.eqb app].
  rewrite !app_nil_r. repeat (rewrite <- app_assoc; cbn [app]). reflexivity.
Qed.

(** X16. The entries are placed by line number alone: on a manifest that
    reads as at least 294 lines the build files follow the 17th line, the
    file references the 30th and the phase entries the 294th, whatever
    these lines hold. *)
Theorem fp_entries_follow_fixed_lines (scan : list string) (d : fs)
  (original : string) (A B C D : list string) (a b c : string) :
  d Manifest = Some original ->
  split_nl (universal_newlines original) = A ++ a :: B ++ b :: C ++ c :: D ->
  List.length A = 16 -> List.length B = 12 -> List.length C = 263 ->
  let e := gen_entries 50000 (files scan) in
  disk (main scan d) Manifest
  = Some (join_nl (A ++ a :: builds e ++ B ++ b :: refs e ++ C ++ c
                     :: sources e ++ D)).
Proof.
  intros M Sp LA LB LC e. unfold main, read_text. rewrite M.
  cbn [option_map disk]. unfold write_text. cbn [path_eqb]. rewrite Sp.
  now rewrite assemble_long.
Qed.

Lemma fp_entries_follow_fixed_lines_witness :
  disk (main ["A.swift"]
          (Sample.only_manifest
             (join_nl (repeat "a" 16 ++ "x" :: repeat "b" 12 ++ "y"
                         :: repeat "c" 263 ++ ["z"])))) Manifest
  = Some (join_nl (repeat "a" 16 ++ "x"
                     :: builds (gen_entries 50000 (files ["A.swift"]))
                     ++ repeat "b" 12 ++ "y"
                     :: refs (gen_entries 50000 (files ["A.swift"]))
                     ++ repeat "c" 263 ++ "z"
                     :: sources (gen_entries 50000 (files ["A.swift"])) ++ [])).
Proof.
  apply (fp_entries_follow_fixed_lines ["A.swift"] _
           (join_nl (repeat "a" 16 ++ "x" :: repeat "b" 12 ++ "y"
                       :: repeat "c" 263 ++ ["z"]))
           (repeat "a" 16) (repeat "b" 12) (repeat "c" 263) [] "x" "y" "z").
  - reflexivity.
  - vm_compute. reflexivity.
  - reflexivity.
  - reflexivity.
  - reflexivity.
Defined.

(** X17. A manifest that reads as at most 16 lines gets no entry: the one
    text written to it is the text read, that is the manifest with every
    CR LF and CR turned into LF.  The manifest is byte for byte what it
    was exactly when it held no CR. *)
Theorem fp_short_manifest_registers_nothing (scan : list string) (d : fs)
  (original : string) :
  d Manifest = Some original ->
  List.length (split_nl (universal_newlines original)) <= 16 ->
  wrote_manifest (main scan d) = [universal_newlines original]
  /\ disk (main scan d) Manifest = Some (universal_newlines original)
  /\ (disk (main scan d) Manifest = d Manifest
      <-> char_free "013" original = true).
Proof.
  intros M L.
  assert (W : wrote_manifest (main scan d) = [universal_newlines original]
              /\ disk (main scan d) Manifest = Some (universal_newlines original)).
  { unfold main, read_text. rewrite M. cbn [option_map disk wrote_manifest writes].
    unfold write_text. cbn [path_eqb filter fst snd map].
    unfold assemble. rewrite assemble_stretch by (intros i R; lia).
    now rewrite join_split_nl. }
  destruct W as [W D]. split; [exact W|]. split; [exact D|].
  rewrite D, M, <- universal_newlines_fixed. split; [|congruence].
  intros E. now injection E.
Qed.

Lemma fp_short_manifest_registers_nothing_witness :
  wrote_manifest (main ["A.swift"] (Sample.only_manifest Sample.crlf))
  = [Sample.crlf_read]
  /\ disk (main ["A.swift"] (Sample.only_manifest Sample.foo_text)) Manifest
     = Some Sample.foo_text.
Proof.
  split.
  - apply (fp_short_manifest_registers_nothing ["A.swift"]
             (Sample.only_manifest Sample.crlf) Sample.crlf).
    + reflexivity.
    + vm_compute. lia.
  - apply (proj1 (proj2 (fp_short_manifest_registers_nothing ["A.swift"]
                           (Sample.only_manifest Sample.foo_text) Sample.foo_text
                           eq_refl ltac:(vm_compute; lia)))).
Defined.

End FixProjectRuns.

(** ** add-files-to-xcode.py: the rebuilt manifest *)

Module AddFilesRuns.
Import Py PyFacts Disk Render Frame FrameFacts AddFiles AddFilesAux.

Section Rebuild.
Variable lines : list string.
Variable st : gen_state.

Lemma group_chain_miss (gs : list (string * string)) (i : nat) (line : string)
  (new_lines : list string) :
  (existsb (fun g => contains (fst g) line) gs && contains "isa = PBXGroup" line)
  = false ->
  group_chain lines st gs i line new_lines = new_lines ++ [line].
Proof.
  induction gs as [|[marker key] r IH]; intros H; [reflexivity|].
  cbn [group_chain]. cbn [existsb fst] in H.
  destruct (contains marker line) eqn:M.
  - cbn [orb andb] in H. rewrite H. cbn [andb]. apply IH.
    now rewrite H, andb_false_r.
  - cbn [andb]. apply IH. exact H.
Qed.

Lemma af_step_frame (s : bool * list string) (i : nat) (line : string) :
  group_hit line = false ->
  exists added,
    snd (step lines st s (i, line)) = snd s ++ added
    /\ framed (inserted st) [line] added.
Proof.
  intros H. destruct s as [b out]. unfold step.
  assert (ins : forall X, (forall x, In x X -> inserted st x) ->
            framed (inserted st) [line] ([line] ++ X)).
  { intros X I. apply (framed_app _ [line] [line] [] X); [apply framed_refl|].
    apply framed_inserted, Forall_forall, I. }
  destruct (contains "/* Begin PBXBuildFile section */" line).
  { exists ([line] ++ build_files st). split; [reflexivity|]. apply ins.
    intros x I. unfold inserted. rewrite !in_app_iff. tauto. }
  destruct (contains "/* Begin PBXFileReference section */" line).
  { exists ([line] ++ file_refs st). split; [reflexivity|]. apply ins.
    intros x I. unfold inserted. rewrite !in_app_iff. tauto. }
  cbv zeta.
  destruct ((if contains "/* End PBXSourcesBuildPhase section */" line then false
             else if contains "/* Begin PBXSourcesBuildPhase section */" line
                  then true else b) && contains "files = (" line).
  { eexists. split; [reflexivity|]. apply ins.
    intros x I. unfold inserted. rewrite !in_app_iff. tauto. }
  exists [line]. cbn [snd]. split; [|apply framed_refl].
  now apply group_chain_miss.
Qed.

Lemma af_fold_frame (ls : list string) :
  Forall (fun l => group_hit l = false) ls ->
  forall k s,
    exists added,
      snd (fold_left (step lines st) (combine (seq k (List.length ls)) ls) s)
      = snd s ++ added
      /\ framed (inserted st) ls added.
Proof.
  induction 1 as [|x r Hx _ IH]; intros k s.
  - exists []. cbn. rewrite app_nil_r. split; [reflexivity | constructor].
  - cbn [List.length seq combine fold_left].
    destruct (af_step_frame s k x Hx) as (a1 & E1 & F1).
    destruct (IH (S k) (step lines st s (k, x))) as (a2 & E2 & F2).
    exists (a1 ++ a2). rewrite E2, E1, app_assoc. split; [reflexivity|].
    apply (framed_app _ [x] a1 r a2 F1 F2).
Qed.

End Rebuild.

(** X18. On a manifest none of whose lines passes a group test (a group
    marker and [isa = PBXGroup] on one line), the loop keeps every line,
    in order, and adds rendered build files, file references and phase
    lines only. *)
Theorem af_keeps_every_line (lines : list string) (st : gen_state) :
  Forall (fun l => group_hit l = false) lines ->
  framed (inserted st) lines (rebuild lines st).
Proof.
  intros H. unfold rebuild.
  destruct (af_fold_frame lines st lines H 0 (false, [])) as (a & E & F).
  rewrite E. exact F.
Qed.

Lemma af_keeps_every_line_witness :
  framed (inserted (gen (fun n => n) (files_to_add [("A.swift", "Core")] true)))
         Sample.lines
         (rebuild Sample.lines (gen (fun n => n) (files_to_add [("A.swift", "Core")] true))).
Proof.
  apply af_keeps_every_line. repeat constructor.
Defined.

End AddFilesRuns.

(** ** Zero-padded numbers *)

Module FmtFacts.
Import Py PyFacts Fmt.

Lemma to_uint_nonnil (n : N) : N.to_uint n <> Decimal.Nil.
Proof.
  destruct n as [|p]; [discriminate|]. apply DecimalPos.Unsigned.to_uint_nonnil.
Qed.

Lemma str_of_N_digits (n : N) :
  str_of_N n = NilEmpty.string_of_uint (N.to_uint n).
Proof.
  unfold str_of_N, NilZero.string_of_uint.
  pose proof (to_uint_nonnil n) as H. now destruct (N.to_uint n).
Qed.

Lemma zeros_S (k : nat) : zeros (S k) = String "0" (zeros k).
Proof. reflexivity. Qed.

Lemma of_uint_zeros (k : nat) (d : Decimal.uint) :
  N.of_uint (Nat.iter k Decimal.D0 d) = N.of_uint d.
Proof.
  rewrite <- DecimalN.Unsigned.of_uint_norm, DecimalFacts.unorm_iter_D0.
  apply DecimalN.Unsigned.of_uint_norm.
Qed.

Lemma uint_of_zeros (k : nat) (s : string) :
  NilEmpty.uint_of_string (zeros k ++ s)
  = option_map (Nat.iter k Decimal.D0) (NilEmpty.uint_of_string s).
Proof.
  induction k as [|k IH].
  - cbn. now destruct (NilEmpty.uint_of_string s).
  - rewrite zeros_S. cbn [append NilEmpty.uint_of_string]. rewrite IH.
    destruct (NilEmpty.uint_of_string s); reflexivity.
Qed.

(** Reading a zero-padded number gives the number back. *)
Lemma decode_zfill (w : nat) (n : N) : decode (zfill w (str_of_N n)) = Some n.
Proof.
  unfold decode, zfill. rewrite uint_of_zeros, str_of_N_digits, NilEmpty.usu.
  cbn [option_map]. now rewrite of_uint_zeros, DecimalN.Unsigned.of_to.
Qed.

Lemma zfill_inj (w : nat) (n m : N) :
  zfill w (str_of_N n) = zfill w (str_of_N m) -> n = m.
Proof.
  intros H. apply (f_equal decode) in H. rewrite !decode_zfill in H. congruence.
Qed.

Lemma length_app_str (a b : string) :
  String.length (a ++ b) = String.length a + String.length b.
Proof. induction a as [|c a IH]; [reflexivity|]. simpl. now rewrite IH. Qed.

Lemma zeros_length (k : nat) : String.length (zeros k) = k.
Proof. induction k as [|k IH]; [reflexivity|]. rewrite zeros_S. simpl. now rewrite IH. Qed.

(** *** The number of digits *)

Lemma digits_length (d : Decimal.uint) :
  String.length (NilEmpty.string_of_uint d) = Decimal.nb_digits d.
Proof. induction d; simpl; congruence. Qed.

Lemma usize_digits (d : Decimal.uint) :
  DecimalPos.Unsigned.usize d = N.of_nat (Decimal.nb_digits d).
Proof.
  induction d; cbn [DecimalPos.Unsigned.usize Decimal.nb_digits];
    [reflexivity | rewrite IHd; lia ..].
Qed.

Lemma acc_lower (d : Decimal.uint) (acc : positive) :
  (10 ^ DecimalPos.Unsigned.usize d <= Npos (Pos.of_uint_acc d acc))%N.
Proof.
  rewrite DecimalPos.Unsigned.of_uint_acc_rev.
  assert (10 ^ DecimalPos.Unsigned.usize d <> 0)%N by (apply N.pow_nonzero; lia).
  nia.
Qed.

Lemma normal_shape (n : N) (d : Decimal.uint) :
  N.to_uint n = Decimal.D0 d -> d = Decimal.Nil.
Proof.
  intros H. pose proof (DecimalN.Unsigned.to_of (N.to_uint n)) as T.
  rewrite DecimalN.Unsigned.of_to, H in T. unfold Decimal.unorm in T.
  destruct (Decimal.nzhead (Decimal.D0 d)) eqn:Z; try discriminate.
  - now injection T as <-.
  - exfalso. revert Z. apply DecimalFacts.nzhead_nonzero.
Qed.

Lemma str_of_N_length (n : N) (k : nat) :
  (n < 10 ^ N.of_nat k)%N -> 1 <= k -> String.length (str_of_N n) <= k.
Proof.
  intros B K. rewrite str_of_N_digits, digits_length.
  pose proof (DecimalN.Unsigned.of_to n) as O.
  assert (low : forall d acc, N.to_uint n = d -> N.of_uint d = Npos (Pos.of_uint_acc (DecimalPos.Unsigned.tl d) acc) ->
            Decimal.nb_digits d <= k).
  { intros d acc E V. rewrite E, V in O.
    pose proof (acc_lower (DecimalPos.Unsigned.tl d) acc) as L. rewrite O in L.
    assert (Q : (10 ^ DecimalPos.Unsigned.usize (DecimalPos.Unsigned.tl d)
                 < 10 ^ N.of_nat k)%N) by lia.
    apply N.pow_lt_mono_r_iff in Q; [|lia]. rewrite usize_digits in Q.
    destruct d; cbn [DecimalPos.Unsigned.tl Decimal.nb_digits] in *; lia. }
  destruct (N.to_uint n) as [|d|d|d|d|d|d|d|d|d|d] eqn:E.
  - simpl. lia.
  - apply normal_shape in E as ->. simpl. lia.
  - now apply (low _ 1%positive).
  - now apply (low _ 2%positive).
  - now apply (low _ 3%positive).
  - now apply (low _ 4%positive).
  - now apply (low _ 5%positive).
  - now apply (low _ 6%positive).
  - now apply (low _ 7%positive).
  - now apply (low _ 8%positive).
  - now apply (low _ 9%positive).
Qed.

(** *** Upper case leaves digits alone *)

Lemma digits_are_digits (d : Decimal.uint) :
  all_chars is_digit (NilEmpty.string_of_uint d) = true.
Proof. induction d; simpl; [reflexivity | exact IHd ..]. Qed.

Lemma upper_digits (s : string) : all_chars is_digit s = true -> upper s = s.
Proof.
  induction s as [|a t IH]; [reflexivity|]. cbn [all_chars upper]. intros H.
  apply andb_prop in H as [Ha Ht]. rewrite (IH Ht). f_equal.
  unfold is_digit in Ha. cbn [existsb list_ascii_of_string] in Ha.
  repeat (apply orb_prop in Ha as [Ha|Ha];
          [apply Ascii.eqb_eq in Ha as ->; reflexivity|]).
  discriminate.
Qed.

Lemma all_chars_app (p : ascii -> bool) (a b : string) :
  all_chars p (a ++ b) = all_chars p a && all_chars p b.
Proof. induction a as [|c a IH]; [reflexivity|]. simpl. now rewrite IH, andb_assoc. Qed.

Lemma zeros_digits (k : nat) : all_chars is_digit (zeros k) = true.
Proof. induction k as [|k IH]; [reflexivity|]. rewrite zeros_S. simpl. exact IH. Qed.

Lemma zfill_digits (w : nat) (n : N) : all_chars is_digit (zfill w (str_of_N n)) = true.
Proof.
  unfold zfill. now rewrite all_chars_app, zeros_digits, str_of_N_digits, digits_are_digits.
Qed.

Lemma take_app_exact (a b : string) (k : nat) :
  take (String.length a + k) (a ++ b) = (a ++ take k b)%string.
Proof. induction a as [|c a IH]; [reflexivity|]. simpl. now rewrite IH. Qed.

Lemma upper_app (a b : string) : upper (a ++ b) = (upper a ++ upper b)%string.
Proof. induction a as [|c a IH]; [reflexivity|]. simpl. now rewrite IH. Qed.

Lemma app_inv_length (a b c d : string) :
  String.length a = String.length c -> (a ++ b = c ++ d)%string -> a = c.
Proof.
  revert c. induction a as [|x a IH]; intros [|y c] L H; try discriminate.
  - reflexivity.
  - simpl in L, H. injection H as -> H. f_equal. apply IH; [lia | exact H].
Qed.

End FmtFacts.

(** ** fix_xcode_project.py: the identifiers *)

Module XcodeIdFacts.
Import Py PyFacts Fmt FmtFacts FixXcodeProjectRun.

Lemma zfill_length_exact (w : nat) (n : N) :
  (n < 10 ^ N.of_nat w)%N -> 1 <= w -> String.length (zfill w (str_of_N n)) = w.
Proof.
  intros B W. unfold zfill. rewrite length_app_str, zeros_length.
  pose proof (str_of_N_length n w B W). lia.
Qed.

Lemma generate_xcode_id_small (c : N) :
  (c < 10 ^ 8)%N ->
  generate_xcode_id c = ("FILE" ++ zfill 8 (str_of_N c) ++ "000000000000")%string.
Proof.
  intros B. unfold generate_xcode_id.
  pose proof (zfill_length_exact 8 c B ltac:(lia)) as L.
  assert (E : take 24 (("FILE" ++ zfill 8 (str_of_N c)) ++ zeros 24)
              = (("FILE" ++ zfill 8 (str_of_N c)) ++ take 12 (zeros 24))%string).
  { rewrite <- take_app_exact. f_equal. rewrite length_app_str, L. reflexivity. }
  rewrite E, !upper_app, (upper_digits _ (zfill_digits 8 c)).
  rewrite app_assoc_s. reflexivity.
Qed.

(** X19. Lines 11-16.  The identifier has 24 characters and starts with
    [FILE], so it is never a hexadecimal string; for a counter below
    [10^8] it is [FILE], the counter in eight digits and twelve zeros,
    and two such counters get different identifiers.  The bound is sharp:
    the counters [10^8] and [10^9] get the same identifier. *)
Theorem fx_generate_xcode_id_shape :
  (forall c, String.length (generate_xcode_id c) = 24
             /\ all_chars is_upper_hex (generate_xcode_id c) = false)
  /\ (forall c, (c < 10 ^ 8)%N ->
        generate_xcode_id c
        = ("FILE" ++ zfill 8 (str_of_N c) ++ "000000000000")%string)
  /\ (forall c1 c2, (c1 < 10 ^ 8)%N -> (c2 < 10 ^ 8)%N ->
        generate_xcode_id c1 = generate_xcode_id c2 -> c1 = c2)
  /\ generate_xcode_id (10 ^ 8) = generate_xcode_id (10 ^ 9).
Proof.
  split; [|split; [exact generate_xcode_id_small | split]].
  - intros c. unfold generate_xcode_id. split.
    + rewrite IdFacts.upper_length. apply IdFacts.take_length.
      rewrite length_app_str, zeros_length. lia.
    + cbn [append take upper all_chars]. reflexivity.
  - intros c1 c2 B1 B2 H.
    rewrite (generate_xcode_id_small c1 B1), (generate_xcode_id_small c2 B2) in H.
    cbn [append] in H. injection H as H.
    apply app_inv_length in H.
    + now apply zfill_inj in H.
    + now rewrite !zfill_length_exact by (assumption || lia).
  - vm_compute. reflexivity.
Qed.

Lemma fx_generate_xcode_id_shape_witness :
  generate_xcode_id 1000 = ("FILE" ++ zfill 8 (str_of_N 1000) ++ "000000000000")%string.
Proof.
  apply (proj1 (proj2 fx_generate_xcode_id_shape) 1000%N). reflexivity.
Defined.

End XcodeIdFacts.

(** ** Runs of fix_xcode_project.py *)

Module FixXcodeProjectRunFacts.
Import Py PyFacts Disk Render Frame FrameFacts Fmt FixXcodeProject
       FixXcodeProjectRun FixXcodeProjectAux.

Lemma framed_trans (P : string -> Prop) (a b c : list string) :
  framed P a b -> framed P b c -> framed P a c.
Proof.
  intros H1 H2. revert a H1. induction H2 as [|x b c _ IH|x b c Px _ IH]; intros a H1.
  - exact H1.
  - inversion H1 as [|y o r F|y o r Py F]; subst.
    + constructor. now apply IH.
    + apply framed_ins; [exact Py | now apply IH].
  - apply framed_ins; [exact Px | now apply IH].
Qed.

Lemma fx_groups_miss (lines : list string) (st : gen_state) (line : string)
  (gs : Dict.t string) :
  (existsb (fun g => contains (snd g ++ " /* " ++ last_segment (fst g) ++ " */") line) gs
   && contains "isa = PBXGroup" line) = false ->
  forall s, fold_left (group_body lines st line) gs s = s.
Proof.
  induction gs as [|[gp gid] r IH]; intros H s; [reflexivity|].
  cbn [fold_left]. cbn [existsb fst snd] in H.
  assert (B : group_body lines st line s (gp, gid) = s).
  { unfold group_body. destruct s as [i out].
    destruct (contains (gid ++ " /* " ++ last_segment gp ++ " */") line);
      [|reflexivity].
    cbn [orb andb] in H. now rewrite H. }
  rewrite B. apply IH.
  destruct (contains (gid ++ " /* " ++ last_segment gp ++ " */") line);
    [cbn [orb andb] in H; now rewrite H, andb_false_r | exact H].
Qed.

Section Frame.
Variable lines : list string.
Variable st : gen_state.
Hypothesis quiet : Forall (fun l => group_hit l = false) lines.

Let P : string -> Prop := inserted st.

Lemma fx_ins_builds : Forall P (build_files_section st).
Proof. apply Forall_forall. intros x I. unfold P, inserted. rewrite !in_app_iff. tauto. Qed.
Lemma fx_ins_refs : Forall P (file_refs_section st).
Proof. apply Forall_forall. intros x I. unfold P, inserted. rewrite !in_app_iff. tauto. Qed.
Lemma fx_ins_sources : Forall P (sources_list st).
Proof. apply Forall_forall. intros x I. unfold P, inserted. rewrite !in_app_iff. tauto. Qed.
Lemma fx_ins_defs : Forall P (subgroup_definitions st).
Proof. apply Forall_forall. intros x I. unfold P, inserted. rewrite !in_app_iff. tauto. Qed.

Lemma fx_step_frame (i : nat) (out : list string) (i' : nat) (out' : list string) :
  step lines st i out = Some (i', out') ->
  exists consumed added,
    skipn i lines = consumed ++ skipn i' lines
    /\ i' = i + List.length consumed
    /\ consumed <> []
    /\ out' = out ++ added
    /\ framed P consumed added.
Proof.
  unfold step. destruct (nth_error lines i) as [line|] eqn:L; [|discriminate].
  pose proof (skipn_nth lines i (i + 1) line L ltac:(lia)) as S0.
  assert (sect : forall pat ins,
            Forall P ins ->
            let existing := span_not pat (skipn (i + 1) lines) in
            exists consumed added,
              skipn i lines = consumed ++ skipn (i + 1 + List.length existing) lines
              /\ i + 1 + List.length existing = i + List.length consumed
              /\ consumed <> []
              /\ out ++ [line] ++ existing ++ ins = out ++ added
              /\ framed P consumed added).
  { intros pat ins F existing.
    exists ([line] ++ existing), ([line] ++ existing ++ ins).
    split; [|split; [|split; [|split]]].
    - rewrite S0. rewrite (skipn_span pat lines (i + 1) (i + 1 + List.length existing))
        by reflexivity. reflexivity.
    - rewrite length_app. simpl. lia.
    - discriminate.
    - reflexivity.
    - apply (framed_app _ [line] [line] existing _ (framed_refl _ _)).
      rewrite <- (app_nil_r existing) at 1.
      apply (framed_app _ existing existing [] ins (framed_refl _ _)).
      now apply framed_inserted. }
  destruct (contains "/* Begin PBXBuildFile section */" line).
  { intros H. injection H as <- <-. apply sect, fx_ins_builds. }
  destruct (contains "/* Begin PBXFileReference section */" line).
  { intros H. injection H as <- <-. apply sect, fx_ins_refs. }
  destruct (contains SOURCES_OPEN line).
  { cbv zeta. set (before := span_not "files = (" (skipn (i + 1) lines)).
    set (j := i + 1 + List.length before).
    destruct (nth_error lines j) as [fo|] eqn:Lj.
    - set (existing := span_not ");" (skipn (j + 1) lines)).
      intros H. injection H as <- <-.
      exists ([line] ++ before ++ [fo] ++ existing),
             ([line] ++ before ++ [fo] ++ existing ++ sources_list st).
      split; [|split; [|split; [|split]]].
      + rewrite S0. rewrite (skipn_span "files = (" lines (i + 1) j) by reflexivity.
        fold before. rewrite (skipn_nth lines j (j + 1) fo Lj) by lia.
        rewrite (skipn_span ");" lines (j + 1) (j + 1 + List.length existing))
          by reflexivity.
        fold existing. cbn [app]. rewrite <- !app_assoc. reflexivity.
      + cbn [app List.length]. repeat (rewrite length_app; cbn [List.length]).
        unfold j. lia.
      + discriminate.
      + reflexivity.
      + apply (framed_app _ [line] [line] _ _ (framed_refl _ _)).
        apply (framed_app _ before before _ _ (framed_refl _ _)).
        apply (framed_app _ [fo] [fo] _ _ (framed_refl _ _)).
        rewrite <- (app_nil_r existing) at 1.
        apply (framed_app _ existing existing [] _ (framed_refl _ _)).
        apply framed_inserted, fx_ins_sources.
    - intros H. injection H as <- <-.
      exists ([line] ++ before), ([line] ++ before).
      split; [|split; [|split; [|split]]].
      + rewrite S0. rewrite (skipn_span "files = (" lines (i + 1) j) by reflexivity.
        reflexivity.
      + rewrite length_app. simpl. unfold j. lia.
      + discriminate.
      + reflexivity.
      + apply framed_refl. }
  rewrite fx_groups_miss.
  - intros H. injection H as <- <-. exists [line], [line].
    split; [|split; [|split; [|split]]]; try easy. apply framed_refl.
  - apply (proj1 (Forall_forall _ _) quiet). now apply nth_error_In in L.
Qed.

Lemma fx_loop_frame (fuel : nat) :
  forall i out,
    List.length lines - i <= fuel ->
    exists added, loop lines st fuel i out = Some (out ++ added)
                  /\ framed P (skipn i lines) added.
Proof.
  induction fuel as [|f IH]; intros i out B; cbn [loop].
  - destruct (Nat.leb_spec (List.length lines) i) as [Q|Q]; [|lia].
    exists []. rewrite app_nil_r, skipn_all2 by exact Q. split; [reflexivity | constructor].
  - destruct (Nat.leb_spec (List.length lines) i) as [Q|Q].
    { exists []. rewrite app_nil_r, skipn_all2 by exact Q. split; [reflexivity | constructor]. }
    destruct (step lines st i out) as [[i' out']|] eqn:S1.
    + destruct (fx_step_frame _ _ _ _ S1) as (c & a1 & E & -> & N & -> & F1).
      destruct (IH (i + List.length c) (out ++ a1)) as (a2 & L2 & F2).
      { destruct c; [contradiction | simpl; lia]. }
      exists (a1 ++ a2). rewrite L2, app_assoc. split; [reflexivity|].
      rewrite E. now apply framed_app.
    + exfalso. unfold step in S1.
      destruct (nth_error lines i) as [line|] eqn:L.
      * cbv zeta in S1.
        repeat match type of S1 with
               | context [if ?c then _ else _] => destruct c
               | context [match nth_error ?l ?k with _ => _ end] =>
                   destruct (nth_error l k)
               | context [fold_left ?f ?l ?a] => destruct (fold_left f l a)
               end; discriminate.
      * apply nth_error_None in L. lia.
Qed.

Lemma fx_final_frame (ls : list string) : framed P ls (final_lines st ls).
Proof.
  unfold final_lines. induction ls as [|x r IH]; cbn [flat_map]; [constructor|].
  destruct (contains END_GROUP x).
  - rewrite <- app_assoc. apply (framed_app _ [] _ (x :: r) _).
    + apply framed_inserted, fx_ins_defs.
    + now constructor.
  - now constructor.
Qed.

Lemma fx_rewrite_frame :
  exists out, rewrite lines st = Some out
              /\ framed P lines (final_lines st out).
Proof.
  unfold rewrite. destruct (fx_loop_frame (List.length lines) 0 []) as (a & L & F); [lia|].
  exists a. split; [exact L|].
  apply (framed_trans _ _ a); [exact F | apply fx_final_frame].
Qed.

End Frame.

(** X20. On a manifest none of whose lines passes a group test (the
    identifier and name of a group and [isa = PBXGroup] on one line), the
    script keeps every line, in order, and adds rendered build files,
    file references, phase lines and subgroup definitions only. *)
Theorem fx_keeps_every_line (lines : list string) (st : gen_state) :
  Forall (fun l => group_hit l = false) lines ->
  exists out, rewrite lines st = Some out
              /\ framed (inserted st) lines (final_lines st out).
Proof. apply fx_rewrite_frame. Qed.

Lemma fx_keeps_every_line_witness :
  exists out,
    rewrite Sample.lines (gen [] true) = Some out
    /\ framed (inserted (gen [] true)) Sample.lines (final_lines (gen [] true) out).
Proof.
  apply fx_keeps_every_line.
  repeat (apply Forall_cons; [vm_compute; reflexivity|]). apply Forall_nil.
Defined.

Lemma fx_no_missing_file (scan : list (string * string * string)) (content : string) :
  Forall (fun f => In (fst (fst f)) (existing_refs content)) scan ->
  all_swift_files scan content = [].
Proof.
  intros E. unfold all_swift_files. generalize (@nil (string * swift_file)).
  induction E as [|[[n p] q] r H _ IH]; intros acc; [reflexivity|].
  cbn [fold_left]. cbn [fst] in H. apply IdFacts.mem_In in H. rewrite H. apply IH.
Qed.

(** X21. A run that finds no missing file and no data model registers
    nothing: when every Swift file found is among the file references the
    pattern of line 39 reads off the text read, and no line of that text
    passes a group test, the text written is the text read, that is the
    manifest with every CR LF and CR turned into LF.  The manifest is
    byte for byte what it was exactly when it held no CR. *)
Theorem fx_nothing_missing_text_written_back
  (scan : list (string * string * string)) (d : fs) (content : string) :
  d Manifest = Some content ->
  Forall (fun f => In (fst (fst f)) (existing_refs (universal_newlines content)))
         scan ->
  Forall (fun l => group_hit l = false) (split_nl (universal_newlines content)) ->
  said (main scan false d) = NoValidation
  /\ disk (main scan false d) Manifest = Some (universal_newlines content)
  /\ (disk (main scan false d) Manifest = d Manifest
      <-> char_free "013" content = true).
Proof.
  intros M E Q.
  assert (W : said (main scan false d) = NoValidation
              /\ disk (main scan false d) Manifest
                 = Some (universal_newlines content)).
  { unfold main, read_text. rewrite M. cbn [option_map].
    rewrite (fx_no_missing_file _ _ E).
    destruct (fx_rewrite_frame (split_nl (universal_newlines content))
                (gen [] false) Q) as (out & R & F).
    rewrite R. cbn [said disk]. split; [reflexivity|].
    unfold write_text. cbn [path_eqb]. f_equal.
    rewrite (framed_nothing (split_nl (universal_newlines content))
               (final_lines (gen [] false) out)).
    - apply join_split_nl.
    - revert F. apply framed_mono. intros x I. unfold inserted in I.
      replace (subgroup_definitions (gen [] false)) with (@nil string) in I
        by (vm_compute; reflexivity).
      exact I. }
  destruct W as [W D]. split; [exact W|]. split; [exact D|].
  rewrite D, M, <- universal_newlines_fixed. split; [|congruence].
  intros H. now injection H.
Qed.

Lemma fx_nothing_missing_text_written_back_witness :
  disk (main [] false (Sample.only_manifest Sample.crlf)) Manifest
  = Some Sample.crlf_read
  /\ disk (main [("Foo.swift", "Core/Foo.swift", "Core")] false
             (Sample.only_manifest Sample.foo_text)) Manifest
     = Some Sample.foo_text.
Proof.
  split.
  - apply (proj1 (proj2 (fx_nothing_missing_text_written_back []
                           (Sample.only_manifest Sample.crlf) Sample.crlf
                           eq_refl (Forall_nil _)
                           ltac:(repeat (apply Forall_cons;
                                         [vm_compute; reflexivity|]);
                                 apply Forall_nil)))).
  - apply (proj1 (proj2 (fx_nothing_missing_text_written_back
                           [("Foo.swift", "Core/Foo.swift", "Core")]
                           (Sample.only_manifest Sample.foo_text) Sample.foo_text
                           eq_refl
                           ltac:(constructor; [vm_compute; now left | constructor])
                           ltac:(replace (split_nl (universal_newlines Sample.foo_text))
                                   with Sample.foo_lines by (vm_compute; reflexivity);
                                 repeat (apply Forall_cons;
                                         [vm_compute; reflexivity|]);
                                 apply Forall_nil)))).
Defined.

End FixXcodeProjectRunFacts.

(** ** complete_fix.py *)

Module CompleteFixFacts.
Import Py PyFacts Render FrameFacts CompleteFix CompleteFixAux.

Lemma Forall_true (A : Type) (f : A -> bool) (l : list A) :
  forallb f l = true -> Forall (fun x => f x = true) l.
Proof.
  induction l as [|x r IH]; cbn [forallb]; intros H; constructor;
    apply andb_prop in H as [H0 H]; auto.
Qed.

Lemma Forall_false (A : Type) (f : A -> bool) (l : list A) :
  forallb (fun x => negb (f x)) l = true -> Forall (fun x => f x = false) l.
Proof.
  induction l as [|x r IH]; cbn [forallb]; intros H; constructor;
    apply andb_prop in H as [H0 H]; [now apply negb_true_iff | auto].
Qed.

Lemma cf_groups_miss (lines : list string) (p : plan) (line : string)
  (gids : list string) :
  existsb (fun gid => contains (gid ++ " /* ") line && contains "= {" line) gids
  = false ->
  forall s, fold_left (group_body lines p line) gids s = s.
Proof.
  induction gids as [|g r IH]; intros H s; [reflexivity|].
  cbn [existsb] in H. apply orb_false_iff in H as [H0 H].
  cbn [fold_left]. unfold group_body at 2. destruct s as [i out].
  rewrite H0. now apply IH.
Qed.

Lemma cf_step_plain (lines : list string) (p : plan) (i : nat)
  (out : list string) (line : string) :
  nth_error lines i = Some line -> plain p line = true ->
  step lines p i out = Some (i + 1, out ++ plain_line p line).
Proof.
  intros N H. unfold plain in H. apply andb_prop in H as [H1 H2].
  apply negb_true_iff in H1, H2.
  unfold step, plain_line. rewrite N, H1. cbv zeta.
  rewrite (cf_groups_miss lines p line _ H2).
  destruct (contains END_GROUP line); now rewrite <- !app_assoc.
Qed.

Section Shift.
Variables (p : plan) (pre post : list string).

Let n : nat := List.length pre.

Lemma cf_nth (a c : nat) : a = n + c -> nth_error (pre ++ post) a = nth_error post c.
Proof. intros ->. rewrite nth_error_app2 by (unfold n; lia). f_equal. unfold n. lia. Qed.

Lemma cf_skipn (a c : nat) : a = n + c -> skipn a (pre ++ post) = skipn c post.
Proof.
  intros ->. rewrite skipn_app, skipn_all2 by (unfold n; lia).
  cbn [app]. f_equal. unfold n. lia.
Qed.

Lemma cf_group_body_shift (line : string) (i : nat) (out o : list string)
  (gid : string) :
  group_body (pre ++ post) p line (n + i, out ++ o) gid
  = let '(i', o') := group_body post p line (i, o) gid in (n + i', out ++ o').
Proof.
  unfold group_body.
  destruct (contains (gid ++ " /* ") line && contains "= {" line); [|reflexivity].
  cbv zeta. rewrite (cf_skipn (n + i + 1) (i + 1)) by lia.
  set (before := span_not "children = (" (skipn (i + 1) post)).
  rewrite (cf_nth (n + i + 1 + List.length before) (i + 1 + List.length before)) by lia.
  destruct (nth_error post (i + 1 + List.length before)) as [co|].
  - rewrite (cf_skipn (n + i + 1 + List.length before + 1)
                      (i + 1 + List.length before + 1)) by lia.
    rewrite <- !app_assoc. f_equal. lia.
  - rewrite <- !app_assoc. f_equal. lia.
Qed.

Lemma cf_groups_shift (line : string) (gids : list string) :
  forall i out o,
    fold_left (group_body (pre ++ post) p line) gids (n + i, out ++ o)
    = let '(i', o') := fold_left (group_body post p line) gids (i, o) in
      (n + i', out ++ o').
Proof.
  induction gids as [|g r IH]; intros i out o; [reflexivity|].
  cbn [fold_left]. rewrite cf_group_body_shift.
  destruct (group_body post p line (i, o) g) as [i1 o1]. apply IH.
Qed.

Lemma cf_step_shift (i : nat) (out : list string) :
  step (pre ++ post) p (n + i) out
  = match step post p i [] with
    | Some (i', o) => Some (n + i', out ++ o)
    | None => None
    end.
Proof.
  unfold step. rewrite (cf_nth (n + i) i) by lia.
  destruct (nth_error post i) as [line|]; [|reflexivity].
  cbv zeta. destruct (contains SOURCES_OPEN line).
  - rewrite (cf_skipn (n + i + 1) (i + 1)) by lia.
    set (before := span_not "files = (" (skipn (i + 1) post)).
    rewrite (cf_nth (n + i + 1 + List.length before) (i + 1 + List.length before))
      by lia.
    destruct (nth_error post (i + 1 + List.length before)) as [fo|].
    + rewrite (cf_skipn (n + i + 1 + List.length before + 1)
                        (i + 1 + List.length before + 1)) by lia.
      cbn [app]. rewrite <- !app_assoc. f_equal. f_equal. lia.
    + cbn [app]. rewrite <- !app_assoc. f_equal. f_equal. lia.
  - cbn [app]. rewrite cf_groups_shift.
    destruct (fold_left (group_body post p line) _ (i, before_line p line))
      as [i1 o1].
    destruct (contains END_GROUP line); rewrite <- !app_assoc; f_equal; f_equal; lia.
Qed.

End Shift.

Lemma cf_step_out (p : plan) (lines : list string) (i : nat) (out : list string) :
  step lines p i out
  = match step lines p i [] with
    | Some (i', o) => Some (i', out ++ o)
    | None => None
    end.
Proof. exact (cf_step_shift p [] lines i out). Qed.

Lemma cf_loop_out (p : plan) (lines : list string) (fuel : nat) :
  forall i out,
    loop lines p fuel i out
    = match loop lines p fuel i [] with
      | Some o => Some (out ++ o)
      | None => None
      end.
Proof.
  induction fuel as [|f IH]; intros i out; cbn [loop].
  - destruct (Nat.leb (List.length lines) i); [now rewrite app_nil_r | reflexivity].
  - destruct (Nat.leb (List.length lines) i); [now rewrite app_nil_r|].
    rewrite cf_step_out. destruct (step lines p i []) as [[i1 o1]|]; [|reflexivity].
    cbn [app]. rewrite (IH i1 (out ++ o1)), (IH i1 o1).
    destruct (loop lines p f i1 []); [now rewrite app_assoc | reflexivity].
Qed.

Lemma cf_loop_shift (p : plan) (pre post : list string) (fuel : nat) :
  forall i out,
    loop (pre ++ post) p fuel (List.length pre + i) out
    = match loop post p fuel i [] with
      | Some o => Some (out ++ o)
      | None => None
      end.
Proof.
  assert (stop : forall i, Nat.leb (List.length (pre ++ post)) (List.length pre + i)
                           = Nat.leb (List.length post) i).
  { intros i. rewrite length_app.
    destruct (Nat.leb_spec (List.length post) i),
             (Nat.leb_spec (List.length pre + List.length post) (List.length pre + i));
      try reflexivity; lia. }
  induction fuel as [|f IH]; intros i out; cbn [loop]; rewrite stop.
  - destruct (Nat.leb (List.length post) i); [now rewrite app_nil_r | reflexivity].
  - destruct (Nat.leb (List.length post) i); [now rewrite app_nil_r|].
    rewrite cf_step_shift. destruct (step post p i []) as [[i1 o1]|]; [|reflexivity].
    rewrite IH, (cf_loop_out p post f i1 o1).
    destruct (loop post p f i1 []); [now rewrite app_assoc | reflexivity].
Qed.

(** Every iteration advances. *)
Lemma cf_group_body_mono (lines : list string) (p : plan) (line : string)
  (i : nat) (out : list string) (gid : string) :
  i <= fst (group_body lines p line (i, out) gid).
Proof.
  unfold group_body.
  destruct (contains (gid ++ " /* ") line && contains "= {" line); [|simpl; lia].
  cbv zeta. destruct (nth_error lines _); simpl; lia.
Qed.

Lemma cf_groups_mono (lines : list string) (p : plan) (line : string)
  (gids : list string) :
  forall i out, i <= fst (fold_left (group_body lines p line) gids (i, out)).
Proof.
  induction gids as [|g r IH]; intros i out; [simpl; lia|].
  cbn [fold_left]. pose proof (cf_group_body_mono lines p line i out g) as M.
  destruct (group_body lines p line (i, out) g) as [i1 o1]. cbn [fst] in M.
  specialize (IH i1 o1). lia.
Qed.

Lemma cf_step_advances (lines : list string) (p : plan) (i : nat)
  (out : list string) :
  i < List.length lines ->
  exists i' out', step lines p i out = Some (i', out') /\ i < i'.
Proof.
  intros B. unfold step.
  destruct (nth_error lines i) as [line|] eqn:L;
    [|apply nth_error_None in L; lia].
  cbv zeta. destruct (contains SOURCES_OPEN line).
  - destruct (nth_error lines (i + 1 + _)); eexists; eexists;
      (split; [reflexivity | lia]).
  - pose proof (cf_groups_mono lines p line
                  (Dict.values (group_ids (p_groups p))) i
                  (out ++ before_line p line)) as M.
    destruct (fold_left _ _ _) as [i1 o1]. cbn [fst] in M.
    eexists; eexists; (split; [reflexivity | lia]).
Qed.

Lemma cf_loop_total (lines : list string) (p : plan) (fuel : nat) :
  forall i out, List.length lines - i <= fuel ->
    exists r, loop lines p fuel i out = Some r.
Proof.
  induction fuel as [|f IH]; intros i out B; cbn [loop].
  - destruct (Nat.leb_spec (List.length lines) i); [now exists out | lia].
  - destruct (Nat.leb_spec (List.length lines) i) as [Q|Q]; [now exists out|].
    destruct (cf_step_advances lines p i out Q) as (i' & out' & -> & A).
    apply IH. lia.
Qed.

Lemma cf_loop_any_fuel (lines : list string) (p : plan) (f1 : nat) :
  forall f2 i out,
    List.length lines - i <= f1 -> List.length lines - i <= f2 ->
    loop lines p f1 i out = loop lines p f2 i out.
Proof.
  induction f1 as [|f1 IH]; intros f2 i out B1 B2.
  - destruct f2; cbn [loop];
      destruct (Nat.leb_spec (List.length lines) i); try reflexivity; lia.
  - destruct f2 as [|f2]; cbn [loop];
      destruct (Nat.leb_spec (List.length lines) i) as [Q|Q];
      try reflexivity; try lia.
    destruct (cf_step_advances lines p i out Q) as (i' & out' & -> & A).
    apply IH; lia.
Qed.

(** The loop over a stretch of plain lines. *)
Lemma cf_loop_plain (p : plan) (pre post : list string) :
  Forall (fun l => plain p l = true) pre ->
  forall done out fuel,
    loop (done ++ pre ++ post) p (List.length pre + fuel) (List.length done) out
    = loop (done ++ pre ++ post) p fuel (List.length done + List.length pre)
           (out ++ plain_pass p pre).
Proof.
  induction 1 as [|x pre Hx _ IH]; intros done out fuel.
  - cbn [List.length plain_pass flat_map]. now rewrite Nat.add_0_r, app_nil_r.
  - cbn [List.length Nat.add loop].
    destruct (Nat.leb_spec (List.length (done ++ (x :: pre) ++ post)) (List.length done)) as [B|B].
    { rewrite !length_app in B. simpl in B. lia. }
    rewrite (cf_step_plain _ p _ out x).
    + replace (done ++ (x :: pre) ++ post) with ((done ++ [x]) ++ pre ++ post)
        by (rewrite <- app_assoc; reflexivity).
      replace (List.length done + 1) with (List.length (done ++ [x]))
        by (rewrite length_app; reflexivity).
      rewrite IH. rewrite length_app. cbn [List.length plain_pass flat_map].
      f_equal; [lia | now rewrite <- app_assoc].
    + rewrite nth_error_app2 by lia. now rewrite Nat.sub_diag.
    + exact Hx.
Qed.

(** The rewrite of [pre ++ block ++ post] when [pre] is plain and one
    iteration started on the first line of [block] consumes [block]. *)
Lemma cf_rewrite_block (p : plan) (pre block post : list string)
  (emitted : list string) :
  Forall (fun l => plain p l = true) pre ->
  block <> [] ->
  step (block ++ post) p 0 [] = Some (List.length block, emitted) ->
  rewrite (pre ++ block ++ post) p
  = match rewrite post p with
    | Some tail => Some (plain_pass p pre ++ emitted ++ tail)
    | None => None
    end.
Proof.
  intros P NB S0. unfold rewrite.
  replace (List.length (pre ++ block ++ post))
    with (List.length pre + (List.length block + List.length post))
    by (rewrite !length_app; lia).
  pose proof (cf_loop_plain p pre (block ++ post) P [] []
                (List.length block + List.length post)) as L1.
  cbn [app List.length Nat.add] in L1. rewrite L1. clear L1.
  assert (LB : List.length block = S (List.length block - 1))
    by (destruct block; [contradiction | simpl; lia]).
  rewrite LB at 1. cbn [Nat.add loop].
  destruct (Nat.leb_spec (List.length (pre ++ block ++ post)) (List.length pre)) as [Q|Q].
  { rewrite !length_app in Q. lia. }
  pose proof (cf_step_shift p pre (block ++ post) 0 (plain_pass p pre)) as S1.
  rewrite Nat.add_0_r, S0 in S1. rewrite S1. clear S1.
  replace (pre ++ block ++ post) with ((pre ++ block) ++ post) by now rewrite app_assoc.
  replace (List.length pre + List.length block)
    with (List.length (pre ++ block) + 0) by (rewrite length_app; lia).
  rewrite cf_loop_shift.
  rewrite (cf_loop_any_fuel post p _ (List.length post) 0 []) by lia.
  destruct (loop post p (List.length post) 0 []) as [tail|]; [|reflexivity].
  now rewrite <- app_assoc.
Qed.

Lemma cf_span_stop (pat : string) (a r : list string) (c : string) :
  Forall (fun x => contains pat x = false) a -> contains pat c = true ->
  span_not pat (a ++ c :: r) = a.
Proof.
  induction 1 as [|x a Hx _ IH]; intros C; cbn [app span_not].
  - now rewrite C.
  - rewrite Hx. f_equal. now apply IH.
Qed.

Lemma cf_nth_app (a r : list string) (c : string) :
  nth_error (a ++ c :: r) (List.length a) = Some c.
Proof. rewrite nth_error_app2, Nat.sub_diag by lia. reflexivity. Qed.

Lemma cf_skipn_app (a r : list string) (c : string) :
  skipn (List.length a + 1) (a ++ c :: r) = r.
Proof.
  rewrite skipn_app, skipn_all2 by lia. cbn [app].
  now replace (List.length a + 1 - List.length a) with 1 by lia.
Qed.

(** X22. Line 202 appends the header again where the closing line of the list
    is meant, and line 203 steps over that line: when the first line that
    is not plain is a header of the Sources phase, followed by lines up
    to one with [files = (], the entries of the list and its closing
    line, the output holds the header a second time in the place of the
    closing line. *)
Theorem cf_phase_list_loses_its_closing_line (p : plan)
  (pre before existing post : list string) (hdr opening close : string) :
  Forall (fun l => plain p l = true) pre ->
  contains SOURCES_OPEN hdr = true ->
  Forall (fun l => contains "files = (" l = false) before ->
  contains "files = (" opening = true ->
  Forall (fun l => contains ");" l = false) existing ->
  contains ");" close = true ->
  rewrite (pre ++ ([hdr] ++ before ++ [opening] ++ existing ++ [close]) ++ post) p
  = match rewrite post p with
    | Some tail =>
        Some (plain_pass p pre
              ++ (before_line p hdr ++ [hdr] ++ before ++ [opening] ++ existing
                  ++ source_entries (p_gen p) ++ [hdr])
              ++ tail)
    | None => None
    end.
Proof.
  intros P H B O E C. apply cf_rewrite_block; [exact P | discriminate|].
  assert (BP : ([hdr] ++ before ++ [opening] ++ existing ++ [close]) ++ post
               = hdr :: before ++ opening :: existing ++ close :: post).
  { cbn [app]. f_equal. rewrite <- app_assoc. f_equal. cbn [app]. f_equal.
    now rewrite <- app_assoc. }
  rewrite BP. unfold step. cbn [nth_error Nat.add skipn]. rewrite H. cbv zeta.
  rewrite (cf_span_stop "files = (" before _ opening B O).
  replace (1 + List.length before) with (S (List.length before)) by lia.
  cbn [nth_error]. rewrite cf_nth_app.
  replace (S (List.length before) + 1) with (S (List.length before + 1)) by lia.
  cbn [skipn]. rewrite cf_skipn_app.
  rewrite (cf_span_stop ");" existing _ close E C).
  apply (f_equal Some). apply f_equal2.
  - cbn [app List.length]. repeat (rewrite length_app; cbn [List.length]). lia.
  - cbn [app]. repeat (rewrite <- app_assoc; cbn [app]). reflexivity.
Qed.

Lemma cf_phase_list_loses_its_closing_line_witness :
  rewrite Sample.lines (make_plan (file_groups []))
  = match rewrite (skipn 13 Sample.lines) (make_plan (file_groups [])) with
    | Some tail =>
        Some (plain_pass (make_plan (file_groups [])) (firstn 7 Sample.lines)
              ++ (before_line (make_plan (file_groups [])) (t2 "A10000042 /* Sources */ = {")
                  ++ [t2 "A10000042 /* Sources */ = {"]
                  ++ firstn 2 (skipn 8 Sample.lines) ++ [t3 "files = ("]
                  ++ [t4 "A10000001 /* ZairyuMateApp.swift in Sources */,"]
                  ++ source_entries (p_gen (make_plan (file_groups [])))
                  ++ [t2 "A10000042 /* Sources */ = {"])
              ++ tail)
    | None => None
    end.
Proof.
  apply (cf_phase_list_loses_its_closing_line (make_plan (file_groups []))
           (firstn 7 Sample.lines) (firstn 2 (skipn 8 Sample.lines))
           [t4 "A10000001 /* ZairyuMateApp.swift in Sources */,"]
           (skipn 13 Sample.lines)
           (t2 "A10000042 /* Sources */ = {") (t3 "files = (") (t3 ");")).
  - apply Forall_true. vm_compute. reflexivity.
  - reflexivity.
  - repeat constructor.
  - reflexivity.
  - repeat constructor.
  - reflexivity.
Defined.

Lemma cf_groups_one_hit (lines : list string) (p : plan) (line : string)
  (g1 g2 : list string) (gid : string) (s : nat * list string) :
  Forall (fun g => contains (g ++ " /* ") line = false) g1 ->
  Forall (fun g => contains (g ++ " /* ") line = false) g2 ->
  fold_left (group_body lines p line) (g1 ++ gid :: g2) s
  = group_body lines p line s gid.
Proof.
  intros M1 M2. rewrite fold_left_app. cbn [fold_left].
  assert (miss : forall gs, Forall (fun g => contains (g ++ " /* ") line = false) gs ->
            existsb (fun g => contains (g ++ " /* ") line && contains "= {" line) gs
            = false).
  { induction 1 as [|g r Hg _ IH]; [reflexivity|]. cbn [existsb]. now rewrite Hg, IH. }
  rewrite (cf_groups_miss lines p line g1 (miss g1 M1)).
  apply (cf_groups_miss lines p line g2 (miss g2 M2)).
Qed.

(** X23. Lines 227-229: when the first line that is not plain starts the
    record of a group (exactly one identifier of the table fits it), the
    children are added to the record, but the header is written again in
    the place of the closing line of the children and once more after it,
    and the line that follows the closing line is not copied. *)
Theorem cf_group_record_loses_two_lines (p : plan)
  (pre before existing post g1 g2 : list string)
  (hdr opening close next gid : string) :
  Forall (fun l => plain p l = true) pre ->
  contains SOURCES_OPEN hdr = false ->
  Dict.values (group_ids (p_groups p)) = g1 ++ gid :: g2 ->
  Forall (fun g => contains (g ++ " /* ") hdr = false) g1 ->
  Forall (fun g => contains (g ++ " /* ") hdr = false) g2 ->
  contains (gid ++ " /* ") hdr = true -> contains "= {" hdr = true ->
  Forall (fun l => contains "children = (" l = false) before ->
  contains "children = (" opening = true ->
  Forall (fun l => contains ");" l = false) existing ->
  contains ");" close = true ->
  rewrite (pre ++ ([hdr] ++ before ++ [opening] ++ existing ++ [close; next])
               ++ post) p
  = match rewrite post p with
    | Some tail =>
        Some (plain_pass p pre
              ++ (before_line p hdr ++ [hdr] ++ before ++ [opening] ++ existing
                  ++ match Dict.get gid (group_children_to_add p) with
                     | Some cs => map (fun ch => child_line (fst ch) (snd ch)) cs
                     | None => []
                     end
                  ++ [hdr]
                  ++ (if contains END_GROUP hdr
                      then flat_map (render_def (p_gen p)) (subgroup_defs (p_groups p))
                      else [])
                  ++ [hdr])
              ++ tail)
    | None => None
    end.
Proof.
  intros P H V M1 M2 G Br B O E C.
  apply cf_rewrite_block; [exact P | discriminate|].
  assert (BP : ([hdr] ++ before ++ [opening] ++ existing ++ [close; next]) ++ post
               = hdr :: before ++ opening :: existing ++ close :: next :: post).
  { cbn [app]. f_equal. rewrite <- app_assoc. f_equal. cbn [app]. f_equal.
    now rewrite <- app_assoc. }
  rewrite BP. unfold step. cbn [nth_error]. rewrite H. cbv zeta.
  rewrite V, (cf_groups_one_hit _ p hdr g1 g2 gid _ M1 M2).
  unfold group_body. rewrite G, Br. cbn [andb Nat.add skipn]. cbv zeta.
  rewrite (cf_span_stop "children = (" before _ opening B O).
  replace (1 + List.length before) with (S (List.length before)) by lia.
  cbn [nth_error]. rewrite cf_nth_app.
  replace (S (List.length before) + 1) with (S (List.length before + 1)) by lia.
  cbn [skipn]. rewrite cf_skipn_app.
  rewrite (cf_span_stop ");" existing _ close E C).
  apply (f_equal Some). apply f_equal2.
  - cbn [app List.length]. repeat (rewrite length_app; cbn [List.length]). lia.
  - destruct (contains END_GROUP hdr);
      cbn [app]; repeat (rewrite <- app_assoc; cbn [app]); reflexivity.
Qed.

Lemma cf_group_record_loses_two_lines_witness :
  rewrite ([ "/* Begin PBXGroup section */" ]
           ++ ([t2 "A10000033 /* Models */ = {"] ++ [t3 "isa = PBXGroup;"]
               ++ [t3 "children = ("] ++ [] ++ [t3 ");"; t3 "path = Models;"])
           ++ [t2 "};"; END_GROUP])
          (make_plan (file_groups []))
  = match rewrite [t2 "};"; END_GROUP] (make_plan (file_groups [])) with
    | Some tail =>
        Some (plain_pass (make_plan (file_groups [])) [ "/* Begin PBXGroup section */" ]
              ++ (before_line (make_plan (file_groups [])) (t2 "A10000033 /* Models */ = {")
                  ++ [t2 "A10000033 /* Models */ = {"] ++ [t3 "isa = PBXGroup;"]
                  ++ [t3 "children = ("] ++ []
                  ++ match Dict.get "A10000033"
                             (group_children_to_add (make_plan (file_groups []))) with
                     | Some cs => map (fun ch => child_line (fst ch) (snd ch)) cs
                     | None => []
                     end
                  ++ [t2 "A10000033 /* Models */ = {"]
                  ++ (if contains END_GROUP (t2 "A10000033 /* Models */ = {")
                      then flat_map (render_def (p_gen (make_plan (file_groups []))))
                             (subgroup_defs (p_groups (make_plan (file_groups []))))
                      else [])
                  ++ [t2 "A10000033 /* Models */ = {"])
              ++ tail)
    | None => None
    end.
Proof.
  apply (cf_group_record_loses_two_lines (make_plan (file_groups []))
           [ "/* Begin PBXGroup section */" ] [t3 "isa = PBXGroup;"] []
           [t2 "};"; END_GROUP] []
           (skipn 1 (Dict.values (group_ids (p_groups (make_plan (file_groups []))))))
           (t2 "A10000033 /* Models */ = {") (t3 "children = (") (t3 ");")
           (t3 "path = Models;") "A10000033").
  - apply Forall_true. vm_compute. reflexivity.
  - reflexivity.
  - vm_compute. reflexivity.
  - constructor.
  - apply (Forall_false _ (fun g => contains (g ++ " /* ") (t2 "A10000033 /* Models */ = {"))).
    vm_compute. reflexivity.
  - reflexivity.
  - reflexivity.
  - repeat constructor.
  - reflexivity.
  - constructor.
  - reflexivity.
Defined.

(** The line that ends a [while ... not in lines[i]] scan has the
    pattern. *)
Lemma cf_span_next (pat : string) (l : list string) (c : string) :
  nth_error l (List.length (span_not pat l)) = Some c -> contains pat c = true.
Proof.
  induction l as [|x r IH]; cbn [span_not]; [discriminate|].
  destruct (contains pat x) eqn:E; cbn [List.length nth_error].
  - intros H. now injection H as <-.
  - exact IH.
Qed.

(** *** What the loop keeps when no group record is rewritten *)

Section Keep.
Variable lines : list string.
Variable p : plan.
Hypothesis quiet : Forall (fun l => group_hit p l = false) lines.

Let keeps (consumed added : list string) : Prop :=
  forall x, In x consumed -> contains ");" x = false -> In x added.

Lemma cf_step_keep (i : nat) (out : list string) (i' : nat) (out' : list string) :
  step lines p i out = Some (i', out') ->
  exists consumed added,
    skipn i lines = consumed ++ skipn i' lines
    /\ out' = out ++ added
    /\ keeps consumed added.
Proof.
  unfold step. destruct (nth_error lines i) as [line|] eqn:L; [|discriminate].
  pose proof (skipn_nth lines i (i + 1) line L ltac:(lia)) as S0.
  cbv zeta. destruct (contains SOURCES_OPEN line).
  - set (before := span_not "files = (" (skipn (i + 1) lines)).
    set (j := i + 1 + List.length before).
    pose proof (skipn_span "files = (" lines (i + 1) j eq_refl) as Sj. fold before in Sj.
    destruct (nth_error lines j) as [fo|] eqn:Lj.
    + set (existing := span_not ");" (skipn (j + 1) lines)).
      set (k := j + 1 + List.length existing).
      pose proof (skipn_span ");" lines (j + 1) k eq_refl) as Sk. fold existing in Sk.
      intros H. injection H as <- <-.
      destruct (nth_error lines k) as [close|] eqn:Lk.
      * exists ([line] ++ before ++ [fo] ++ existing ++ [close]),
               (before_line p line ++ [line] ++ before ++ [fo] ++ existing
                ++ source_entries (p_gen p) ++ [line]).
        split; [|split].
        -- rewrite S0, Sj, (skipn_nth lines j (j + 1) fo Lj) by lia.
           rewrite Sk, (skipn_nth lines k (k + 1) close Lk) by lia.
           cbn [app]. repeat (rewrite <- app_assoc; cbn [app]). reflexivity.
        -- now rewrite <- app_assoc.
        -- intros x I F. rewrite !in_app_iff in *. cbn [In] in *.
           assert (Cl : contains ");" close = true).
           { apply (cf_span_next ");" (skipn (j + 1) lines)). fold existing.
             rewrite nth_error_skipn.
             now replace (j + 1 + List.length existing) with k by reflexivity. }
           destruct I as [[<-|[]]|[I|[[<-|[]]|[I|[<-|[]]]]]]; try tauto. congruence.
      * exists ([line] ++ before ++ [fo] ++ existing),
               (before_line p line ++ [line] ++ before ++ [fo] ++ existing
                ++ source_entries (p_gen p) ++ [line]).
        split; [|split].
        -- rewrite S0, Sj, (skipn_nth lines j (j + 1) fo Lj) by lia. rewrite Sk.
           apply nth_error_None in Lk.
           rewrite (skipn_all2 lines (n := k)), (skipn_all2 lines (n := k + 1)) by lia.
           cbn [app]. repeat (rewrite <- app_assoc; cbn [app]). now rewrite !app_nil_r.
        -- now rewrite <- app_assoc.
        -- intros x I F. rewrite !in_app_iff in *. cbn [In] in *. tauto.
    + intros H. injection H as <- <-.
      exists ([line] ++ before), (before_line p line ++ [line] ++ before ++ [line]).
      split; [|split].
      * rewrite S0, Sj. apply nth_error_None in Lj.
        rewrite (skipn_all2 lines (n := j)), (skipn_all2 lines (n := j + 1)) by lia.
        now rewrite !app_nil_r.
      * now rewrite <- app_assoc.
      * intros x I F. rewrite !in_app_iff in *. cbn [In] in *. tauto.
  - rewrite cf_groups_miss.
    + intros H. injection H as <- <-. exists [line], (plain_line p line).
      split; [exact S0|]. split.
      * unfold plain_line. destruct (contains END_GROUP line);
          now rewrite <- !app_assoc.
      * intros x [<-|[]] _. unfold plain_line. rewrite !in_app_iff.
        cbn [In]. tauto.
    + apply (proj1 (Forall_forall _ _) quiet). now apply nth_error_In in L.
Qed.

Lemma cf_loop_keep (fuel : nat) :
  forall i out r,
    loop lines p fuel i out = Some r ->
    forall x, In x out \/ (In x (skipn i lines) /\ contains ");" x = false) -> In x r.
Proof.
  induction fuel as [|f IH]; intros i out r; cbn [loop].
  - destruct (Nat.leb_spec (List.length lines) i) as [Q|Q]; [|discriminate].
    intros H. injection H as <-. intros x [I|[I _]]; [exact I|].
    rewrite skipn_all2 in I by exact Q. contradiction.
  - destruct (Nat.leb_spec (List.length lines) i) as [Q|Q].
    { intros H. injection H as <-. intros x [I|[I _]]; [exact I|].
      rewrite skipn_all2 in I by exact Q. contradiction. }
    destruct (step lines p i out) as [[i' out']|] eqn:S1; [|discriminate].
    intros H x I. apply (IH _ _ _ H).
    destruct (cf_step_keep _ _ _ _ S1) as (c & a & E & -> & K).
    rewrite in_app_iff. destruct I as [I|[I F]]; [tauto|].
    rewrite E, in_app_iff in I. destruct I as [I|I]; [left; right; now apply K | tauto].
Qed.

End Keep.

Lemma cf_contains_line (n s : string) :
  char_free "010" n = true -> n <> "" -> contains n s = true ->
  exists l, In l (split_nl s) /\ contains n l = true.
Proof.
  intros F N C. apply contains_join_inv; [exact F | exact N|].
  now rewrite join_split_nl.
Qed.

(** The run when there is no dated backup, and when there is one. *)
Lemma cf_main_plain (scan : list (string * string)) (d : fs) (text : string) :
  d OrigBackup = None -> d Manifest = Some text ->
  main scan d = patch scan (universal_newlines text) d [].
Proof.
  intros O M. unfold main, restore_original, read_text. rewrite O.
  cbn [option_map]. now rewrite M.
Qed.

Lemma cf_main_dated (scan : list (string * string)) (d : fs) (orig : string) :
  d OrigBackup = Some orig ->
  main scan d
  = patch scan (universal_newlines orig)
          (write_text Manifest (universal_newlines orig) d)
          [(Manifest, universal_newlines orig)].
Proof.
  intros O. unfold main, restore_original, read_text. rewrite O.
  cbn [option_map]. unfold write_text at 1. cbn [path_eqb option_map].
  now rewrite universal_newlines_idem.
Qed.

(** X24. The validation checks for four sentinels only: when each of them
    lies on a line of the text read without [");"] and no line of that
    text starts a group record, the validation passes, whatever else the
    rewrite did. *)
Theorem cf_validation_passes_without_group_records (scan : list (string * string))
  (d : fs) (text : string) :
  d OrigBackup = None -> d Manifest = Some text ->
  Forall (fun l => group_hit (make_plan (file_groups scan)) l = false)
         (split_nl (universal_newlines text)) ->
  (forall s, In s SENTINELS ->
     exists l, In l (split_nl (universal_newlines text)) /\ contains s l = true
               /\ contains ");" l = false) ->
  said (main scan d) = Disk.ValidationPassed.
Proof.
  intros O M Q S. rewrite (cf_main_plain scan d text O M). unfold patch, rewrite.
  destruct (cf_loop_total (split_nl (universal_newlines text))
              (make_plan (file_groups scan))
              (List.length (split_nl (universal_newlines text))) 0 [])
    as (r & R); [lia|].
  rewrite R.
  assert (K : forall s, In s SENTINELS -> contains s (join_nl r) = true).
  { intros s I. destruct (S s I) as (l & L & C & F).
    apply (contains_join s l); [|exact C].
    apply (cf_loop_keep _ _ Q _ _ _ _ R). right. now split. }
  unfold valid.
  rewrite (K END_BUILDFILE), (K END_FILEREF), (K END_GROUP),
    (K "/* End PBXSourcesBuildPhase section */"); cbn; tauto.
Qed.

Lemma cf_validation_passes_without_group_records_witness :
  said (main [] (fun q => match q with
                          | Manifest => Some (join_nl (Sample.lines ++ [END_GROUP]))
                          | _ => None
                          end)) = Disk.ValidationPassed.
Proof.
  apply (cf_validation_passes_without_group_records []
           _ (join_nl (Sample.lines ++ [END_GROUP]))).
  - reflexivity.
  - reflexivity.
  - replace (split_nl (universal_newlines (join_nl (Sample.lines ++ [END_GROUP]))))
      with (Sample.lines ++ [END_GROUP]) by (vm_compute; reflexivity).
    apply (Forall_false _ (group_hit (make_plan (file_groups [])))).
    vm_compute. reflexivity.
  - replace (split_nl (universal_newlines (join_nl (Sample.lines ++ [END_GROUP]))))
      with (Sample.lines ++ [END_GROUP]) by (vm_compute; reflexivity).
    intros s I. exists s. destruct I as [<-|[<-|[<-|[<-|[]]]]];
      (split; [vm_compute; tauto | split; vm_compute; reflexivity]).
Defined.

(** X25. Lines 29-35: when the dated backup exists the run starts from the
    text read from it.  The manifest as it was before the run has no part
    in the result; the first write puts the text read from the dated
    backup in the manifest, and the backup the run writes holds that
    text too: the dated backup with every CR LF and CR turned into LF. *)
Theorem cf_dated_backup_replaces_the_manifest (scan : list (string * string))
  (d d' : fs) (orig : string) :
  d OrigBackup = Some orig -> d' OrigBackup = Some orig ->
  said (main scan d) = said (main scan d')
  /\ disk (main scan d) Manifest = disk (main scan d') Manifest
  /\ writes (main scan d) = writes (main scan d')
  /\ hd_error (writes (main scan d)) = Some (Manifest, universal_newlines orig)
  /\ disk (main scan d) CompleteBackup = Some (universal_newlines orig).
Proof.
  intros O O'. rewrite (cf_main_dated scan d orig O), (cf_main_dated scan d' orig O').
  unfold patch.
  destruct (rewrite _ _) as [r|]; [destruct (valid _)|]; cbn; repeat split.
Qed.

Lemma cf_dated_backup_replaces_the_manifest_witness :
  disk (main [] (fun q => match q with
                          | OrigBackup => Some Sample.crlf
                          | _ => Some "edited"
                          end)) CompleteBackup
  = Some Sample.crlf_read.
Proof.
  exact (proj2 (proj2 (proj2 (proj2
           (cf_dated_backup_replaces_the_manifest []
              (fun q => match q with
                        | OrigBackup => Some Sample.crlf
                        | _ => Some "edited"
                        end)
              (fun q => match q with
                        | OrigBackup => Some Sample.crlf
                        | _ => None
                        end)
              Sample.crlf eq_refl eq_refl))))).
Defined.

End CompleteFixFacts.

(** ** fix-xcode-project.py *)

Module FixXcodeProjectDashFacts.
Import Py PyFacts Disk Render Fmt FmtFacts FixXcodeProjectDash.

Lemma fxd_enumerate_app (l1 l2 : list string) (k : nat) :
  combine (seq k (List.length (l1 ++ l2))) (l1 ++ l2)
  = combine (seq k (List.length l1)) l1
    ++ combine (seq (k + List.length l1) (List.length l2)) l2.
Proof.
  revert k. induction l1 as [|x r IH]; intros k.
  - cbn. now rewrite Nat.add_0_r.
  - cbn [List.length seq combine app]. rewrite IH.
    replace (S k + List.length r) with (k + S (List.length r)) by lia. reflexivity.
Qed.

Lemma fxd_guard (b : bool) (l : list string) :
  (if b && truthy l then l else []) = if b then l else [].
Proof. destruct b, l; reflexivity. Qed.

Lemma fxd_stretch (st : gen_state) (l : list string) :
  forall k,
    (forall i, k <= i < k + List.length l -> i <> 16 /\ i <> 29 /\ i <> 293) ->
    flat_map (fun il => before st (fst il) ++ [snd il])
             (combine (seq k (List.length l)) l) = l.
Proof.
  induction l as [|x r IH]; intros k H; [reflexivity|].
  cbn [List.length seq combine flat_map fst snd]. rewrite IH.
  - destruct (H k) as (A & B & C); [simpl; lia|]. unfold before.
    apply Nat.eqb_neq in A, B, C. now rewrite A, B, C.
  - intros i B. apply H. simpl. lia.
Qed.

(** X26. The entries are placed by line number alone: on a manifest that
    reads as at least 294 lines the build files come before the 17th
    line, the file references before the 30th and the phase entries
    before the 294th; a manifest that reads as at most 16 lines gets no
    entry, and what is written back is the text read, that is the
    manifest with every CR LF and CR turned into LF, so the manifest is
    byte for byte what it was exactly when it held no CR. *)
Theorem fxd_entries_precede_fixed_lines (scan : list (string * list string))
  (d : fs) (content : string) :
  d Manifest = Some content ->
  let st := gen (all_swift_files scan) in
  (forall A B C D a b c,
     split_nl (universal_newlines content) = A ++ a :: B ++ b :: C ++ c :: D ->
     List.length A = 16 -> List.length B = 12 -> List.length C = 263 ->
     disk (main scan d) Manifest
     = Some (join_nl (A ++ build_files st ++ a :: B ++ file_references st
                        ++ b :: C ++ sources_to_add st ++ c :: D)))
  /\ (List.length (split_nl (universal_newlines content)) <= 16 ->
      disk (main scan d) Manifest = Some (universal_newlines content)
      /\ (disk (main scan d) Manifest = d Manifest
          <-> char_free "013" content = true)).
Proof.
  intros M st.
  assert (W : disk (main scan d) Manifest
              = Some (join_nl (assemble st (split_nl (universal_newlines content))))).
  { unfold main, read_text. rewrite M. cbn [option_map disk]. unfold write_text.
    cbn [path_eqb]. reflexivity. }
  rewrite W. split.
  - intros A B C D a b c Sp LA LB LC. rewrite Sp. do 2 f_equal. unfold assemble.
    rewrite fxd_enumerate_app. cbn [List.length seq combine].
    rewrite fxd_enumerate_app. cbn [List.length seq combine].
    rewrite fxd_enumerate_app. cbn [List.length seq combine].
    rewrite !flat_map_app. cbn [flat_map].
    rewrite !flat_map_app. cbn [flat_map].
    rewrite !flat_map_app. cbn [flat_map fst snd].
    rewrite !fxd_stretch by (intros i R; lia).
    rewrite LA, LB, LC. unfold before. rewrite !fxd_guard.
    cbn [Nat.add Nat.eqb app].
    rewrite !app_nil_r. repeat (rewrite <- app_assoc; cbn [app]). reflexivity.
  - intros L. unfold assemble.
    rewrite fxd_stretch by (intros i R; lia). rewrite join_split_nl.
    split; [reflexivity|].
    rewrite M, <- universal_newlines_fixed. split; [|congruence].
    intros H. now injection H.
Qed.

Lemma fxd_entries_precede_fixed_lines_witness :
  disk (main [("A.swift", ["Core"])]
          (Sample.only_manifest
             (join_nl (repeat "a" 16 ++ "x" :: repeat "b" 12 ++ "y"
                         :: repeat "c" 263 ++ ["z"])))) Manifest
  = Some (join_nl (repeat "a" 16
                     ++ build_files (gen (all_swift_files [("A.swift", ["Core"])]))
                     ++ "x" :: repeat "b" 12
                     ++ file_references (gen (all_swift_files [("A.swift", ["Core"])]))
                     ++ "y" :: repeat "c" 263
                     ++ sources_to_add (gen (all_swift_files [("A.swift", ["Core"])]))
                     ++ "z" :: []))
  /\ disk (main [("A.swift", ["Core"])] (Sample.only_manifest Sample.crlf)) Manifest
     = Some Sample.crlf_read.
Proof.
  split.
  - apply (proj1 (fxd_entries_precede_fixed_lines [("A.swift", ["Core"])]
                    (Sample.only_manifest
                       (join_nl (repeat "a" 16 ++ "x" :: repeat "b" 12 ++ "y"
                                   :: repeat "c" 263 ++ ["z"])))
                    (join_nl (repeat "a" 16 ++ "x" :: repeat "b" 12 ++ "y"
                                :: repeat "c" 263 ++ ["z"]))
                    eq_refl)
                 (repeat "a" 16) (repeat "b" 12) (repeat "c" 263) [] "x" "y" "z").
    + vm_compute. reflexivity.
    + reflexivity.
    + reflexivity.
    + reflexivity.
  - apply (proj2 (fxd_entries_precede_fixed_lines [("A.swift", ["Core"])]
                    (Sample.only_manifest Sample.crlf) Sample.crlf eq_refl)).
    vm_compute. lia.
Defined.

(** What one file adds to the three lists depends on its name and on the
    counter alone. *)
Lemma fxd_gen_file_lists (st : gen_state) (n : string) (g : list string) :
  id_counter (gen_file st (n, g)) = (id_counter st + 2)%N
  /\ file_references (gen_file st (n, g))
     = file_references st
       ++ [ref_line (file_id (id_counter st)) n "sourcecode.swift"]
  /\ build_files (gen_file st (n, g))
     = build_files st
       ++ [build_line (file_id (id_counter st + 1)) (file_id (id_counter st)) n]
  /\ sources_to_add (gen_file st (n, g))
     = sources_to_add st ++ [source_line (file_id (id_counter st + 1)) n].
Proof.
  unfold gen_file. destruct g as [|g0 g]; [now repeat split|].
  destruct (Dict.has _ group_mapping); [now repeat split|].
  destruct (Dict.has _ (new_groups st)); now repeat split.
Qed.

Lemma fxd_gen_lists (files files' : list (string * list string)) :
  map fst files = map fst files' ->
  forall st st',
    id_counter st = id_counter st' ->
    file_references st = file_references st' ->
    build_files st = build_files st' ->
    sources_to_add st = sources_to_add st' ->
    file_references (fold_left gen_file files st)
    = file_references (fold_left gen_file files' st')
    /\ build_files (fold_left gen_file files st)
       = build_files (fold_left gen_file files' st')
    /\ sources_to_add (fold_left gen_file files st)
       = sources_to_add (fold_left gen_file files' st').
Proof.
  revert files'.
  induction files as [|[n g] r IH]; intros [|[n' g'] r'] E; try discriminate.
  - intros st st' _ A B C. now repeat split.
  - cbn [map fst] in E. injection E as <- E. intros st st' I A B C.
    cbn [fold_left].
    destruct (fxd_gen_file_lists st n g) as (I1 & A1 & B1 & C1).
    destruct (fxd_gen_file_lists st' n g') as (I2 & A2 & B2 & C2).
    apply (IH r' E); congruence.
Qed.

(** X27. The directories of the files found have no part in what is written:
    two scans that list the same file names give the same run, so no
    group of the manifest is created or changed. *)
Theorem fxd_directories_are_ignored (scan scan' : list (string * list string))
  (d : fs) :
  map fst scan = map fst scan' -> main scan d = main scan' d.
Proof.
  intros E.
  assert (F : map fst (all_swift_files scan) = map fst (all_swift_files scan')).
  { unfold all_swift_files. revert scan' E.
    induction scan as [|[n g] r IH]; intros [|[n' g'] r'] E; try discriminate;
      [reflexivity|].
    cbn [map fst] in E. injection E as <- E. cbn [filter fst].
    destruct (mem n existing_files); cbn [negb map fst]; [now apply IH|].
    f_equal. now apply IH. }
  destruct (fxd_gen_lists _ _ F (mkGen 50 [] [] [] [] 100) (mkGen 50 [] [] [] [] 100)
              eq_refl eq_refl eq_refl eq_refl) as (A & B & C).
  fold (gen (all_swift_files scan)) in A, B, C.
  fold (gen (all_swift_files scan')) in A, B, C.
  unfold main, read_text. destruct (d Manifest) as [content|]; [|reflexivity].
  cbn [option_map]. generalize (universal_newlines content). clear content.
  intros content.
  assert (H : assemble (gen (all_swift_files scan)) (split_nl content)
              = assemble (gen (all_swift_files scan')) (split_nl content)).
  { unfold assemble. apply flat_map_ext. intros il. unfold before.
    now rewrite A, B, C. }
  now rewrite H.
Qed.

Lemma fxd_directories_are_ignored_witness :
  main [("A.swift", ["Core"; "Models"])] Sample.disk
  = main [("A.swift", ["Features"; "Auth"; "Views"])] Sample.disk.
Proof.
  apply (fxd_directories_are_ignored [("A.swift", ["Core"; "Models"])]
           [("A.swift", ["Features"; "Auth"; "Views"])] Sample.disk).
  reflexivity.
Defined.

End FixXcodeProjectDashFacts.

(** ** final_complete_fix.py: the rewriting loop *)

Module FinalCompleteFixFacts.
Import Py PyFacts Render DictMore FinalCompleteFix.

(** *** The group that always has a child *)

Lemma fcf_gen_has (files : list string) (f : string) :
  forall s, Dict.has f (file_ids (snd s)) = true \/ In f files ->
            Dict.has f (file_ids (snd (fold_left gen_file files s))) = true.
Proof.
  induction files as [|x r IH]; intros s [H|H]; cbn [fold_left];
    try assumption; try contradiction.
  - apply IH. left. destruct s as [seed e]. cbn [gen_file snd file_ids].
    unfold Dict.has in *. rewrite DictFacts.get_set.
    now destruct (String.eqb f x).
  - apply IH. destruct H as [->|H]; [left | now right].
    destruct s as [seed e]. cbn [gen_file snd file_ids].
    unfold Dict.has. now rewrite DictFacts.get_set, String.eqb_refl.
Qed.

Lemma fcf_children_keep (e : entries) (ftg : Dict.t string) (k : string) :
  forall acc, Dict.has k acc = true ->
              Dict.has k (fold_left
                (fun acc item =>
                   match Dict.get (snd item) GROUPS with
                   | Some group_id =>
                       match Dict.get (fst item) (file_ids e) with
                       | Some fid => Dict.append group_id (fid, fst item) acc
                       | None => acc
                       end
                   | None => acc
                   end) ftg acc) = true.
Proof.
  induction ftg as [|[n g] r IH]; intros acc H; cbn [fold_left]; [exact H|].
  apply IH. cbn [fst snd].
  destruct (Dict.get g GROUPS); [|exact H].
  destruct (Dict.get n (file_ids e)); [|exact H].
  now apply append_has.
Qed.

(** The data model is always assigned to Core/Storage, so the group
    [A10000035] always has a child to add. *)
Lemma fcf_storage_has_children (scan : list (string * string)) :
  Dict.has "A10000035" (p_children (make_plan scan)) = true.
Proof.
  unfold make_plan. cbn [p_children]. unfold group_children.
  set (e := gen_entries (all_files scan)).
  assert (G : Dict.get DATA_MODEL (file_to_group scan) = Some "Core/Storage").
  { unfold file_to_group. now rewrite DictFacts.get_set, String.eqb_refl. }
  apply get_In in G. apply in_split in G as (l1 & l2 & ->).
  rewrite fold_left_app. cbn [fold_left fst snd].
  replace (Dict.get "Core/Storage" GROUPS) with (Some "A10000035") by reflexivity.
  assert (H : Dict.has DATA_MODEL (file_ids e) = true).
  { unfold e, gen_entries. apply fcf_gen_has. right. unfold all_files.
    apply in_or_app. right. now left. }
  unfold Dict.has in H. destruct (Dict.get DATA_MODEL (file_ids e)); [|discriminate].
  apply fcf_children_keep. apply append_has_same.
Qed.

Lemma fcf_children_NoDup (scan : list (string * string)) :
  NoDup (Dict.keys (p_children (make_plan scan))).
Proof.
  unfold make_plan. cbn [p_children]. unfold group_children.
  generalize (gen_entries (all_files scan)). intros e.
  assert (H : NoDup (Dict.keys (@nil (string * list (string * string)))))
    by constructor.
  revert H. generalize (@nil (string * list (string * string))).
  induction (file_to_group scan) as [|[n g] r IH]; intros acc H; cbn [fold_left];
    [exact H|].
  apply IH. cbn [fst snd].
  destruct (Dict.get g GROUPS); [|exact H].
  destruct (Dict.get n (file_ids e)); [|exact H].
  now apply append_keys_NoDup.
Qed.

(** *** Lines treated on their own *)

Lemma fcf_groups_miss (lines : list string) (line : string)
  (gs : Dict.t (list (string * string))) :
  existsb (fun g => contains (fst g ++ " /* ") line && contains "= {" line) gs
  = false ->
  forall st, groups_pass lines line gs st = Some st.
Proof.
  induction gs as [|[gid ch] r IH]; intros H st; [reflexivity|].
  cbn [existsb fst] in H. apply orb_false_iff in H as [H0 H].
  cbn [groups_pass]. unfold group_body. destruct st as [i out].
  rewrite H0. now apply IH.
Qed.

Lemma fcf_step_plain (lines : list string) (p : plan) (i : nat)
  (out : list string) (line : string) :
  nth_error lines i = Some line -> plain p line = true ->
  step lines p i out = Some (i + 1, out ++ plain_line p line).
Proof.
  intros N H. unfold plain in H. apply andb_prop in H as [H1 H2].
  apply negb_true_iff in H1, H2. unfold group_hit in H2.
  unfold step, plain_line. rewrite N, H1.
  destruct (contains END_BUILDFILE line); [reflexivity|].
  destruct (contains END_FILEREF line); [reflexivity|].
  cbn [andb]. now rewrite (fcf_groups_miss lines line _ H2).
Qed.

Lemma fcf_loop_plain (p : plan) (pre post : list string) :
  Forall (fun l => plain p l = true) pre ->
  forall done out fuel,
    loop (done ++ pre ++ post) p (List.length pre + fuel) (List.length done) out
    = loop (done ++ pre ++ post) p fuel (List.length done + List.length pre)
           (out ++ plain_pass p pre).
Proof.
  induction 1 as [|x pre Hx _ IH]; intros done out fuel.
  - cbn [List.length plain_pass flat_map]. now rewrite Nat.add_0_r, app_nil_r.
  - cbn [List.length Nat.add loop].
    destruct (Nat.leb_spec (List.length (done ++ (x :: pre) ++ post))
                           (List.length done)) as [B|B].
    { rewrite !length_app in B. simpl in B. lia. }
    rewrite (fcf_step_plain _ p _ out x).
    + replace (done ++ (x :: pre) ++ post) with ((done ++ [x]) ++ pre ++ post)
        by (rewrite <- app_assoc; reflexivity).
      replace (List.length done + 1) with (List.length (done ++ [x]))
        by (rewrite length_app; reflexivity).
      rewrite IH. rewrite length_app. cbn [List.length plain_pass flat_map].
      f_equal; [lia | now rewrite <- app_assoc].
    + rewrite nth_error_app2 by lia. now rewrite Nat.sub_diag.
    + exact Hx.
Qed.

(** *** The loop does not depend on the lines behind it *)

Section Shift.
Variables (p : plan) (pre post : list string).

Let n : nat := List.length pre.

Lemma fcf_nth (a c : nat) : a = n + c -> nth_error (pre ++ post) a = nth_error post c.
Proof. intros ->. rewrite nth_error_app2 by (unfold n; lia). f_equal. unfold n. lia. Qed.

Lemma fcf_skipn (a c : nat) : a = n + c -> skipn a (pre ++ post) = skipn c post.
Proof.
  intros ->. rewrite skipn_app, skipn_all2 by (unfold n; lia).
  cbn [app]. f_equal. unfold n. lia.
Qed.

Lemma fcf_group_body_shift (line : string) (i : nat) (out o : list string)
  (g : string * list (string * string)) :
  group_body (pre ++ post) line (n + i, out ++ o) g
  = match group_body post line (i, o) g with
    | Some (i', o') => Some (n + i', out ++ o')
    | None => None
    end.
Proof.
  unfold group_body. destruct g as [gid ch].
  destruct (contains (gid ++ " /* ") line && contains "= {" line); [|reflexivity].
  rewrite (fcf_nth (n + i + 1) (i + 1)) by lia.
  destruct (nth_error post (i + 1)) as [isa|]; [|reflexivity].
  destruct (contains "isa = PBXGroup" isa); [|reflexivity].
  cbv zeta. rewrite (fcf_skipn (n + i + 2) (i + 2)) by lia.
  set (before := span_not "children = (" (skipn (i + 2) post)).
  rewrite (fcf_nth (n + i + 2 + List.length before) (i + 2 + List.length before)) by lia.
  destruct (nth_error post (i + 2 + List.length before)) as [co|]; [|reflexivity].
  rewrite (fcf_skipn (n + i + 2 + List.length before + 1)
                     (i + 2 + List.length before + 1)) by lia.
  set (existing := span_not ");" (skipn (i + 2 + List.length before + 1) post)).
  rewrite (fcf_nth (n + i + 2 + List.length before + 1 + List.length existing)
                   (i + 2 + List.length before + 1 + List.length existing)) by lia.
  destruct (nth_error post (i + 2 + List.length before + 1 + List.length existing))
    as [close|]; [|reflexivity].
  rewrite (fcf_skipn (n + i + 2 + List.length before + 1 + List.length existing + 1)
                     (i + 2 + List.length before + 1 + List.length existing + 1))
    by lia.
  set (rest := span_not "};" (skipn (i + 2 + List.length before + 1
                                      + List.length existing + 1) post)).
  rewrite (fcf_nth (n + i + 2 + List.length before + 1 + List.length existing + 1
                    + List.length rest)
                   (i + 2 + List.length before + 1 + List.length existing + 1
                    + List.length rest)) by lia.
  destruct (nth_error post _) as [brace|]; [|reflexivity].
  rewrite <- !app_assoc. f_equal. f_equal. lia.
Qed.

Lemma fcf_groups_shift (line : string) (gs : Dict.t (list (string * string))) :
  forall i out o,
    groups_pass (pre ++ post) line gs (n + i, out ++ o)
    = match groups_pass post line gs (i, o) with
      | Some (i', o') => Some (n + i', out ++ o')
      | None => None
      end.
Proof.
  induction gs as [|g r IH]; intros i out o; cbn [groups_pass]; [reflexivity|].
  rewrite fcf_group_body_shift.
  destruct (group_body post line (i, o) g) as [[i' o']|]; [|reflexivity].
  apply IH.
Qed.

Lemma fcf_step_shift (i : nat) (out : list string) :
  step (pre ++ post) p (n + i) out
  = match step post p i [] with
    | Some (i', o) => Some (n + i', out ++ o)
    | None => None
    end.
Proof.
  unfold step. rewrite (fcf_nth (n + i) i) by lia.
  destruct (nth_error post i) as [line|]; [|reflexivity].
  destruct (contains END_BUILDFILE line).
  { cbn [app]. f_equal. f_equal. lia. }
  destruct (contains END_FILEREF line).
  { cbn [app]. f_equal. f_equal. lia. }
  rewrite (fcf_nth (n + i + 1) (i + 1)) by lia.
  destruct (contains SOURCES_HDR line
            && match nth_error post (i + 1) with
               | Some isa => contains ISA_SOURCES isa
               | None => false
               end).
  - unfold sources_block.
    rewrite (fcf_nth (n + i) i), (fcf_nth (n + i + 1) (i + 1)),
      (fcf_nth (n + i + 2) (i + 2)), (fcf_nth (n + i + 3) (i + 3)) by lia.
    destruct (nth_error post i) as [l0|]; [|reflexivity].
    destruct (nth_error post (i + 1)) as [isa|]; [|reflexivity].
    destruct (nth_error post (i + 2)) as [mask|]; [|reflexivity].
    destruct (nth_error post (i + 3)) as [fo|]; [|reflexivity].
    cbv zeta. rewrite (fcf_skipn (n + i + 4) (i + 4)) by lia.
    set (existing := span_not ");" (skipn (i + 4) post)).
    rewrite (fcf_nth (n + i + 4 + List.length existing) (i + 4 + List.length existing))
      by lia.
    destruct (nth_error post (i + 4 + List.length existing)) as [close|];
      [|reflexivity].
    rewrite (fcf_skipn (n + i + 4 + List.length existing + 1)
                       (i + 4 + List.length existing + 1)) by lia.
    set (rest := span_not "};" (skipn (i + 4 + List.length existing + 1) post)).
    rewrite (fcf_nth (n + i + 4 + List.length existing + 1 + List.length rest)
                     (i + 4 + List.length existing + 1 + List.length rest)) by lia.
    destruct (nth_error post _) as [brace|]; [|reflexivity].
    cbn [app]. f_equal. f_equal. lia.
  - pose proof (fcf_groups_shift line (p_children p) i out []) as G.
    rewrite app_nil_r in G. rewrite G.
    destruct (groups_pass post line (p_children p) (i, [])) as [[i' o']|];
      [|reflexivity].
    rewrite <- app_assoc. f_equal. f_equal. lia.
Qed.

End Shift.

Lemma fcf_step_out (p : plan) (lines : list string) (i : nat) (out : list string) :
  step lines p i out
  = match step lines p i [] with
    | Some (i', o) => Some (i', out ++ o)
    | None => None
    end.
Proof.
  pose proof (fcf_step_shift p [] lines i out) as S1.
  cbn [app List.length Nat.add] in S1. exact S1.
Qed.

Lemma fcf_loop_out (p : plan) (lines : list string) (fuel : nat) :
  forall i out,
    loop lines p fuel i out
    = match loop lines p fuel i [] with
      | Some (Some o) => Some (Some (out ++ o))
      | Some None => Some None
      | None => None
      end.
Proof.
  induction fuel as [|f IH]; intros i out; cbn [loop].
  - destruct (Nat.leb (List.length lines) i); [now rewrite app_nil_r | reflexivity].
  - destruct (Nat.leb (List.length lines) i); [now rewrite app_nil_r|].
    rewrite fcf_step_out.
    destruct (step lines p i []) as [[i' o]|]; [|reflexivity].
    cbn [app]. rewrite (IH i' (out ++ o)), (IH i' o).
    destruct (loop lines p f i' []) as [[r|]|]; try reflexivity.
    now rewrite app_assoc.
Qed.

Lemma fcf_loop_shift (p : plan) (pre post : list string) (fuel : nat) :
  forall i out,
    loop (pre ++ post) p fuel (List.length pre + i) out
    = match loop post p fuel i [] with
      | Some (Some o) => Some (Some (out ++ o))
      | Some None => Some None
      | None => None
      end.
Proof.
  assert (stop : forall i, Nat.leb (List.length (pre ++ post)) (List.length pre + i)
                           = Nat.leb (List.length post) i).
  { intros i. rewrite length_app.
    destruct (Nat.leb_spec (List.length post) i),
      (Nat.leb_spec (List.length pre + List.length post) (List.length pre + i));
      try reflexivity; lia. }
  induction fuel as [|f IH]; intros i out; cbn [loop]; rewrite stop.
  - destruct (Nat.leb (List.length post) i); [now rewrite app_nil_r | reflexivity].
  - destruct (Nat.leb (List.length post) i); [now rewrite app_nil_r|].
    rewrite fcf_step_shift.
    destruct (step post p i []) as [[i' o]|]; [|reflexivity].
    rewrite IH, (fcf_loop_out p post f i' o).
    destruct (loop post p f i' []) as [[r|]|]; try reflexivity.
    now rewrite app_assoc.
Qed.

(** *** Every iteration advances *)

Lemma fcf_group_body_mono (lines : list string) (line : string) (i : nat)
  (out : list string) (g : string * list (string * string)) (i' : nat)
  (out' : list string) :
  group_body lines line (i, out) g = Some (i', out') -> i <= i'.
Proof.
  unfold group_body. destruct g as [gid ch].
  destruct (contains (gid ++ " /* ") line && contains "= {" line);
    [|intros H; injection H as <- _; lia].
  destruct (nth_error lines (i + 1)) as [isa|]; [|discriminate].
  destruct (contains "isa = PBXGroup" isa); [|intros H; injection H as <- _; lia].
  cbv zeta.
  destruct (nth_error lines (i + 2 + _)) as [co|]; [|discriminate].
  destruct (nth_error lines (i + 2 + _ + 1 + _)) as [close|]; [|discriminate].
  destruct (nth_error lines (i + 2 + _ + 1 + _ + 1 + _)) as [brace|];
    [|discriminate].
  intros H. injection H as <- _. lia.
Qed.

Lemma fcf_groups_mono (lines : list string) (line : string)
  (gs : Dict.t (list (string * string))) :
  forall i out i' out',
    groups_pass lines line gs (i, out) = Some (i', out') -> i <= i'.
Proof.
  induction gs as [|g r IH]; intros i out i' out'; cbn [groups_pass].
  - intros H. injection H as <- _. lia.
  - destruct (group_body lines line (i, out) g) as [[i1 o1]|] eqn:G; [|discriminate].
    intros H. apply fcf_group_body_mono in G. apply IH in H. lia.
Qed.

Lemma fcf_step_advances (lines : list string) (p : plan) (i : nat)
  (out : list string) (i' : nat) (out' : list string) :
  step lines p i out = Some (i', out') -> i < i'.
Proof.
  unfold step. destruct (nth_error lines i) as [line|]; [|discriminate].
  destruct (contains END_BUILDFILE line); [intros H; injection H as <- _; lia|].
  destruct (contains END_FILEREF line); [intros H; injection H as <- _; lia|].
  destruct (contains SOURCES_HDR line && _).
  - unfold sources_block.
    destruct (nth_error lines i); [|discriminate].
    destruct (nth_error lines (i + 1)); [|discriminate].
    destruct (nth_error lines (i + 2)); [|discriminate].
    destruct (nth_error lines (i + 3)); [|discriminate].
    cbv zeta.
    destruct (nth_error lines (i + 4 + _)); [|discriminate].
    destruct (nth_error lines (i + 4 + _ + 1 + _)); [|discriminate].
    intros H. injection H as <- _. lia.
  - destruct (groups_pass lines line (p_children p) (i, out)) as [[i1 o1]|] eqn:G;
      [|discriminate].
    intros H. injection H as <- _. apply fcf_groups_mono in G. lia.
Qed.

Lemma fcf_loop_fuel (lines : list string) (p : plan) (fuel : nat) :
  forall i out, List.length lines - i <= fuel -> loop lines p fuel i out <> None.
Proof.
  induction fuel as [|f IH]; intros i out B; cbn [loop].
  - destruct (Nat.leb_spec (List.length lines) i); [discriminate | lia].
  - destruct (Nat.leb_spec (List.length lines) i); [discriminate|].
    destruct (step lines p i out) as [[i' out']|] eqn:S1; [|discriminate].
    apply IH. apply fcf_step_advances in S1. lia.
Qed.

Lemma fcf_loop_any_fuel (lines : list string) (p : plan) (f1 : nat) :
  forall f2 i out,
    List.length lines - i <= f1 -> List.length lines - i <= f2 ->
    loop lines p f1 i out = loop lines p f2 i out.
Proof.
  induction f1 as [|f1 IH]; intros f2 i out B1 B2.
  - destruct f2; cbn [loop];
      destruct (Nat.leb_spec (List.length lines) i); try reflexivity; lia.
  - destruct f2 as [|f2]; cbn [loop];
      destruct (Nat.leb_spec (List.length lines) i); try reflexivity; try lia.
    destruct (step lines p i out) as [[i' out']|] eqn:S1; [|reflexivity].
    apply fcf_step_advances in S1. apply IH; lia.
Qed.

Lemma fcf_span_stop (pat : string) (a r : list string) (c : string) :
  Forall (fun x => contains pat x = false) a -> contains pat c = true ->
  span_not pat (a ++ c :: r) = a.
Proof.
  induction 1 as [|x a Hx _ IH]; intros C; cbn [app span_not].
  - now rewrite C.
  - rewrite Hx. f_equal. now apply IH.
Qed.

Lemma fcf_nth_mid (a r : list string) (x : string) (k : nat) :
  k = List.length a -> nth_error (a ++ x :: r) k = Some x.
Proof. intros ->. now rewrite nth_error_app2, Nat.sub_diag by lia. Qed.

Lemma fcf_skip_mid (a : list string) (x : string) (r : list string) (k : nat) :
  k = List.length a + 1 -> skipn k (a ++ x :: r) = r.
Proof.
  intros ->. rewrite skipn_app, skipn_all2 by lia. cbn [app].
  now replace (List.length a + 1 - List.length a) with 1 by lia.
Qed.

(** *** A group header with nothing after it *)

Lemma fcf_groups_crash (lines : list string) (line : string) (i : nat)
  (out : list string) (gs : Dict.t (list (string * string))) :
  nth_error lines (i + 1) = None ->
  existsb (fun g => contains (fst g ++ " /* ") line && contains "= {" line) gs
  = true ->
  groups_pass lines line gs (i, out) = None.
Proof.
  intros N. induction gs as [|[gid ch] r IH]; cbn [existsb fst groups_pass];
    [discriminate|].
  intros H. unfold group_body.
  destruct (contains (gid ++ " /* ") line && contains "= {" line).
  - now rewrite N.
  - cbn [orb] in H. now apply IH.
Qed.

(** X28. Line 140 reads [lines[i+1]] unguarded.  The group [A10000035] always
    has a child to add, so when the last line of the manifest holds the
    header of that group and the lines before it are treated on their
    own, the script stops on an [IndexError]: the manifest is left as it
    was, and the one file written is the backup, which holds the text
    read (the manifest with every CR LF and CR turned into LF). *)
Theorem fcf_group_header_on_last_line_crashes (scan : list (string * string))
  (d : fs) (text : string) (pre : list string) (last : string) :
  d Manifest = Some text ->
  splitlines text = pre ++ [last] ->
  Forall (fun l => plain (make_plan scan) l = true) pre ->
  contains END_BUILDFILE last = false ->
  contains END_FILEREF last = false ->
  contains "A10000035 /* " last = true ->
  contains "= {" last = true ->
  said (main scan d) = Disk.Crashed
  /\ writes (main scan d) = [(FinalBackup, universal_newlines text)]
  /\ disk (main scan d) Manifest = Some text
  /\ disk (main scan d) FinalBackup = Some (universal_newlines text).
Proof.
  intros M Sp P B F G O. unfold main, read_text. rewrite M. cbn [option_map].
  rewrite splitlines_universal_newlines, Sp.
  assert (R : rewrite (pre ++ [last]) (make_plan scan) = None).
  { unfold rewrite. rewrite length_app. cbn [List.length].
    pose proof (fcf_loop_plain (make_plan scan) pre [last] P [] [] 1) as L.
    cbn [app List.length Nat.add] in L. rewrite L. cbn [loop].
    destruct (Nat.leb_spec (List.length (pre ++ [last])) (List.length pre)) as [Q|Q].
    { rewrite length_app in Q. simpl in Q. lia. }
    unfold step. rewrite nth_error_app2, Nat.sub_diag by lia. cbn [nth_error].
    rewrite B, F.
    assert (N : nth_error (pre ++ [last]) (List.length pre + 1) = None).
    { apply nth_error_None. rewrite length_app. simpl. lia. }
    rewrite N, andb_false_r.
    rewrite fcf_groups_crash; [reflexivity | exact N |].
    apply (has_existsb _ "A10000035" _
             (fun k => contains (k ++ " /* ")%string last && contains "= {" last)).
    - apply fcf_storage_has_children.
    - cbn beta. replace ("A10000035" ++ " /* ")%string with "A10000035 /* " by reflexivity.
      now rewrite G, O. }
  rewrite R. cbn. repeat split; try reflexivity. exact M.
Qed.

Lemma fcf_group_header_on_last_line_crashes_witness :
  said (main [] (fun q => match q with
                          | Manifest =>
                              Some ("x" ++ String "013" (String "010"
                                      (t2 "A10000035 /* Storage */ = {")))%string
                          | FinalBackup => None
                          end)) = Disk.Crashed
  /\ disk (main [] (fun q => match q with
                             | Manifest =>
                                 Some ("x" ++ String "013" (String "010"
                                         (t2 "A10000035 /* Storage */ = {")))%string
                             | FinalBackup => None
                             end)) FinalBackup
     = Some ("x" ++ String "010" (t2 "A10000035 /* Storage */ = {"))%string.
Proof.
  assert (H := fcf_group_header_on_last_line_crashes []
           (fun q => match q with
                     | Manifest =>
                         Some ("x" ++ String "013" (String "010"
                                 (t2 "A10000035 /* Storage */ = {")))%string
                     | FinalBackup => None
                     end)
           ("x" ++ String "013" (String "010" (t2 "A10000035 /* Storage */ = {")))%string
           ["x"] (t2 "A10000035 /* Storage */ = {")
           eq_refl eq_refl
           ltac:(constructor; [vm_compute; reflexivity | constructor])
           eq_refl eq_refl eq_refl eq_refl).
  split; [exact (proj1 H) | exact (proj2 (proj2 (proj2 H)))].
Defined.

(** *** A group record *)

Lemma fcf_groups_one_hit (lines : list string) (line : string) (gid : string)
  (children : list (string * string)) (st : nat * list string)
  (gs : Dict.t (list (string * string))) :
  NoDup (Dict.keys gs) ->
  Dict.get gid gs = Some children ->
  (forall g, In g (Dict.keys gs) -> g <> gid ->
             contains (g ++ " /* ") line = false) ->
  groups_pass lines line gs st = group_body lines line st (gid, children).
Proof.
  unfold Dict.keys. induction gs as [|[k v] r IH]; intros N G Miss;
    cbn [Dict.get] in G; [discriminate|].
  cbn [map fst] in N, Miss. inversion N as [|? ? N0 N1]; subst.
  cbn [groups_pass]. destruct (String.eqb_spec gid k) as [->|ne].
  - injection G as ->.
    destruct (group_body lines line st (k, children)) as [st'|]; [|reflexivity].
    apply fcf_groups_miss. apply not_true_is_false. intros E.
    apply existsb_exists in E as ([g c] & I & E). cbn [fst] in E.
    apply andb_prop in E as [E _].
    rewrite (Miss g) in E; [discriminate | right; now apply (in_map fst) in I |].
    intros ->. apply N0. now apply (in_map fst) in I.
  - assert (H : group_body lines line st (k, v) = Some st).
    { unfold group_body. destruct st as [i out].
      rewrite (Miss k); [reflexivity | now left | congruence]. }
    rewrite H. apply IH; [exact N1 | exact G |].
    intros g I. apply Miss. now right.
Qed.

(** X29. A group record that one group with children matches is copied with
    the new children after the ones it had; then the header of the
    record is written once more and the line that follows the record is
    left out.  The rewrite goes on with the lines after that one. *)
Theorem fcf_group_record_repeats_its_header (scan : list (string * string))
  (gid : string) (children : list (string * string))
  (pre before existing rest post : list string)
  (hdr isa opening close brace next : string) :
  let p := make_plan scan in
  Dict.get gid (p_children p) = Some children ->
  Forall (fun l => plain p l = true) pre ->
  contains (gid ++ " /* ") hdr = true -> contains "= {" hdr = true ->
  (forall g, In g (Dict.keys (p_children p)) -> g <> gid ->
             contains (g ++ " /* ") hdr = false) ->
  contains END_BUILDFILE hdr = false -> contains END_FILEREF hdr = false ->
  contains SOURCES_HDR hdr = false ->
  contains "isa = PBXGroup" isa = true ->
  Forall (fun l => contains "children = (" l = false) before ->
  contains "children = (" opening = true ->
  Forall (fun l => contains ");" l = false) existing ->
  contains ");" close = true ->
  Forall (fun l => contains "};" l = false) rest ->
  contains "};" brace = true ->
  rewrite (pre ++ [hdr; isa] ++ before ++ [opening] ++ existing ++ [close]
               ++ rest ++ [brace] ++ [next] ++ post) p
  = match rewrite post p with
    | Some tail =>
        Some (plain_pass p pre ++ [hdr; isa] ++ before ++ [opening] ++ existing
                ++ map (fun ch => child_line (fst ch) (snd ch)) children
                ++ [close] ++ rest ++ [brace] ++ [hdr] ++ tail)
    | None => None
    end.
Proof.
  intros p G P H1 H2 Miss B F SH I Bf Op Ex Cl Rs Br.
  set (block := [hdr; isa] ++ before ++ [opening] ++ existing ++ [close] ++ rest
                ++ [brace] ++ [next]).
  assert (EL : pre ++ [hdr; isa] ++ before ++ [opening] ++ existing ++ [close]
                   ++ rest ++ [brace] ++ [next] ++ post
               = pre ++ block ++ post).
  { unfold block. f_equal. repeat (rewrite <- app_assoc; cbn [app]). reflexivity. }
  assert (LB : List.length block
               = 2 + List.length before + 1 + List.length existing + 1
                 + List.length rest + 1 + 1).
  { unfold block. cbn [app List.length]. rewrite !length_app. cbn [List.length].
    rewrite !length_app. cbn [List.length]. rewrite !length_app. cbn [List.length].
    lia. }
  assert (S0 : step (block ++ post) p 0 []
               = Some (List.length block,
                       [hdr; isa] ++ before ++ [opening] ++ existing
                       ++ map (fun ch => child_line (fst ch) (snd ch)) children
                       ++ [close] ++ rest ++ [brace] ++ [hdr])).
  { set (tail2 := rest ++ brace :: next :: post).
    set (tail1 := existing ++ close :: tail2).
    assert (BP : block ++ post = hdr :: isa :: before ++ opening :: tail1).
    { unfold block, tail1, tail2. repeat (rewrite <- app_assoc; cbn [app]).
      reflexivity. }
    rewrite BP. set (L := hdr :: isa :: before ++ opening :: tail1).
    assert (E1 : L = (hdr :: isa :: before) ++ opening :: tail1) by reflexivity.
    assert (E2 : L = (hdr :: isa :: before ++ opening :: existing) ++ close :: tail2).
    { unfold L, tail1. cbn [app]. do 2 f_equal.
      now rewrite <- app_assoc. }
    assert (E3 : L = (hdr :: isa :: before ++ opening :: existing ++ close :: rest)
                     ++ brace :: next :: post).
    { rewrite E2. unfold tail2. cbn [app]. do 2 f_equal.
      repeat (rewrite <- app_assoc; cbn [app]). reflexivity. }
    assert (Nc : nth_error L (0 + 2 + List.length before) = Some opening).
    { rewrite E1. apply fcf_nth_mid. cbn [List.length]. lia. }
    assert (K1 : skipn (0 + 2 + List.length before + 1) L = tail1).
    { rewrite E1. apply (fcf_skip_mid (hdr :: isa :: before) opening).
      cbn [List.length]. lia. }
    assert (N2 : nth_error L (0 + 2 + List.length before + 1 + List.length existing)
                 = Some close).
    { rewrite E2. apply fcf_nth_mid. cbn [List.length]. rewrite length_app.
      cbn [List.length]. lia. }
    assert (K2 : skipn (0 + 2 + List.length before + 1 + List.length existing + 1) L
                 = tail2).
    { rewrite E2. apply (fcf_skip_mid _ close). cbn [List.length].
      rewrite length_app. cbn [List.length]. lia. }
    assert (N3 : nth_error L (0 + 2 + List.length before + 1 + List.length existing
                              + 1 + List.length rest) = Some brace).
    { rewrite E3. apply fcf_nth_mid. cbn [List.length]. rewrite length_app.
      cbn [List.length]. rewrite length_app. cbn [List.length]. lia. }
    unfold step. replace (nth_error L 0) with (Some hdr) by reflexivity.
    rewrite B, F, SH. cbn [andb].
    rewrite (fcf_groups_one_hit _ hdr gid children (0, []) (p_children p)
               (fcf_children_NoDup scan) G Miss).
    unfold group_body. rewrite H1, H2. cbn [andb].
    replace (nth_error L (0 + 1)) with (Some isa) by reflexivity.
    rewrite I. cbv zeta.
    replace (skipn (0 + 2) L) with (before ++ opening :: tail1) by reflexivity.
    rewrite (fcf_span_stop "children = (" before _ opening Bf Op).
    rewrite Nc, K1.
    replace (span_not ");" tail1) with existing
      by (symmetry; apply (fcf_span_stop ");" existing _ close Ex Cl)).
    rewrite N2, K2.
    replace (span_not "};" tail2) with rest
      by (symmetry; apply (fcf_span_stop "};" rest _ brace Rs Br)).
    rewrite N3, LB. apply (f_equal Some).
    apply f_equal2; [lia|].
    cbn [app]. repeat (rewrite <- app_assoc; cbn [app]). reflexivity. }
  unfold rewrite. rewrite EL.
  replace (List.length (pre ++ block ++ post))
    with (List.length pre + (List.length block + List.length post))
    by (rewrite !length_app; lia).
  pose proof (fcf_loop_plain p pre (block ++ post) P [] []
                (List.length block + List.length post)) as L1.
  cbn [app List.length Nat.add] in L1. rewrite L1. clear L1.
  assert (LBpos : List.length block = S (List.length block - 1)) by lia.
  rewrite LBpos at 1. cbn [Nat.add loop].
  destruct (Nat.leb_spec (List.length (pre ++ block ++ post)) (List.length pre)) as [Q|Q].
  { rewrite !length_app in Q. lia. }
  pose proof (fcf_step_shift p pre (block ++ post) 0 (plain_pass p pre)) as S1.
  rewrite Nat.add_0_r, S0 in S1. rewrite S1. clear S1.
  replace (pre ++ block ++ post) with ((pre ++ block) ++ post) by now rewrite app_assoc.
  replace (List.length pre + List.length block)
    with (List.length (pre ++ block) + 0) by (rewrite length_app; lia).
  rewrite fcf_loop_shift.
  rewrite (fcf_loop_any_fuel post p _ (List.length post) 0 []) by lia.
  destruct (loop post p (List.length post) 0 []) as [[tail|]|] eqn:LP.
  - apply (f_equal Some). cbn [app]. repeat (rewrite <- app_assoc; cbn [app]).
    reflexivity.
  - reflexivity.
  - exfalso. revert LP. apply fcf_loop_fuel. lia.
Qed.

Lemma fcf_group_record_repeats_its_header_witness :
  rewrite (["x"] ++ [t2 "A10000035 /* Storage */ = {"; t3 "isa = PBXGroup;"]
             ++ [] ++ [t3 "children = ("] ++ [t4 "A10000009 /* Old.swift */,"]
             ++ [t3 ");"] ++ [t3 "path = Storage;"] ++ [t2 "};"] ++ ["y"] ++ ["z"])
          (make_plan [])
  = match rewrite ["z"] (make_plan []) with
    | Some tail =>
        Some (plain_pass (make_plan []) ["x"]
                ++ [t2 "A10000035 /* Storage */ = {"; t3 "isa = PBXGroup;"]
                ++ [] ++ [t3 "children = ("] ++ [t4 "A10000009 /* Old.swift */,"]
                ++ map (fun ch => child_line (fst ch) (snd ch))
                       [(gen_id 70000, DATA_MODEL)]
                ++ [t3 ");"] ++ [t3 "path = Storage;"] ++ [t2 "};"]
                ++ [t2 "A10000035 /* Storage */ = {"] ++ tail)
    | None => None
    end.
Proof.
  apply (fcf_group_record_repeats_its_header [] "A10000035"
           [(gen_id 70000, DATA_MODEL)] ["x"] [] [t4 "A10000009 /* Old.swift */,"]
           [t3 "path = Storage;"] ["z"]
           (t2 "A10000035 /* Storage */ = {") (t3 "isa = PBXGroup;")
           (t3 "children = (") (t3 ");") (t2 "};") "y").
  - vm_compute. reflexivity.
  - constructor; [vm_compute; reflexivity | constructor].
  - vm_compute. reflexivity.
  - vm_compute. reflexivity.
  - intros g I N. vm_compute in I. destruct I as [<-|[]]. now elim N.
  - vm_compute. reflexivity.
  - vm_compute. reflexivity.
  - vm_compute. reflexivity.
  - vm_compute. reflexivity.
  - constructor.
  - vm_compute. reflexivity.
  - constructor; [vm_compute; reflexivity | constructor].
  - vm_compute. reflexivity.
  - constructor; [vm_compute; reflexivity | constructor].
  - vm_compute. reflexivity.
Defined.

End FinalCompleteFixFacts.

(** ** Runs with nothing to add *)

Module NothingToAdd.
Import Py PyFacts Render.

Lemma filter_known (known scan : list string) :
  Forall (fun n => mem n known = true) scan ->
  filter (fun n => negb (mem n known)) scan = [].
Proof.
  induction 1 as [|n r H _ IH]; [reflexivity|]. cbn [filter]. now rewrite H.
Qed.

Lemma pf_to_add_nil (scan : list string) :
  Forall (fun n => mem n curr = true) scan -> ProperFix.to_add scan = [].
Proof. intros E. unfold ProperFix.to_add. now rewrite filter_known. Qed.

Lemma pf_build_nothing (a : ProperFix.anchors) (lines : list string) :
  ProperFix.build a (ProperFix.mkEntries [] [] []) lines = lines.
Proof.
  unfold ProperFix.build. generalize 0 as k.
  induction lines as [|x r IH]; intros k; [reflexivity|].
  cbn [List.length seq combine flat_map fst snd ProperFix.build_files
       ProperFix.file_refs ProperFix.source_entries].
  rewrite IH.
  now destruct (ProperFix.at_idx _ k), (ProperFix.at_idx _ k), (ProperFix.at_idx _ k).
Qed.

Lemma fp_files_nil (scan : list string) :
  Forall (fun n => mem n FixProject.current_files = true) scan ->
  FixProject.files scan = [].
Proof. intros E. unfold FixProject.files. now rewrite filter_known. Qed.

Lemma fp_assemble_nothing (lines : list string) :
  FixProject.assemble (FixProject.mkEntries [] [] []) lines = lines.
Proof.
  unfold FixProject.assemble. generalize 0 as k.
  induction lines as [|x r IH]; intros k; [reflexivity|].
  cbn [List.length seq combine flat_map fst snd]. rewrite IH.
  unfold FixProject.after. cbn [FixProject.builds FixProject.refs FixProject.sources].
  now destruct (Nat.eqb k 16), (Nat.eqb k 29), (Nat.eqb k 293).
Qed.

End NothingToAdd.

(** * The claims *)




(** C8 (amended).  The backup written before the rewrite is kept in every
    outcome, and when the validation of the written candidate fails the
    script reports the failure and writes the text it read back to the
    manifest.  The text read, which the backup holds too, is the file
    with every CR LF and CR turned into LF: it is the file byte for byte
    exactly when the file holds no CR.  manual_fix.py reads the manifest;
    ULTIMATE_FIX.py reads [project.pbxproj.manual_backup], so it is the
    text of that copy the manifest then holds. *)
Theorem C8_failed_validation_restores_loaded_text :
  (forall (files : list string) (d : Disk.fs) (original : string),
     d Disk.Manifest = Some original ->
     let r := ManualFix.main_with files d in
     let loaded := Py.universal_newlines original in
     Disk.disk r Disk.ManualBackup = Some loaded
     /\ (loaded = original <-> Py.char_free "013" original = true)
     /\ forall output,
          ManualFix.rewrite (Py.splitlines original)
            (ManualFix.gen_entries 60000 files) = Some output ->
          ManualFix.valid (Py.join_nl output ++ String "010" "") = false ->
          Disk.said r = Disk.ValidationFailed
          /\ Disk.disk r Disk.Manifest = Some loaded)
  /\
  (forall (fm : Dict.t string) (d : Disk.fs) (text : string),
     d Disk.ManualBackup = Some text ->
     let r := UltimateFix.main_with fm d in
     let loaded := Py.universal_newlines text in
     Disk.disk r Disk.UltimateBackup = Some loaded
     /\ (loaded = text <-> Py.char_free "013" text = true)
     /\ forall output,
          UltimateFix.rewrite (Py.splitlines text)
            (UltimateFix.make_plan UltimateFix.BASE_GROUPS fm) = Some output ->
          UltimateFix.valid (Py.join_nl output ++ String "010" "") = false ->
          Disk.said r = Disk.ValidationFailed
          /\ Disk.disk r Disk.Manifest = Some loaded).
Proof.
  split.
  - intros files d original M. unfold ManualFix.main_with, Disk.read_text.
    rewrite M. cbn [option_map]. rewrite PyFacts.splitlines_universal_newlines.
    destruct (ManualFix.rewrite _ _) as [output|] eqn:R.
    + split; [now destruct (ManualFix.valid _)|].
      split; [apply PyFacts.universal_newlines_fixed|].
      intros o E V. injection E as <-. rewrite V. now split.
    + split; [reflexivity|].
      split; [apply PyFacts.universal_newlines_fixed | discriminate].
  - intros fm d text M. unfold UltimateFix.main_with, Disk.read_text.
    rewrite M. cbn [option_map]. rewrite PyFacts.splitlines_universal_newlines.
    destruct (UltimateFix.rewrite _ _) as [output|] eqn:R.
    + split; [now destruct (UltimateFix.valid _)|].
      split; [apply PyFacts.universal_newlines_fixed|].
      intros o E V. injection E as <-. rewrite V. now split.
    + split; [reflexivity|].
      split; [apply PyFacts.universal_newlines_fixed | discriminate].
Qed.

Lemma C8_witness :
  (let r := ManualFix.main ["A.swift"] (Sample.only_manifest Sample.crlf) in
   Disk.said r = Disk.ValidationFailed
   /\ Disk.disk r Disk.Manifest = Some Sample.crlf_read)
  /\
  (let r := UltimateFix.main [("A.swift", "Core")]
              (Sample.with_clean_copy Sample.crlf "x") in
   Disk.said r = Disk.ValidationFailed
   /\ Disk.disk r Disk.Manifest = Some Sample.crlf_read).
Proof.
  destruct C8_failed_validation_restores_loaded_text as [P Q]. split.
  - apply (proj2 (proj2 (P (ManualFix.new_files ["A.swift"])
                           (Sample.only_manifest Sample.crlf) Sample.crlf eq_refl))
             ["// a"; "// b"]);
      vm_compute; reflexivity.
  - apply (proj2 (proj2 (Q (UltimateFix.file_map [("A.swift", "Core")])
                           (Sample.with_clean_copy Sample.crlf "x") Sample.crlf
                           eq_refl))
             ["// a"; "// b"]);
      vm_compute; reflexivity.
Defined.

(** C8 fails as stated for ULTIMATE_FIX.py: with a manifest that differs
    from the clean copy, a failed validation leaves the clean copy in the
    manifest, not the manifest of before the run. *)
Lemma C8_counterexample :
  let d := Sample.with_clean_copy "clean" "current" in
  let r := UltimateFix.main [] d in
  Disk.said r = Disk.ValidationFailed
  /\ d Disk.Manifest = Some "current"
  /\ Disk.disk r Disk.Manifest = Some "clean"
  /\ Disk.disk r Disk.Manifest <> d Disk.Manifest.
Proof.
  repeat split; try (vm_compute; reflexivity).
  vm_compute. discriminate.
Qed.

(** C9 (amended).  manual_fix.py and ULTIMATE_FIX.py have no run with an
    empty list of new files: the data model is always in the list, also
    when the scan finds no new Swift file.  What a run of manual_fix.py
    writes to the manifest is the text it read, when it restores, or the
    lines of that text ([splitlines]) with rendered lines inserted,
    joined by LF, with a final LF.  In proper_fix.py (when the directory
    of the data model is missing) and in fix_project.py the list is empty
    when the scan finds no new Swift file: every text such a run writes
    to the manifest is the text it read, that is the manifest with every
    CR LF and CR turned into LF, and the manifest is afterwards byte for
    byte what it was when it held no CR. *)
Theorem C9_nothing_to_add_writes_back_the_text_read :
  (forall scan : list string,
     In Render.DATA_MODEL (ManualFix.new_files scan))
  /\
  (forall scan : list (string * string),
     Dict.get Render.DATA_MODEL (UltimateFix.file_map scan) = Some "Core/Storage")
  /\
  (forall (scan : list string) (d : Disk.fs) (text w : string),
     d Disk.Manifest = Some text ->
     In w (Disk.wrote_manifest (ManualFix.main scan d)) ->
     w = Py.universal_newlines text
     \/ exists output,
          w = (Py.join_nl output ++ String "010" "")%string
          /\ Frame.framed
               (ManualFix.inserted
                  (ManualFix.gen_entries 60000 (ManualFix.new_files scan)))
               (Py.splitlines text) output)
  /\
  (forall (scan : list string) (d : Disk.fs) (text : string),
     d Disk.Manifest = Some text ->
     Forall (fun n => Py.mem n Render.curr = true) scan ->
     let r := ProperFix.main scan false d in
     (forall w, In w (Disk.wrote_manifest r) -> w = Py.universal_newlines text)
     /\ (Py.char_free "013" text = true ->
         Disk.disk r Disk.Manifest = Some text))
  /\
  (forall (scan : list string) (d : Disk.fs) (text : string),
     d Disk.Manifest = Some text ->
     Forall (fun n => Py.mem n FixProject.current_files = true) scan ->
     let r := FixProject.main scan d in
     Disk.wrote_manifest r = [Py.universal_newlines text]
     /\ (Disk.disk r Disk.Manifest = d Disk.Manifest
         <-> Py.char_free "013" text = true)).
Proof.
  split; [|split; [|split; [|split]]].
  - intros scan. unfold ManualFix.new_files. apply in_or_app. right. now left.
  - intros scan. unfold UltimateFix.file_map.
    now rewrite DictFacts.get_set, String.eqb_refl.
  - intros scan d text w M. unfold ManualFix.main, ManualFix.main_with, Disk.read_text.
    rewrite M. cbn [option_map]. rewrite PyFacts.splitlines_universal_newlines.
    destruct (ManualFix.rewrite _ _) as [output|] eqn:R; [|intros []].
    apply ManualFixFacts.mf_rewrite_framed in R.
    destruct (ManualFix.valid _); simpl; intros I.
    + destruct I as [<-|[]]. right. now exists output.
    + destruct I as [<-|[<-|[]]]; [right; now exists output | now left].
  - intros scan d text M E r. unfold r.
    destruct (ProperFix.all_found
                (ProperFix.locate (Py.split_nl (Py.universal_newlines text))))
      eqn:A.
    + rewrite (ProperFixRuns.main_found scan false d text M A).
      rewrite (NothingToAdd.pf_to_add_nil scan E).
      change (ProperFix.gen_entries [] false) with (ProperFix.mkEntries [] [] []).
      rewrite NothingToAdd.pf_build_nothing, PyFacts.join_split_nl.
      split.
      * intros w [<-|[]]. reflexivity.
      * intros F. cbn. now rewrite (PyFacts.universal_newlines_plain text F).
    + destruct (ProperFixFacts.not_found_no_write scan false d text M A)
        as (_ & W & D).
      rewrite W, D. split; [intros w [] | reflexivity].
  - intros scan d text M E r. unfold r, FixProject.main, Disk.read_text.
    rewrite M. cbn [option_map]. rewrite (NothingToAdd.fp_files_nil scan E).
    change (FixProject.gen_entries 50000 []) with (FixProject.mkEntries [] [] []).
    rewrite NothingToAdd.fp_assemble_nothing, PyFacts.join_split_nl.
    split; [reflexivity|]. cbn. rewrite <- PyFacts.universal_newlines_fixed.
    split; [|congruence]. intros H. now injection H.
Qed.

Lemma C9_witness :
  (exists w,
     Disk.wrote_manifest (ManualFix.main [] Sample.disk) = [w]
     /\ (w = Sample.text
         \/ exists output,
              w = (Py.join_nl output ++ String "010" "")%string
              /\ Frame.framed
                   (ManualFix.inserted
                      (ManualFix.gen_entries 60000 (ManualFix.new_files [])))
                   (Py.splitlines Sample.text) output))
  /\ Disk.disk (ProperFix.main ["Constants.swift"] false Sample.disk) Disk.Manifest
     = Some Sample.text
  /\ Disk.wrote_manifest
       (FixProject.main ["Constants.swift"] (Sample.only_manifest Sample.crlf))
     = [Sample.crlf_read].
Proof.
  destruct C9_nothing_to_add_writes_back_the_text_read as (_ & _ & M & P & Q).
  split; [|split].
  - eexists. split; [vm_compute; reflexivity|].
    exact (M [] Sample.disk Sample.text _ eq_refl
             ltac:(vm_compute; left; reflexivity)).
  - apply (proj2 (P ["Constants.swift"] Sample.disk Sample.text eq_refl
                    ltac:(constructor; [reflexivity | constructor]))).
    reflexivity.
  - apply (proj1 (Q ["Constants.swift"] (Sample.only_manifest Sample.crlf)
                    Sample.crlf eq_refl
                    ltac:(constructor; [reflexivity | constructor]))).
Defined.

(** C9 fails as stated.  A run of manual_fix.py whose scan finds no new
    Swift file still registers the data model: on the sample manifest it
    writes a text that differs from the input and names the data model,
    and the validation passes.  fix_project.py, with nothing to add,
    writes a manifest with CR LF line ends back with LF line ends. *)
Lemma C9_counterexample :
  (let r := ManualFix.main [] Sample.disk in
   Disk.said r = Disk.ValidationPassed
   /\ Py.contains Render.DATA_MODEL Sample.text = false
   /\ exists out,
        Disk.disk r Disk.Manifest = Some out
        /\ out <> Sample.text
        /\ Py.contains Render.DATA_MODEL out = true)
  /\
  (let r := FixProject.main [] (Sample.only_manifest Sample.crlf) in
   Disk.disk r Disk.Manifest = Some Sample.crlf_read
   /\ Sample.crlf_read <> Sample.crlf).
Proof.
  split.
  - split; [vm_compute; reflexivity|]. split; [vm_compute; reflexivity|].
    eexists. split; [vm_compute; reflexivity|].
    split; [|vm_compute; reflexivity].
    apply String.eqb_neq. vm_compute. reflexivity.
  - split; [vm_compute; reflexivity|].
    apply String.eqb_neq. vm_compute. reflexivity.
Qed.

(** C3 (amended).  ULTIMATE_FIX.py, on a document in which no group
    record is rewritten: the text written is the text read, when the run
    restores, or a list of lines joined by LF with a final LF, and that
    list is [splitlines] of the input with only rendered lines inserted,
    every input line kept and in order (so line terminators are
    normalised, not preserved).  fix_project.py: the text written is
    ['\n'.join] of the ['\n']-split lines of the text read with only
    rendered lines inserted; joining those lines alone gives the text
    read, which is the input with every CR LF and CR turned into LF, and
    so the input byte for byte exactly when the input holds no CR. *)
Theorem C3_input_lines_kept_in_order :
  (forall (fm : Dict.t string) (d : Disk.fs) (text w : string),
     d Disk.ManualBackup = Some text ->
     UltimateFix.no_group_hit
       (UltimateFix.make_plan UltimateFix.BASE_GROUPS fm) (Py.splitlines text)
     = true ->
     In w (Disk.wrote_manifest (UltimateFix.main_with fm d)) ->
     w = Py.universal_newlines text
     \/ exists output,
          w = (Py.join_nl output ++ String "010" "")%string
          /\ Frame.framed
               (UltimateFix.inserted
                  (UltimateFix.make_plan UltimateFix.BASE_GROUPS fm))
               (Py.splitlines text) output)
  /\
  (forall (scan : list string) (d : Disk.fs) (text : string),
     d Disk.Manifest = Some text ->
     let loaded := Py.universal_newlines text in
     let e := FixProject.gen_entries 50000 (FixProject.files scan) in
     Disk.wrote_manifest (FixProject.main scan d)
     = [Py.join_nl (FixProject.assemble e (Py.split_nl loaded))]
     /\ Frame.framed (FixProject.inserted e) (Py.split_nl loaded)
          (FixProject.assemble e (Py.split_nl loaded))
     /\ Py.join_nl (Py.split_nl loaded) = loaded
     /\ (loaded = text <-> Py.char_free "013" text = true)).
Proof.
  split.
  - intros fm d text w M N. unfold UltimateFix.main_with, Disk.read_text.
    rewrite M. cbn [option_map]. rewrite PyFacts.splitlines_universal_newlines.
    destruct (UltimateFix.rewrite _ _) as [output|] eqn:R; [|intros []].
    apply (UltimateFixFacts.uf_rewrite_framed _ _ _ N) in R.
    destruct (UltimateFix.valid _); simpl; intros I.
    + destruct I as [<-|[]]. right. now exists output.
    + destruct I as [<-|[<-|[]]]; [right; now exists output | now left].
  - intros scan d text M loaded e. unfold FixProject.main, Disk.read_text.
    rewrite M. cbn [option_map].
    split; [reflexivity|]. split; [apply FixProjectFacts.assemble_framed|].
    split; [apply PyFacts.join_split_nl | apply PyFacts.universal_newlines_fixed].
Qed.

Lemma C3_witness :
  (forall w,
     In w (Disk.wrote_manifest
             (UltimateFix.main [] (Sample.with_clean_copy Sample.text "x"))) ->
     w = Sample.text
     \/ exists output,
          w = (Py.join_nl output ++ String "010" "")%string
          /\ Frame.framed
               (UltimateFix.inserted
                  (UltimateFix.make_plan UltimateFix.BASE_GROUPS
                     (UltimateFix.file_map [])))
               (Py.splitlines Sample.text) output)
  /\
  Disk.wrote_manifest (FixProject.main ["A.swift"] Sample.disk)
  = [Py.join_nl
       (FixProject.assemble
          (FixProject.gen_entries 50000 (FixProject.files ["A.swift"]))
          (Py.split_nl Sample.text))].
Proof.
  destruct C3_input_lines_kept_in_order as [P Q]. split.
  - intros w I.
    exact (P (UltimateFix.file_map []) (Sample.with_clean_copy Sample.text "x")
             Sample.text w eq_refl eq_refl I).
  - exact (proj1 (Q ["A.swift"] Sample.disk Sample.text eq_refl)).
Defined.

(** C3 fails as stated: run on a clean copy whose last line has no final
    newline, ULTIMATE_FIX.py writes the input lines, the build file of
    the data model before the first of them, and a final newline the
    input did not have; and fix_project.py writes a manifest with CR LF
    line ends back with LF line ends. *)
Lemma C3_counterexample :
  (let text := Sample.unterminated_groups in
   let r := UltimateFix.main [] (Sample.with_clean_copy text text) in
   Py.ends_nl text = false
   /\ exists ins,
        Disk.wrote_manifest r
        = [(Py.join_nl (ins :: Py.splitlines text) ++ String "010" "")%string]
        /\ Disk.said r = Disk.ValidationPassed)
  /\
  (let r := FixProject.main [] (Sample.only_manifest Sample.crlf) in
   Disk.wrote_manifest r = [Sample.crlf_read]
   /\ Sample.crlf_read <> Sample.crlf).
Proof.
  split.
  - split; [reflexivity|].
    exists (Render.build_line (gen_id 90001) (gen_id 90000) Render.DATA_MODEL).
    split; vm_compute; reflexivity.
  - split; [vm_compute; reflexivity|].
    apply String.eqb_neq. vm_compute. reflexivity.
Qed.

(** C10: the claim fails on ULTIMATE_FIX.py.  The manifest below contains
    both validated sentinel lines and the rewrite completes, yet the line
    ["/* End PBXGroup section */"], which follows the record of the group
    [A10000024], is not copied: the [continue] of line 212 resumes the
    [for] loop over the groups, so line 228 appends the group's header a
    second time and line 229 steps over the line after the record.  The
    validation fails and the restore branch runs. *)
Theorem C10_ultimate_fix_drops_a_sentinel_line :
  let text := Sample.group_text in
  let p := UltimateFix.make_plan UltimateFix.BASE_GROUPS (UltimateFix.file_map []) in
  let r := UltimateFix.main [] (Sample.with_clean_copy text text) in
  Py.contains Render.END_BUILDFILE text = true
  /\ Py.contains Render.END_GROUP text = true
  /\ (exists output,
        UltimateFix.rewrite (Py.splitlines text) p = Some output
        /\ Render.renders Render.END_GROUP output = false
        /\ List.length
             (filter (String.eqb (Render.t2 "A10000024 /* Core */ = {")) output)
           = 2)
  /\ Disk.said r = Disk.ValidationFailed
  /\ exists candidate, Disk.wrote_manifest r = [candidate; text].
Proof.
  split; [reflexivity|]. split; [reflexivity|]. split.
  - eexists. split; [vm_compute; reflexivity|].
    split; vm_compute; reflexivity.
  - split; [vm_compute; reflexivity|].
    eexists. vm_compute. reflexivity.
Qed.




(** C5 (amended).  ULTIMATE_FIX.py creates one group for each distinct
    group path of [file_map] that the group table lacks, and no group for
    the intermediate segments of such a path.  The new group is named
    after the last segment and records the rest of the path as its
    parent; its children are the files mapped to exactly its path, in
    order, so two files at the same new path share the one group. *)
Theorem C5_one_group_per_missing_path :
  forall (base fm : Dict.t string),
    let needed := UltimateFix.new_groups_needed base fm in
    let sgs := UltimateFix.make_subgroups 80000 needed in
    Dict.keys sgs = needed
    /\ NoDup needed
    /\ (forall g, In g needed
                  <-> In g (Dict.values fm) /\ ~ In g (Dict.keys base))
    /\ (forall g sg,
          Dict.get g (UltimateFix.subgroups (UltimateFix.gen_files sgs fm))
          = Some sg ->
          map snd (UltimateFix.sg_files sg) = UltimateFix.files_at g fm
          /\ UltimateFix.sg_name sg = last (Py.split "/" g) ""
          /\ UltimateFix.sg_parent sg
             = Py.join "/" (removelast (Py.split "/" g)))
    /\ (forall group_path group_id g sg,
          let p := UltimateFix.make_plan base fm in
          In (g, sg) (UltimateFix.subgroups (UltimateFix.p_gen p)) ->
          UltimateFix.sg_parent sg = group_path ->
          In (Render.child_line (UltimateFix.sg_id sg) (UltimateFix.sg_name sg))
             (UltimateFix.new_children p group_path group_id)).
Proof.
  intros base fm needed sgs. split; [apply GroupFacts.make_subgroups_keys|].
  split; [apply SortFacts.sorted_set_NoDup|].
  split; [apply GroupFacts.new_groups_needed_In|]. split.
  - intros g sg H. unfold UltimateFix.gen_files in H.
    destruct (GroupFacts.gen_files_children _ _ _ _ H)
      as (sg0 & G & F & _ & Nm & P).
    cbn [UltimateFix.subgroups] in G.
    destruct (GroupFacts.make_subgroups_get _ _ _ _ G) as (E & Nm0 & _ & P0).
    rewrite E in F. now rewrite F, Nm, P.
  - intros group_path group_id g sg p. apply GroupFacts.new_children_links.
Qed.

Lemma C5_witness :
  let fm := UltimateFix.file_map
              [ ("HomeVM.swift", "Core/Home/ViewModels");
                ("ListVM.swift", "Core/Home/ViewModels") ] in
  let sgs := UltimateFix.make_subgroups 80000
               (UltimateFix.new_groups_needed UltimateFix.BASE_GROUPS fm) in
  exists sg,
    Dict.get "Core/Home/ViewModels"
      (UltimateFix.subgroups (UltimateFix.gen_files sgs fm)) = Some sg
    /\ map snd (UltimateFix.sg_files sg) = ["HomeVM.swift"; "ListVM.swift"].
Proof.
  intros fm sgs.
  destruct (Dict.get "Core/Home/ViewModels"
              (UltimateFix.subgroups (UltimateFix.gen_files sgs fm)))
    as [sg|] eqn:G; [|vm_compute in G; discriminate].
  exists sg. split; [reflexivity|].
  destruct (C5_one_group_per_missing_path UltimateFix.BASE_GROUPS fm)
    as (_ & _ & _ & H & _).
  now rewrite (proj1 (H "Core/Home/ViewModels" sg G)).
Defined.

(** C5 fails as stated: for a file at [Core/Home/ViewModels], of which
    only [Core] is a known group, one group is created, not two; no group
    [Core/Home] exists afterwards, and the new group is added to the
    children of no group. *)
Lemma C5_counterexample :
  let fm := UltimateFix.file_map [("HomeVM.swift", "Core/Home/ViewModels")] in
  let p := UltimateFix.make_plan UltimateFix.BASE_GROUPS fm in
  let sgs := UltimateFix.subgroups (UltimateFix.p_gen p) in
  Dict.has "Core" UltimateFix.BASE_GROUPS = true
  /\ Dict.has "Core/Home" UltimateFix.BASE_GROUPS = false
  /\ Dict.keys sgs = ["Core/Home/ViewModels"]
  /\ Dict.has "Core/Home" (UltimateFix.p_groups p) = false
  /\ (exists sg,
        Dict.get "Core/Home/ViewModels" sgs = Some sg
        /\ UltimateFix.sg_parent sg = "Core/Home"
        /\ map snd (UltimateFix.sg_files sg) = ["HomeVM.swift"]
        /\ forallb
             (fun g => negb (Render.renders (UltimateFix.sg_id sg)
                               (UltimateFix.new_children p (fst g) (snd g))))
             (UltimateFix.p_groups p) = true).
Proof.
  split; [vm_compute; reflexivity|].
  split; [vm_compute; reflexivity|].
  split; [vm_compute; reflexivity|].
  split; [vm_compute; reflexivity|].
  eexists. split; [vm_compute; reflexivity|].
  split; [vm_compute; reflexivity|].
  split; vm_compute; reflexivity.
Qed.




(** C6 (amended).  add-files-to-xcode.py creates a build file and a phase
    line for a new file exactly when its type is [sourcecode.swift]: the
    data model gets a file reference only.  manual_fix.py creates a file
    reference, a build file and a phase line for every new file, the data
    model included. *)
Theorem C6_build_binding_by_kind_per_script :
  (forall (draws : nat -> nat) (files : list AddFiles.file_info),
     let st := AddFiles.gen draws files in
     List.length (AddFiles.file_refs st) = List.length files
     /\ List.length (AddFiles.build_files st)
        = List.length (filter AddFiles.is_source files)
     /\ ((forall f, In f files -> AddFiles.parent f <> "SOURCES") ->
         map snd (AddFiles.children_of "SOURCES" st)
         = map AddFiles.name (filter AddFiles.is_source files)))
  /\
  (forall (scan : list (string * string)) (f : AddFiles.file_info),
     In f (AddFiles.files_to_add scan true) ->
     AddFiles.name f = Render.DATA_MODEL ->
     Py.mem Render.DATA_MODEL (map fst scan) = false ->
     AddFiles.is_source f = false)
  /\
  (forall (seed : N) (files : list string) (k : nat) (f : string),
     nth_error files k = Some f ->
     let e := ManualFix.gen_entries seed files in
     let fid := gen_id (seed + 2 * N.of_nat k) in
     let bid := gen_id (seed + 2 * N.of_nat k + 1) in
     nth_error (ManualFix.refs e) k
     = Some (Render.ref_line fid f (Render.ftype_of f))
     /\ nth_error (ManualFix.builds e) k = Some (Render.build_line bid fid f)
     /\ nth_error (ManualFix.sources e) k = Some (Render.source_line bid f))
  /\
  (forall scan : list string, In Render.DATA_MODEL (ManualFix.new_files scan)).
Proof.
  split; [|split; [|split]].
  - intros draws files st. unfold st, AddFiles.gen.
    rewrite AddFilesFacts.gen_refs_length, AddFilesFacts.gen_builds_length.
    split; [reflexivity|]. split; [reflexivity|].
    intros P. now rewrite (AddFilesFacts.gen_sources draws files P).
  - intros scan f I Nm M. unfold AddFiles.files_to_add in I.
    apply in_app_or in I as [I|[<-|[]]]; [|reflexivity].
    apply in_map_iff in I as ([n p] & <- & I). apply filter_In in I as [I _].
    simpl in Nm. subst n. exfalso.
    assert (T : Py.mem Render.DATA_MODEL (map fst scan) = true).
    { apply IdFacts.mem_In, in_map_iff. now exists (Render.DATA_MODEL, p). }
    congruence.
  - exact (fun seed files => EntryFacts.entries_of_file files seed).
  - intros scan. unfold ManualFix.new_files. apply in_or_app. right. now left.
Qed.

Lemma C6_witness :
  (map snd (AddFiles.children_of "SOURCES"
              (AddFiles.gen (fun n => n)
                 (AddFiles.files_to_add [("A.swift", "Core/Models")] true)))
   = ["A.swift"])
  /\
  nth_error
    (ManualFix.sources (ManualFix.gen_entries 60000 (ManualFix.new_files [])))
    0
  = Some (Render.source_line (gen_id 60001) Render.DATA_MODEL).
Proof.
  destruct C6_build_binding_by_kind_per_script as (A & _ & M & _). split.
  - apply (A (fun n => n)
             (AddFiles.files_to_add [("A.swift", "Core/Models")] true)).
    intros f [<-|[<-|[]]]; discriminate.
  - apply (M 60000%N (ManualFix.new_files []) 0 Render.DATA_MODEL eq_refl).
Defined.

(** C6 fails as stated: manual_fix.py gives the data model, whose type is
    [wrapper.xcdatamodeld], a build file and a phase line. *)
Lemma C6_counterexample :
  let e := ManualFix.gen_entries 60000 (ManualFix.new_files []) in
  ManualFix.new_files [] = [Render.DATA_MODEL]
  /\ Render.ftype_of Render.DATA_MODEL = "wrapper.xcdatamodeld"
  /\ ManualFix.builds e
     = [Render.build_line (gen_id 60001) (gen_id 60000) Render.DATA_MODEL]
  /\ ManualFix.sources e
     = [Render.source_line (gen_id 60001) Render.DATA_MODEL].
Proof. repeat split. Qed.

